(** * Event Management System: the data-consistency core of [main.py]

    A shallow embedding of the [Database] class of [main.py] (the cache
    mirror, the cascading deletion of an event, payment confirmation, the
    tiered queries) and of the ticket form of [EventManagementApp], with the
    properties of the specification stated and settled on it.

    Modelling conventions.
    - MySQL is the authoritative store.  A table is the list of its rows, in
      the order [SELECT *] returns them.  The connection works on a
      transaction: statements act on the [pending] tables, [commit] publishes
      them to [committed], [rollback] discards them.
    - A storage failure ([mysql.connector.Error]) is decided by a fault
      plan: every interaction with the server (a statement, a statement of a
      stored routine, a commit) consumes one entry of [faults]; [true] makes
      that interaction raise.  A theorem that quantifies over all states
      therefore covers every pattern of storage failures, among them an
      absent routine or table and the refusal of a row by a constraint or a
      trigger of the schema.
    - The connection object is modelled in two layers.  [Module Database]
      gives the methods on a connection that is connected: the test of
      lines 56-57 of [execute_query] is false and the method goes on at
      line 59.  [Module Session], at the end of the definitions, gives
      [execute_query] in full, with the test, the call of [connect] and
      the AttributeError that a failed [connect] leaves behind, and on top
      of it the reload of the cache and the two registrations.  The two
      layers agree whenever the connection is up or can be reopened
      (lemmas [execute_query_link] and [execute_query_fetch_link]).
    - Integers are unbounded, DECIMAL(10,2) amounts are counted in
      hundredths, timestamps are counted in seconds.  A price is thus an
      amount already rounded to the hundredth; what the methods do on a
      float with more decimals is not modelled.
    - The triggers of the schema are not modelled: one that refuses a row
      is a fault of the statement; the one that logs the deletion of an
      event row only appends to [Log].
    - [export_to_sql_file], the dialogs and the widgets are not modelled:
      they neither change the tables nor the mirror. *)

From Stdlib Require Import ZArith List String Bool Lia DecimalString.
Import ListNotations.
Local Open Scope string_scope.
Local Open Scope Z_scope.

(** ** Schema *)

Inductive TicketStatus : Type := Pending | Confirmed | Cancelled.

Definition TicketStatus_eqb (a b : TicketStatus) : bool :=
  match a, b with
  | Pending, Pending | Confirmed, Confirmed | Cancelled, Cancelled => true
  | _, _ => false
  end.

Record Organizer : Type := mkOrganizer
  { Organizer_id : Z; Organizer_Name : string;
    Organizer_Contact : string; Organizer_Email : string }.

Record Venue : Type := mkVenue
  { Venue_id : Z; Venue_Name : string; Location : string; Capacity : Z }.

Record Event : Type := mkEvent
  { Event_id : Z; Event_Name : string; Event_Type : string;
    Event_Date : string; Event_Time : string;
    Event_Venue_id : Z; Event_Organizer_id : Z }.

Record Participant : Type := mkParticipant
  { Participant_id : Z; Participant_Name : string;
    Participant_Email : string; Participant_Contact : string }.

Record Ticket : Type := mkTicket
  { Ticket_id : Z; Ticket_Event_id : Z; Ticket_Participant_id : Z;
    Status : TicketStatus; Price : Z }.

Record Payment : Type := mkPayment
  { Payment_id : Z; Payment_Ticket_id : Z; Amount : Z;
    Method : string; Payment_Date : string }.

Record Sponsor : Type := mkSponsor
  { Sponsor_id : Z; Sponsor_Name : string;
    Sponsor_Event_id : Z; Contribution : Z }.

Record Volunteer : Type := mkVolunteer
  { Volunteer_id : Z; Volunteer_Name : string; Volunteer_Email : string;
    Volunteer_Contact : string; Volunteer_Type : string;
    Volunteer_Event_id : Z }.

Record User : Type := mkUser
  { user_id : Z; username : string; password : string;
    fullname : string; user_email : string; role : string }.

(** A row of the [Log] table. *)
Record LogRow : Type := mkLogRow { Timestamp : Z; Log_Message : string }.

(** An entry of the in-memory list [self.logs]. *)
Record LogEntry : Type := mkLogEntry { timestamp : Z; message : string }.

(** The tables of the authoritative store. *)
Record Tables : Type := mkTables
  { Organizer_tbl : list Organizer;
    Venue_tbl : list Venue;
    Participants_tbl : list Participant;
    Event_tbl : list Event;
    Sponsor_tbl : list Sponsor;
    Volunteers_tbl : list Volunteer;
    Ticket_tbl : list Ticket;
    Payment_tbl : list Payment;
    users_tbl : list User;
    Log_tbl : list LogRow }.

Definition with_Event_tbl (x : list Event) (t : Tables) : Tables :=
  mkTables (Organizer_tbl t) (Venue_tbl t) (Participants_tbl t) x
    (Sponsor_tbl t) (Volunteers_tbl t) (Ticket_tbl t) (Payment_tbl t)
    (users_tbl t) (Log_tbl t).

Definition with_Sponsor_tbl (x : list Sponsor) (t : Tables) : Tables :=
  mkTables (Organizer_tbl t) (Venue_tbl t) (Participants_tbl t) (Event_tbl t)
    x (Volunteers_tbl t) (Ticket_tbl t) (Payment_tbl t)
    (users_tbl t) (Log_tbl t).

Definition with_Volunteers_tbl (x : list Volunteer) (t : Tables) : Tables :=
  mkTables (Organizer_tbl t) (Venue_tbl t) (Participants_tbl t) (Event_tbl t)
    (Sponsor_tbl t) x (Ticket_tbl t) (Payment_tbl t)
    (users_tbl t) (Log_tbl t).

Definition with_Ticket_tbl (x : list Ticket) (t : Tables) : Tables :=
  mkTables (Organizer_tbl t) (Venue_tbl t) (Participants_tbl t) (Event_tbl t)
    (Sponsor_tbl t) (Volunteers_tbl t) x (Payment_tbl t)
    (users_tbl t) (Log_tbl t).

Definition with_Payment_tbl (x : list Payment) (t : Tables) : Tables :=
  mkTables (Organizer_tbl t) (Venue_tbl t) (Participants_tbl t) (Event_tbl t)
    (Sponsor_tbl t) (Volunteers_tbl t) (Ticket_tbl t) x
    (users_tbl t) (Log_tbl t).

Definition with_Log_tbl (x : list LogRow) (t : Tables) : Tables :=
  mkTables (Organizer_tbl t) (Venue_tbl t) (Participants_tbl t) (Event_tbl t)
    (Sponsor_tbl t) (Volunteers_tbl t) (Ticket_tbl t) (Payment_tbl t)
    (users_tbl t) x.

Definition with_Participants_tbl (x : list Participant) (t : Tables)
  : Tables :=
  mkTables (Organizer_tbl t) (Venue_tbl t) x (Event_tbl t)
    (Sponsor_tbl t) (Volunteers_tbl t) (Ticket_tbl t) (Payment_tbl t)
    (users_tbl t) (Log_tbl t).

Definition with_users_tbl (x : list User) (t : Tables) : Tables :=
  mkTables (Organizer_tbl t) (Venue_tbl t) (Participants_tbl t) (Event_tbl t)
    (Sponsor_tbl t) (Volunteers_tbl t) (Ticket_tbl t) (Payment_tbl t)
    x (Log_tbl t).

(** The in-memory mirror: the attributes of the [Database] object that
    [refresh_all_data] assigns. *)
Record Mirror : Type := mkMirror
  { organizers : list Organizer;
    venues : list Venue;
    participants : list Participant;
    events : list Event;
    sponsors : list Sponsor;
    volunteers : list Volunteer;
    tickets : list Ticket;
    payments : list Payment;
    users : list User;
    logs : list LogEntry }.

(** ** Statements sent over the connection *)

Inductive TableName : Type :=
  | T_Organizer | T_Venue | T_Participants | T_Event | T_Sponsor
  | T_Volunteers | T_Ticket | T_Payment | T_users.

Inductive Stmt : Type :=
  | SelectAll (t : TableName)
  | SelectLog100
  | SelectTicketIdsOfEvent (event_id : Z)
  | DeletePaymentOfTicket (ticket_id : Z)
  | DeleteTicketsOfEvent (event_id : Z)
  | DeleteVolunteersOfEvent (event_id : Z)
  | DeleteSponsorsOfEvent (event_id : Z)
  | DeleteEvent (event_id : Z)
  | DeleteTicket (ticket_id : Z)
  | InsertLog (log_message : string)
  | InsertTicket (t : Ticket)
  | UpdateTicket (t : Ticket)
  | InsertPayment (ticket_id amount : Z) (method : string)
  | UpdateTicketStatus (ticket_id : Z) (s : TicketStatus)
  | SelectFN_GetAvailableCapacity (event_id : Z)
  | SelectCapacityMinusConfirmed (event_id : Z)
  | SelectFN_GetTotalConfirmedTickets (event_id : Z)
  | SelectCountConfirmed (event_id : Z)
  | SelectFN_GetOrganizerName (organizer_id : Z)
  | SelectOrganizerName (organizer_id : Z)
  | CallSP_ConfirmPayment (ticket_id : Z) (method : string) (amount : Z)
  | CallSP_MarkTicketAsPending (ticket_id : Z)
  | InsertParticipant (p : Participant)
  | InsertVolunteer (v : Volunteer)
  | InsertSponsor (s : Sponsor)
  | InsertUser (key : option Z) (new_username : string)
  | SelectUserByCredentials (given_username given_password : string)
  | CallSP_GetEventSummary (event_id : Z)
  | Commit
  | Rollback.

(** ** Program state *)

Record Clock : Type := mkClock
  { CURRENT_TIMESTAMP : Z;   (* default of Log.Timestamp *)
    CURDATE : string;        (* CURDATE() of the server *)
    datetime_now : Z }.      (* datetime.now() of the application *)

Record State : Type := mkState
  { pending : Tables;        (* the tables as this connection sees them *)
    committed : Tables;      (* the tables as of the last commit *)
    faults : list bool;      (* the fault plan still to be consumed *)
    issued : list Stmt;      (* statements sent so far, oldest first *)
    mirror : Mirror;         (* the cached tables of the Database object *)
    clock : Clock }.

Definition with_pending (x : Tables) (st : State) : State :=
  mkState x (committed st) (faults st) (issued st) (mirror st) (clock st).
Definition with_committed (x : Tables) (st : State) : State :=
  mkState (pending st) x (faults st) (issued st) (mirror st) (clock st).
Definition with_faults (x : list bool) (st : State) : State :=
  mkState (pending st) (committed st) x (issued st) (mirror st) (clock st).
Definition with_issued (x : list Stmt) (st : State) : State :=
  mkState (pending st) (committed st) (faults st) x (mirror st) (clock st).
Definition with_mirror (x : Mirror) (st : State) : State :=
  mkState (pending st) (committed st) (faults st) (issued st) x (clock st).

(** ** Exceptions, and the monad of stateful code that may raise

    Python keeps the effects made before an exception is raised, so the
    state is returned beside the exception. *)

Inductive Exn : Type :=
  | MySQLError                 (* mysql.connector.Error *)
  | ValueError (msg : string)
  | AttributeError.            (* a method called on None *)

Inductive Outcome (A : Type) : Type :=
  | Ret (a : A)
  | Raise (e : Exn).
Arguments Ret {A} a.
Arguments Raise {A} e.

Definition M (A : Type) : Type := State -> Outcome A * State.

Definition ret {A} (a : A) : M A := fun st => (Ret a, st).

Definition raise {A} (e : Exn) : M A := fun st => (Raise e, st).

Definition bind {A B} (m : M A) (k : A -> M B) : M B :=
  fun st =>
    match m st with
    | (Ret a, st') => k a st'
    | (Raise e, st') => (Raise e, st')
    end.

Notation "x <- m ;; k" := (bind m (fun x => k))
  (at level 61, m at next level, right associativity).
Notation "m ;;; k" := (bind m (fun _ => k))
  (at level 61, right associativity).

Definition is_Error (e : Exn) : bool :=
  match e with MySQLError => true | _ => false end.

Definition any_exception (e : Exn) : bool := true.

(** [try: m  except <caught>: h]. *)
Definition try_except {A} (m : M A) (caught : Exn -> bool) (h : Exn -> M A)
  : M A :=
  fun st =>
    match m st with
    | (Ret a, st') => (Ret a, st')
    | (Raise e, st') => if caught e then h e st' else (Raise e, st')
    end.

Definition get_mirror : M Mirror := fun st => (Ret (mirror st), st).
Definition set_mirror (f : Mirror -> Mirror) : M unit :=
  fun st => (Ret tt, with_mirror (f (mirror st)) st).
Definition get_clock : M Clock := fun st => (Ret (clock st), st).

(** [for x in xs: body x]. *)
Fixpoint for_each {A} (xs : list A) (body : A -> M unit) : M unit :=
  match xs with
  | [] => ret tt
  | x :: xs' => body x ;;; for_each xs' body
  end.

(** ** The connection *)

(** The next entry of the fault plan; an exhausted plan has no fault. *)
Definition next_fault : M bool :=
  fun st => (Ret (hd false (faults st)), with_faults (tl (faults st)) st).

Definition send (s : Stmt) : M unit :=
  fun st => (Ret tt, with_issued (issued st ++ [s]) st).

(** One statement run by the server on the pending tables.  [run] gives
    the result and the new tables, or [None] when the statement itself is
    in error. *)
Definition server_step {A} (run : Tables -> option (A * Tables)) : M A :=
  b <- next_fault ;;
  if b then raise MySQLError
  else fun st =>
    match run (pending st) with
    | Some (a, t') => (Ret a, with_pending t' st)
    | None => (Raise MySQLError, st)
    end.

(** [cursor.execute(stmt)]. *)
Definition cursor_execute {A} (s : Stmt) (run : Tables -> option (A * Tables))
  : M A :=
  send s ;;; server_step run.

Definition reads {A} (q : Tables -> option A) (t : Tables)
  : option (A * Tables) :=
  match q t with Some a => Some (a, t) | None => None end.

Definition writes (f : Tables -> Tables) (t : Tables)
  : option (unit * Tables) := Some (tt, f t).

(** [connection.commit()]. *)
Definition connection_commit : M unit :=
  send Commit ;;;
  b <- next_fault ;;
  if b then raise MySQLError
  else fun st => (Ret tt, with_committed (pending st) st).

(** [connection.rollback()]. *)
Definition connection_rollback : M unit :=
  send Rollback ;;;
  fun st => (Ret tt, with_pending (committed st) st).

(** ** The statements of [main.py] as functions on the tables *)

Module SQL.

(** [str(n)] of a Python integer. *)
Definition str (n : Z) : string := NilZero.string_of_int (Z.to_int n).

Definition of_event (event_id : Z) (k : Ticket) : bool :=
  Ticket_Event_id k =? event_id.

Definition confirmed_of_event (event_id : Z) (k : Ticket) : bool :=
  (Ticket_Event_id k =? event_id) && TicketStatus_eqb (Status k) Confirmed.

(** SELECT Ticket_id FROM Ticket WHERE Event_id=%s *)
Definition select_ticket_ids (event_id : Z) (t : Tables) : list Z :=
  map Ticket_id (filter (of_event event_id) (Ticket_tbl t)).

(** DELETE FROM Payment WHERE Ticket_id=%s *)
Definition delete_payment_of_ticket (ticket_id : Z) (t : Tables) : Tables :=
  with_Payment_tbl
    (filter (fun p => negb (Payment_Ticket_id p =? ticket_id)) (Payment_tbl t))
    t.

(** DELETE FROM Ticket WHERE Event_id=%s *)
Definition delete_tickets_of_event (event_id : Z) (t : Tables) : Tables :=
  with_Ticket_tbl
    (filter (fun k => negb (Ticket_Event_id k =? event_id)) (Ticket_tbl t)) t.

(** DELETE FROM Volunteers WHERE Event_id=%s *)
Definition delete_volunteers_of_event (event_id : Z) (t : Tables) : Tables :=
  with_Volunteers_tbl
    (filter (fun v => negb (Volunteer_Event_id v =? event_id))
       (Volunteers_tbl t)) t.

(** DELETE FROM Sponsor WHERE Event_id=%s *)
Definition delete_sponsors_of_event (event_id : Z) (t : Tables) : Tables :=
  with_Sponsor_tbl
    (filter (fun s => negb (Sponsor_Event_id s =? event_id)) (Sponsor_tbl t)) t.

(** DELETE FROM Event WHERE Event_id=%s *)
Definition delete_event_row (event_id : Z) (t : Tables) : Tables :=
  with_Event_tbl
    (filter (fun e => negb (Event_id e =? event_id)) (Event_tbl t)) t.

(** DELETE FROM Ticket WHERE Ticket_id=%s *)
Definition delete_ticket_row (ticket_id : Z) (t : Tables) : Tables :=
  with_Ticket_tbl
    (filter (fun k => negb (Ticket_id k =? ticket_id)) (Ticket_tbl t)) t.

(** INSERT INTO Log (Log_Message) VALUES (%s); the timestamp column takes
    its default. *)
Definition insert_log (now : Z) (log_message : string) (t : Tables) : Tables :=
  with_Log_tbl (Log_tbl t ++ [mkLogRow now log_message]) t.

(** INSERT INTO Ticket (...) VALUES (...): refused when the primary key is
    already taken. *)
Definition insert_ticket (k : Ticket) (t : Tables) : option (unit * Tables) :=
  if existsb (fun k' => Ticket_id k' =? Ticket_id k) (Ticket_tbl t)
  then None
  else Some (tt, with_Ticket_tbl (Ticket_tbl t ++ [k]) t).


(** UPDATE Ticket SET Status=... WHERE Ticket_id=%s *)
Definition update_ticket_status (ticket_id : Z) (s : TicketStatus)
  (t : Tables) : Tables :=
  with_Ticket_tbl
    (map (fun k =>
            if Ticket_id k =? ticket_id
            then mkTicket (Ticket_id k) (Ticket_Event_id k)
                   (Ticket_Participant_id k) s (Price k)
            else k)
       (Ticket_tbl t)) t.

(** The AUTO_INCREMENT key of a new payment: above every key in use. *)
Definition next_payment_id (ps : list Payment) : Z :=
  fold_right (fun p acc => Z.max (Payment_id p) acc) 0 ps + 1.

(** INSERT INTO Payment (Ticket_id, Amount, Method, Date)
    VALUES (%s, %s, %s, CURDATE()) *)
Definition insert_payment (ticket_id amount : Z) (method today : string)
  (t : Tables) : Tables :=
  with_Payment_tbl
    (Payment_tbl t ++
       [mkPayment (next_payment_id (Payment_tbl t)) ticket_id amount method
          today]) t.

(** SELECT ... INTO v: NULL when no row is selected, an error when several
    are. *)
Definition select_into {A} (rows : list A) : option (option A) :=
  match rows with
  | [] => Some None
  | [x] => Some (Some x)
  | _ :: _ :: _ => None
  end.

(** The capacities of Event E JOIN Venue V ON E.Venue_id = V.Venue_id
    WHERE E.Event_id = event_id. *)
Definition joined_capacities (event_id : Z) (t : Tables) : list Z :=
  flat_map
    (fun e =>
       map Capacity
         (filter (fun v => Venue_id v =? Event_Venue_id e) (Venue_tbl t)))
    (filter (fun e => Event_id e =? event_id) (Event_tbl t)).

(** COUNT of the tickets WHERE Event_id = event_id AND Status = 'Confirmed';
    also [sum(1 for t in tickets if ...)] over a cached list. *)
Definition count_confirmed (event_id : Z) (ts : list Ticket) : Z :=
  Z.of_nat (List.length (filter (confirmed_of_event event_id) ts)).

(** Routine FN_GetAvailableCapacity: NULL when the event or its venue is
    not found (v_capacity stays NULL). *)
Definition FN_GetAvailableCapacity (event_id : Z) (t : Tables)
  : option (option Z) :=
  match select_into (joined_capacities event_id t) with
  | None => None
  | Some v_capacity =>
      let v_tickets_sold := count_confirmed event_id (Ticket_tbl t) in
      Some (match v_capacity with
            | Some c => Some (c - v_tickets_sold)
            | None => None
            end)
  end.

(** SELECT v.Capacity - COUNT(t.Ticket_id) as capacity
    FROM Event e JOIN Venue v ON e.Venue_id = v.Venue_id
    LEFT JOIN Ticket t ON e.Event_id = t.Event_id AND t.Status = 'Confirmed'
    WHERE e.Event_id = %s GROUP BY v.Capacity

    One row per distinct capacity among the joined (event, venue) pairs;
    every pair is joined with each confirmed ticket of the event, so a group
    of n pairs counts n times the confirmed tickets. *)
Definition select_capacity_minus_confirmed (event_id : Z) (t : Tables)
  : list Z :=
  let caps := joined_capacities event_id t in
  map (fun c =>
         c - Z.of_nat (count_occ Z.eq_dec caps c)
             * count_confirmed event_id (Ticket_tbl t))
    (nodup Z.eq_dec caps).

(** Routine FN_GetTotalConfirmedTickets. *)
Definition FN_GetTotalConfirmedTickets (event_id : Z) (t : Tables) : Z :=
  count_confirmed event_id (Ticket_tbl t).

(** SELECT Name FROM Organizer WHERE Organizer_id=%s *)
Definition select_organizer_name (organizer_id : Z) (t : Tables)
  : list string :=
  map Organizer_Name
    (filter (fun o => Organizer_id o =? organizer_id) (Organizer_tbl t)).

(** Routine FN_GetOrganizerName. *)
Definition FN_GetOrganizerName (organizer_id : Z) (t : Tables)
  : option (option string) :=
  select_into (select_organizer_name organizer_id t).

(** ORDER BY Timestamp DESC *)
Fixpoint insert_desc (r : LogRow) (l : list LogRow) : list LogRow :=
  match l with
  | [] => [r]
  | x :: l' =>
      if Timestamp x <? Timestamp r then r :: l else x :: insert_desc r l'
  end.

Definition order_by_Timestamp_desc (l : list LogRow) : list LogRow :=
  fold_right insert_desc [] l.

(** SELECT * FROM Log ORDER BY Timestamp DESC LIMIT 100 *)
Definition select_log_100 (t : Tables) : list LogRow :=
  firstn 100 (order_by_Timestamp_desc (Log_tbl t)).

(** INSERT INTO Participants (Participant_id, Name, Email, Contact)
    VALUES (...): refused when the primary key is already taken. *)
Definition insert_participant (p : Participant) (t : Tables)
  : option (unit * Tables) :=
  if existsb (fun p' => Participant_id p' =? Participant_id p)
       (Participants_tbl t)
  then None
  else Some (tt, with_Participants_tbl (Participants_tbl t ++ [p]) t).

(** INSERT INTO Volunteers (...) VALUES (...) *)
Definition insert_volunteer (v : Volunteer) (t : Tables)
  : option (unit * Tables) :=
  if existsb (fun v' => Volunteer_id v' =? Volunteer_id v) (Volunteers_tbl t)
  then None
  else Some (tt, with_Volunteers_tbl (Volunteers_tbl t ++ [v]) t).

(** INSERT INTO Sponsor (Sponsor_id, Name, Event_id, Contribution)
    VALUES (...) *)
Definition insert_sponsor (s : Sponsor) (t : Tables)
  : option (unit * Tables) :=
  if existsb (fun s' => Sponsor_id s' =? Sponsor_id s) (Sponsor_tbl t)
  then None
  else Some (tt, with_Sponsor_tbl (Sponsor_tbl t ++ [s]) t).

(** The key of a new row of [users] when User_id is NULL. *)
Definition next_user_id (us : list User) : Z :=
  fold_right (fun u acc => Z.max (user_id u) acc) 0 us + 1.

(** INSERT INTO users (User_id, Username, Password, Fullname, Email, Role)
    VALUES (...): a NULL key is assigned by the server, a given key is
    refused when already taken. *)
Definition insert_user (key : option Z)
  (new_username new_password new_fullname new_email new_role : string)
  (t : Tables) : option (unit * Tables) :=
  match key with
  | None =>
      Some (tt,
            with_users_tbl
              (users_tbl t ++
                 [mkUser (next_user_id (users_tbl t)) new_username
                    new_password new_fullname new_email new_role]) t)
  | Some k =>
      if existsb (fun u => user_id u =? k) (users_tbl t)
      then None
      else Some (tt,
                 with_users_tbl
                   (users_tbl t ++
                      [mkUser k new_username new_password new_fullname
                         new_email new_role]) t)
  end.

(** SELECT * FROM users WHERE Username=%s AND Password=%s.  The server
    compares strings by the collation of the column, which the source does
    not fix: [collate] is that comparison. *)
Definition select_user_by_credentials (collate : string -> string -> bool)
  (given_username given_password : string) (t : Tables) : list User :=
  filter
    (fun u => collate (username u) given_username
              && collate (password u) given_password)
    (users_tbl t).

(** The body of routine SP_GetEventSummary:
    SELECT E.Name AS Event_Name, V.Name AS Venue_Name, V.Capacity
    FROM Event E JOIN Venue V ON E.Venue_id = V.Venue_id
    WHERE E.Event_id = p_event_id *)
Definition select_event_summary (event_id : Z) (t : Tables)
  : list (string * string * Z) :=
  flat_map
    (fun e =>
       map (fun v => (Event_Name e, Venue_Name v, Capacity v))
         (filter (fun v => Venue_id v =? Event_Venue_id e) (Venue_tbl t)))
    (filter (fun e => Event_id e =? event_id) (Event_tbl t)).

End SQL.

(** ** Assignments to the attributes of the [Database] object *)

Definition set_organizers (x : list Organizer) (m : Mirror) : Mirror :=
  mkMirror x (venues m) (participants m) (events m) (sponsors m)
    (volunteers m) (tickets m) (payments m) (users m) (logs m).
Definition set_venues (x : list Venue) (m : Mirror) : Mirror :=
  mkMirror (organizers m) x (participants m) (events m) (sponsors m)
    (volunteers m) (tickets m) (payments m) (users m) (logs m).
Definition set_participants (x : list Participant) (m : Mirror) : Mirror :=
  mkMirror (organizers m) (venues m) x (events m) (sponsors m)
    (volunteers m) (tickets m) (payments m) (users m) (logs m).
Definition set_events (x : list Event) (m : Mirror) : Mirror :=
  mkMirror (organizers m) (venues m) (participants m) x (sponsors m)
    (volunteers m) (tickets m) (payments m) (users m) (logs m).
Definition set_sponsors (x : list Sponsor) (m : Mirror) : Mirror :=
  mkMirror (organizers m) (venues m) (participants m) (events m) x
    (volunteers m) (tickets m) (payments m) (users m) (logs m).
Definition set_volunteers (x : list Volunteer) (m : Mirror) : Mirror :=
  mkMirror (organizers m) (venues m) (participants m) (events m) (sponsors m)
    x (tickets m) (payments m) (users m) (logs m).
Definition set_tickets (x : list Ticket) (m : Mirror) : Mirror :=
  mkMirror (organizers m) (venues m) (participants m) (events m) (sponsors m)
    (volunteers m) x (payments m) (users m) (logs m).
Definition set_payments (x : list Payment) (m : Mirror) : Mirror :=
  mkMirror (organizers m) (venues m) (participants m) (events m) (sponsors m)
    (volunteers m) (tickets m) x (users m) (logs m).
Definition set_users (x : list User) (m : Mirror) : Mirror :=
  mkMirror (organizers m) (venues m) (participants m) (events m) (sponsors m)
    (volunteers m) (tickets m) (payments m) x (logs m).
Definition set_logs (x : list LogEntry) (m : Mirror) : Mirror :=
  mkMirror (organizers m) (venues m) (participants m) (events m) (sponsors m)
    (volunteers m) (tickets m) (payments m) (users m) x.

(** [x or []] *)
Definition or_empty {A} (x : list A) : list A :=
  match x with [] => [] | _ :: _ => x end.

(** Truth value of a Python string. *)
Definition truthy (s : string) : bool :=
  match s with EmptyString => false | String _ _ => true end.

(** ** class Database *)

Module Database.
Import SQL.

(** [execute_query(query, params, fetch=True)] on a connection that is
    connected (lines 58-75): the rows, or [[]] when the server raised.  The
    whole method, with the test of lines 56-57, is
    [Session.execute_query_fetch]. *)
Definition execute_query_fetch {A} (s : Stmt) (q : Tables -> option (list A))
  : M (list A) :=
  try_except
    (result <- cursor_execute s (reads q) ;;
     ret result)
    is_Error
    (fun _ => ret []).

(** [execute_query(query, params)] on a connection that is connected
    (lines 58-75): executes and commits; [True], or [False] when the server
    raised.  The whole method is [Session.execute_query]. *)
Definition execute_query (s : Stmt) (run : Tables -> option (unit * Tables))
  : M bool :=
  try_except
    (cursor_execute s run ;;;
     connection_commit ;;;
     ret true)
    is_Error
    (fun _ => ret false).

Definition select_all {A} (name : TableName) (tbl : Tables -> list A)
  : M (list A) :=
  execute_query_fetch (SelectAll name) (fun t => Some (tbl t)).

(** [refresh_all_data()] while the connection stays connected: no fetch
    raises, so that every line is run.  [Session.refresh_all_data] is the
    method on a connection that may be lost, where a fetch can raise
    AttributeError and end the reload. *)
Definition refresh_all_data : M unit :=
  r <- select_all T_Organizer Organizer_tbl ;;
  set_mirror (set_organizers (or_empty r)) ;;;
  r <- select_all T_Venue Venue_tbl ;;
  set_mirror (set_venues (or_empty r)) ;;;
  r <- select_all T_Participants Participants_tbl ;;
  set_mirror (set_participants (or_empty r)) ;;;
  r <- select_all T_Event Event_tbl ;;
  set_mirror (set_events (or_empty r)) ;;;
  r <- select_all T_Sponsor Sponsor_tbl ;;
  set_mirror (set_sponsors (or_empty r)) ;;;
  r <- select_all T_Volunteers Volunteers_tbl ;;
  set_mirror (set_volunteers (or_empty r)) ;;;
  r <- select_all T_Ticket Ticket_tbl ;;
  set_mirror (set_tickets (or_empty r)) ;;;
  r <- select_all T_Payment Payment_tbl ;;
  set_mirror (set_payments (or_empty r)) ;;;
  try_except
    (r <- select_all T_users users_tbl ;;
     set_mirror (set_users (or_empty r)))
    any_exception
    (fun _ => set_mirror (set_users [])) ;;;
  try_except
    (logs_data <- execute_query_fetch SelectLog100
                    (fun t => Some (select_log_100 t)) ;;
     match logs_data with
     | [] => ret tt
     | _ :: _ =>
         set_mirror
           (set_logs
              (map (fun log => mkLogEntry (Timestamp log) (Log_Message log))
                 logs_data))
     end)
    any_exception
    (fun _ => ret tt).

Definition log_event_deletion (event_id : Z) (event_name : string) : M unit :=
  let log_message :=
    ("Event " ++ str event_id ++ " (" ++ event_name
       ++ ") was deleted. Volunteers may need re-assignment.")%string in
  c <- get_clock ;;
  try_except
    (execute_query (InsertLog log_message)
       (writes (insert_log (CURRENT_TIMESTAMP c) log_message)) ;;;
     ret tt)
    any_exception
    (fun _ => ret tt) ;;;
  set_mirror
    (fun m => set_logs (logs m ++ [mkLogEntry (datetime_now c) log_message]) m).

Definition delete_event (event_id : Z) (event_name : string) : M bool :=
  log_event_deletion event_id event_name ;;;
  try_except
    (tickets <- cursor_execute (SelectTicketIdsOfEvent event_id)
                  (reads (fun t => Some (select_ticket_ids event_id t))) ;;
     for_each tickets
       (fun ticket_id =>
          cursor_execute (DeletePaymentOfTicket ticket_id)
            (writes (delete_payment_of_ticket ticket_id))) ;;;
     cursor_execute (DeleteTicketsOfEvent event_id)
       (writes (delete_tickets_of_event event_id)) ;;;
     cursor_execute (DeleteVolunteersOfEvent event_id)
       (writes (delete_volunteers_of_event event_id)) ;;;
     cursor_execute (DeleteSponsorsOfEvent event_id)
       (writes (delete_sponsors_of_event event_id)) ;;;
     cursor_execute (DeleteEvent event_id)
       (writes (delete_event_row event_id)) ;;;
     connection_commit ;;;
     refresh_all_data ;;;
     ret true)
    is_Error
    (fun _ =>
       connection_rollback ;;;
       ret false).

Definition add_ticket (ticket_data : Ticket) : M bool :=
  result <- execute_query (InsertTicket ticket_data)
              (insert_ticket ticket_data) ;;
  (if result then refresh_all_data else ret tt) ;;;
  ret result.


Definition delete_ticket (ticket_id : Z) : M bool :=
  execute_query (DeletePaymentOfTicket ticket_id)
    (writes (delete_payment_of_ticket ticket_id)) ;;;
  result <- execute_query (DeleteTicket ticket_id)
              (writes (delete_ticket_row ticket_id)) ;;
  (if result then refresh_all_data else ret tt) ;;;
  ret result.

(** *** get_available_capacity, tier by tier *)

Definition available_capacity_tier1 (event_id : Z) : M (option Z) :=
  try_except
    (result <- execute_query_fetch (SelectFN_GetAvailableCapacity event_id)
                 (fun t =>
                    match FN_GetAvailableCapacity event_id t with
                    | Some capacity => Some [capacity]
                    | None => None
                    end) ;;
     match result with
     | Some capacity :: _ => ret (Some capacity)
     | _ => ret None
     end)
    any_exception
    (fun _ => ret None).

Definition available_capacity_tier2 (event_id : Z) : M (option Z) :=
  try_except
    (result <- execute_query_fetch (SelectCapacityMinusConfirmed event_id)
                 (fun t => Some (select_capacity_minus_confirmed event_id t)) ;;
     match result with
     | capacity :: _ => ret (Some capacity)
     | [] => ret None
     end)
    any_exception
    (fun _ => ret None).

Definition available_capacity_cached (event_id : Z) (m : Mirror) : Z :=
  match find (fun e => Event_id e =? event_id) (events m) with
  | None => 0
  | Some event =>
      match find (fun v => Venue_id v =? Event_Venue_id event) (venues m) with
      | None => 0
      | Some venue => Capacity venue - count_confirmed event_id (tickets m)
      end
  end.

Definition get_available_capacity (event_id : Z) : M Z :=
  r1 <- available_capacity_tier1 event_id ;;
  match r1 with
  | Some capacity => ret capacity
  | None =>
      r2 <- available_capacity_tier2 event_id ;;
      match r2 with
      | Some capacity => ret capacity
      | None =>
          m <- get_mirror ;;
          ret (available_capacity_cached event_id m)
      end
  end.

(** *** get_total_confirmed_tickets *)

Definition confirmed_tickets_tier1 (event_id : Z) : M (option Z) :=
  try_except
    (result <- execute_query_fetch (SelectFN_GetTotalConfirmedTickets event_id)
                 (fun t => Some [Some (FN_GetTotalConfirmedTickets event_id t)]) ;;
     match result with
     | Some count :: _ => ret (Some count)
     | _ => ret None
     end)
    any_exception
    (fun _ => ret None).

Definition get_total_confirmed_tickets (event_id : Z) : M Z :=
  r1 <- confirmed_tickets_tier1 event_id ;;
  match r1 with
  | Some count => ret count
  | None =>
      try_except
        (result <- execute_query_fetch (SelectCountConfirmed event_id)
                     (fun t => Some [count_confirmed event_id (Ticket_tbl t)]) ;;
         match result with
         | count :: _ => ret count
         | [] => ret 0
         end)
        any_exception
        (fun _ =>
           m <- get_mirror ;;
           ret (count_confirmed event_id (tickets m)))
  end.

(** *** get_organizer_name *)

Definition organizer_name_tier1 (organizer_id : Z) : M (option string) :=
  try_except
    (result <- execute_query_fetch (SelectFN_GetOrganizerName organizer_id)
                 (fun t =>
                    match FN_GetOrganizerName organizer_id t with
                    | Some name => Some [name]
                    | None => None
                    end) ;;
     match result with
     | Some name :: _ => if truthy name then ret (Some name) else ret None
     | _ => ret None
     end)
    any_exception
    (fun _ => ret None).

Definition organizer_name_tier2 (organizer_id : Z) : M (option string) :=
  try_except
    (result <- execute_query_fetch (SelectOrganizerName organizer_id)
                 (fun t => Some (select_organizer_name organizer_id t)) ;;
     match result with
     | name :: _ => if truthy name then ret (Some name) else ret None
     | [] => ret None
     end)
    any_exception
    (fun _ => ret None).

Definition organizer_name_cached (organizer_id : Z) (m : Mirror) : string :=
  match find (fun o => Organizer_id o =? organizer_id) (organizers m) with
  | Some organizer => Organizer_Name organizer
  | None => "Unknown"
  end.

Definition get_organizer_name (organizer_id : Z) : M string :=
  r1 <- organizer_name_tier1 organizer_id ;;
  match r1 with
  | Some name => ret name
  | None =>
      r2 <- organizer_name_tier2 organizer_id ;;
      match r2 with
      | Some name => ret name
      | None =>
          m <- get_mirror ;;
          ret (organizer_name_cached organizer_id m)
      end
  end.

(** *** confirm_payment *)

(** The body of routine SP_ConfirmPayment. *)
Definition SP_ConfirmPayment (ticket_id : Z) (method : string) (amount : Z)
  : M string :=
  c <- get_clock ;;
  server_step (writes (insert_payment ticket_id amount method (CURDATE c))) ;;;
  server_step (writes (update_ticket_status ticket_id Confirmed)) ;;;
  server_step
    (reads (fun _ =>
              Some ("Ticket " ++ str ticket_id
                      ++ " confirmed and payment recorded.")%string)).

(** The handler of [except Error] in [confirm_payment]. *)
Definition confirm_payment_fallback (ticket_id : Z) (payment_method : string)
  (amount : Z) : M string :=
  m <- get_mirror ;;
  match find (fun t => Ticket_id t =? ticket_id) (tickets m) with
  | None => ret ("Error: Ticket " ++ str ticket_id ++ " not found")%string
  | Some ticket =>
      if TicketStatus_eqb (Status ticket) Cancelled
      then ret ("Error: Cannot process payment for cancelled ticket "
                  ++ str ticket_id)%string
      else
        match find (fun p => Payment_Ticket_id p =? ticket_id) (payments m) with
        | Some existing_payment =>
            if TicketStatus_eqb (Status ticket) Pending
            then
              execute_query (UpdateTicketStatus ticket_id Confirmed)
                (writes (update_ticket_status ticket_id Confirmed)) ;;;
              refresh_all_data ;;;
              ret ("Ticket " ++ str ticket_id
                     ++ " confirmed. Payment already on record.")%string
            else
              ret ("Error: Payment already exists for ticket "
                     ++ str ticket_id)%string
        | None =>
            c <- get_clock ;;
            execute_query (InsertPayment ticket_id amount payment_method)
              (writes (insert_payment ticket_id amount payment_method
                         (CURDATE c))) ;;;
            execute_query (UpdateTicketStatus ticket_id Confirmed)
              (writes (update_ticket_status ticket_id Confirmed)) ;;;
            refresh_all_data ;;;
            ret ("Ticket " ++ str ticket_id
                   ++ " confirmed and payment recorded.")%string
        end
  end.

Definition confirm_payment (ticket_id : Z) (payment_method : string)
  (amount : Z) : M string :=
  try_except
    (send (CallSP_ConfirmPayment ticket_id payment_method amount) ;;;
     message <- SP_ConfirmPayment ticket_id payment_method amount ;;
     connection_commit ;;;
     refresh_all_data ;;;
     ret message)
    is_Error
    (fun _ => confirm_payment_fallback ticket_id payment_method amount).

(** *** mark_ticket_as_pending *)



(** [check_ticket_price(price)], the price counted in hundredths. *)
Definition check_ticket_price (price : Z) : M bool :=
  if price <=? 0
  then raise (ValueError "Ticket price must be greater than zero.")
  else ret true.

(** *** The other insertions *)

Definition add_participant (participant_data : Participant) : M bool :=
  result <- execute_query (InsertParticipant participant_data)
              (insert_participant participant_data) ;;
  (if result then refresh_all_data else ret tt) ;;;
  ret result.

Definition add_volunteer (volunteer_data : Volunteer) : M bool :=
  result <- execute_query (InsertVolunteer volunteer_data)
              (insert_volunteer volunteer_data) ;;
  (if result then refresh_all_data else ret tt) ;;;
  ret result.

Definition add_sponsor (sponsor_data : Sponsor) : M bool :=
  result <- execute_query (InsertSponsor sponsor_data)
              (insert_sponsor sponsor_data) ;;
  (if result then refresh_all_data else ret tt) ;;;
  ret result.

(** *** get_event_summary *)

Record EventSummary : Type := mkEventSummary
  { Summary_Event_Name : string; Summary_Venue_Name : string;
    Summary_Capacity : Z; Available : Z; Confirmed_Tickets : Z }.

(** The dictionary [get_event_summary] returns: a summary, or the single
    key 'error'. *)
Inductive SummaryResult : Type :=
  | Summary (s : EventSummary)
  | SummaryError (error : string).

Definition get_event_summary (event_id : Z) : M SummaryResult :=
  r <- try_except
         (send (CallSP_GetEventSummary event_id) ;;;
          rows <- server_step
                    (reads (fun t => Some (select_event_summary event_id t))) ;;
          match rows with
          | (row_Event_Name, row_Venue_Name, row_Capacity) :: _ =>
              available <- get_available_capacity event_id ;;
              confirmed <- get_total_confirmed_tickets event_id ;;
              ret (Some (Summary (mkEventSummary row_Event_Name row_Venue_Name
                                    row_Capacity available confirmed)))
          | [] => ret None
          end)
         any_exception
         (fun _ => ret None) ;;
  match r with
  | Some summary => ret summary
  | None =>
      m <- get_mirror ;;
      match find (fun e => Event_id e =? event_id) (events m) with
      | None =>
          ret (SummaryError
                 ("Event " ++ str event_id ++ " not found")%string)
      | Some event =>
          match find (fun v => Venue_id v =? Event_Venue_id event) (venues m)
          with
          | None => ret (SummaryError "Venue not found")
          | Some venue =>
              available <- get_available_capacity event_id ;;
              confirmed <- get_total_confirmed_tickets event_id ;;
              ret (Summary (mkEventSummary (Event_Name event)
                              (Venue_Name venue) (Capacity venue)
                              available confirmed))
          end
      end
  end.

(** *** Users and public registration *)

(** [max(iterable, default=d)] *)
Definition max_default (d : Z) (l : list Z) : Z :=
  match l with
  | [] => d
  | x :: l' => fold_left Z.max l' x
  end.

Definition get_next_participant_id : M Z :=
  try_except
    (m <- get_mirror ;;
     let max_id := max_default 1000 (map Participant_id (participants m)) in
     ret (max_id + 1))
    any_exception
    (fun _ => ret 1001).

Definition get_next_volunteer_id : M Z :=
  try_except
    (m <- get_mirror ;;
     let max_id := max_default 200 (map Volunteer_id (volunteers m)) in
     ret (max_id + 1))
    any_exception
    (fun _ => ret 201).

(** The dictionary given to [add_user]; [user_data.get] yields None for a
    missing User_id and 'user' for a missing Role. *)
Record UserData : Type := mkUserData
  { data_User_id : option Z; data_Username : string; data_Password : string;
    data_Fullname : string; data_Email : string; data_Role : option string }.

Definition add_user (user_data : UserData) : M bool :=
  result <- execute_query
              (InsertUser (data_User_id user_data) (data_Username user_data))
              (insert_user (data_User_id user_data) (data_Username user_data)
                 (data_Password user_data) (data_Fullname user_data)
                 (data_Email user_data)
                 (match data_Role user_data with
                  | Some r => r
                  | None => "user"
                  end)) ;;
  (if result then refresh_all_data else ret tt) ;;;
  ret result.

Definition authenticate_user (collate : string -> string -> bool)
  (given_username given_password : string) : M (option User) :=
  m <- get_mirror ;;
  match find (fun u => String.eqb (username u) given_username
                       && String.eqb (password u) given_password) (users m)
  with
  | Some u => ret (Some u)
  | None =>
      r <- try_except
             (res <- execute_query_fetch
                       (SelectUserByCredentials given_username given_password)
                       (fun t =>
                          Some (select_user_by_credentials collate
                                  given_username given_password t)) ;;
              match res with
              | u :: _ => ret (Some (Some u))
              | [] => ret None
              end)
             any_exception
             (fun _ => ret None) ;;
      match r with
      | Some found => ret found
      | None => ret None
      end
  end.

(** [str(e)] of an exception; the text of a storage error is not modelled
    (such an error never reaches the handlers below: [execute_query] keeps
    it). *)
Definition str_exception (e : Exn) : string :=
  match e with
  | ValueError msg => msg
  | MySQLError => "MySQL error"
  | AttributeError => "'NoneType' object has no attribute 'cursor'"
  end.

(** [register_user_as_participant] while the connection stays connected:
    nothing raises inside the [try] and the handler of [except Exception]
    is not run.  [Session.register_user_as_participant] is the method on a
    connection that may be lost, where the handler is reached. *)
Definition register_user_as_participant (given_username : string)
  (event_id : Z) (given_fullname email contact : string)
  : M (bool * string) :=
  try_except
    (new_pid <- get_next_participant_id ;;
     ok <- execute_query
             (InsertParticipant
                (mkParticipant new_pid given_fullname email contact))
             (insert_participant
                (mkParticipant new_pid given_fullname email contact)) ;;
     if negb ok
     then ret (false, "Failed to create participant record")
     else
       m <- get_mirror ;;
       let new_tid := max_default 3000 (map Ticket_id (tickets m)) + 1 in
       ok <- execute_query
               (InsertTicket (mkTicket new_tid event_id new_pid Pending 1))
               (insert_ticket (mkTicket new_tid event_id new_pid Pending 1)) ;;
       if negb ok
       then ret (false, "Participant created but failed to create ticket")
       else
         refresh_all_data ;;;
         ret (true,
              ("Registered as participant (Participant ID: " ++ str new_pid
                 ++ ", Ticket ID: " ++ str new_tid ++ ")")%string))
    any_exception
    (fun e => ret (false, str_exception e)).

End Database.

(** ** class EventManagementApp: the ticket form *)

Inductive MessageBox : Type :=
  | showerror (title text : string)
  | showinfo (title text : string).

Module EventManagementApp.

(** [add_ticket], from the point where the dialog has returned its
    [result] with the identifiers extracted. *)
Definition add_ticket (result : Ticket) : M MessageBox :=
  checked <-
    try_except
      (Database.check_ticket_price (Price result) ;;;
       ret None)
      (fun e => match e with ValueError _ => true | _ => false end)
      (fun e =>
         match e with
         | ValueError msg => ret (Some (showerror "Error" msg))
         | _ => ret None
         end) ;;
  match checked with
  | Some box => ret box
  | None =>
      available <- Database.get_available_capacity (Ticket_Event_id result) ;;
      if (available <=? 0) && TicketStatus_eqb (Status result) Confirmed
      then ret (showerror "Error" "Cannot add ticket: Event capacity is full!")
      else
        ok <- Database.add_ticket result ;;
        if ok
        then ret (showinfo "Success" "Ticket added successfully!")
        else ret (showerror "Error" "Failed to add ticket to database")
  end.

(** [add_participant], from the point where the dialog has returned. *)
Definition add_participant (result : Participant) : M MessageBox :=
  m <- get_mirror ;;
  if existsb (fun p => String.eqb (Participant_Email p)
                         (Participant_Email result)) (participants m)
  then ret (showerror "Error" "Email already exists!")
  else
    ok <- Database.add_participant result ;;
    if ok
    then ret (showinfo "Success" "Participant added successfully!")
    else ret (showerror "Error" "Failed to add participant to database").

(** [add_volunteer], with the event identifier extracted. *)
Definition add_volunteer (result : Volunteer) : M MessageBox :=
  m <- get_mirror ;;
  if existsb (fun v => String.eqb (Volunteer_Email v)
                         (Volunteer_Email result)) (volunteers m)
  then ret (showerror "Error" "Email already exists!")
  else
    ok <- Database.add_volunteer result ;;
    if ok
    then ret (showinfo "Success" "Volunteer added successfully!")
    else ret (showerror "Error" "Failed to add volunteer to database").

(** [add_sponsor]: the message boxes it shows, in order.  After the
    outcome of the insertion the source shows the success box once more. *)
Definition add_sponsor (result : Sponsor) : M (list MessageBox) :=
  if Contribution result <? 0
  then ret [showerror "Error" "Contribution cannot be negative!"]
  else
    ok <- Database.add_sponsor result ;;
    let first :=
      if ok
      then showinfo "Success" "Sponsor added successfully!"
      else showerror "Error" "Failed to add sponsor to database" in
    ret [first; showinfo "Success" "Sponsor added successfully!"].

(** [delete_event]: the numbers of dependent records announced in the
    confirmation dialog. *)
Definition tickets_count (event_id : Z) (m : Mirror) : nat :=
  List.length (filter (fun t => Ticket_Event_id t =? event_id) (tickets m)).
Definition volunteers_count (event_id : Z) (m : Mirror) : nat :=
  List.length
    (filter (fun v => Volunteer_Event_id v =? event_id) (volunteers m)).
Definition sponsors_count (event_id : Z) (m : Mirror) : nat :=
  List.length (filter (fun s => Sponsor_Event_id s =? event_id) (sponsors m)).

(** [delete_event], from the selected row on; [answer] is what the user
    replies to the confirmation dialog. *)
Definition delete_event (event_id : Z) (event_name : string) (answer : bool)
  : M (option MessageBox) :=
  if answer
  then
    ok <- Database.delete_event event_id event_name ;;
    if ok
    then ret (Some (showinfo "Success"
                      ("Event '" ++ event_name
                         ++ "' and all related records deleted successfully from database!")%string))
    else ret (Some (showerror "Error" "Failed to delete event from database"))
  else ret None.

(** [refresh_logs]: what the log pane shows. *)
Inductive LogPane : Type :=
  | NoLogsAvailable
  | LogLines (entries : list LogEntry).

Definition refresh_logs (m : Mirror) : LogPane :=
  match logs m with
  | [] => NoLogsAvailable
  | _ :: _ =>
      LogLines (rev (skipn (List.length (logs m) - 10) (logs m)))
  end.

(** [refresh_analytics], report 1 (event capacity): the rows written, one
    per cached event whose venue is cached, as (name, capacity,
    available); the text layout (names cut to 30 characters, columns) is
    left out. *)
Fixpoint report1_rows (evs : list Event) : M (list (string * Z * Z)) :=
  match evs with
  | [] => ret []
  | event :: evs' =>
      m <- get_mirror ;;
      match find (fun v => Venue_id v =? Event_Venue_id event) (venues m)
      with
      | Some venue =>
          available <- Database.get_available_capacity (Event_id event) ;;
          rows <- report1_rows evs' ;;
          ret ((Event_Name event, Capacity venue, available) :: rows)
      | None => report1_rows evs'
      end
  end.

Definition refresh_analytics_report1 : M (list (string * Z * Z)) :=
  m <- get_mirror ;;
  report1_rows (events m).

(** The dictionary [organizer_revenue] of report 3, in insertion order. *)
Definition dict_contains (key : string) (d : list (string * Z)) : bool :=
  existsb (fun kv => String.eqb (fst kv) key) d.

(** [d[key] += amount] *)
Definition dict_add (key : string) (amount : Z) (d : list (string * Z))
  : list (string * Z) :=
  map (fun kv => if String.eqb (fst kv) key then (fst kv, snd kv + amount)
                 else kv) d.

(** The loop over the tickets of one event. *)
Definition add_event_revenue (m : Mirror) (org_name : string)
  (event_tickets : list Ticket) (d : list (string * Z))
  : list (string * Z) :=
  fold_left
    (fun d ticket =>
       match find (fun p => Payment_Ticket_id p =? Ticket_id ticket)
               (payments m) with
       | Some payment => dict_add org_name (Amount payment) d
       | None => d
       end)
    event_tickets d.

(** The body of the loop over the events. *)
Definition add_organizer_revenue (m : Mirror) (d : list (string * Z))
  (event : Event) : list (string * Z) :=
  match find (fun o => Organizer_id o =? Event_Organizer_id event)
          (organizers m) with
  | Some organizer =>
      let org_name := Organizer_Name organizer in
      let d := if dict_contains org_name d then d
               else (d ++ [(org_name, 0)])%list in
      let event_tickets :=
        filter (fun t => Ticket_Event_id t =? Event_id event) (tickets m) in
      add_event_revenue m org_name event_tickets d
  | None => d
  end.

(** [refresh_analytics], report 3 (total revenue by organizer): the
    dictionary after the loop over the cached events. *)
Definition organizer_revenue (m : Mirror) : list (string * Z) :=
  fold_left (add_organizer_revenue m) (events m) [].

End EventManagementApp.

(** ** The connection object

    [Module Database] above describes the methods on a connection that is
    up.  [execute_query] first looks at the connection (lines 56-57 of
    [main.py]): when it is missing or no longer connected it calls
    [connect], which leaves [self.connection = None] when the server cannot
    be reached; the next line, [self.connection.cursor(...)], then raises
    AttributeError, which [except Error] does not catch.  What the
    connection turns out to be at each call of [execute_query] is decided
    by a second plan, [links]. *)

Inductive Link : Type :=
  | Alive          (* the connection is connected *)
  | Reconnects     (* it is not, and [connect] succeeds *)
  | Unreachable.   (* it is not, and [connect] fails *)

Record Session : Type := mkSession
  { store : State;
    connection : bool;        (* [self.connection] is not None *)
    links : list Link }.      (* the plan still to be consumed *)

Definition MS (A : Type) : Type := Session -> Outcome A * Session.

Definition ret_s {A} (a : A) : MS A := fun ss => (Ret a, ss).

Definition bind_s {A B} (m : MS A) (k : A -> MS B) : MS B :=
  fun ss =>
    match m ss with
    | (Ret a, ss') => k a ss'
    | (Raise e, ss') => (Raise e, ss')
    end.

Notation "x <~ m ;; k" := (bind_s m (fun x => k))
  (at level 61, m at next level, right associativity).
Notation "m ;;~ k" := (bind_s m (fun _ => k))
  (at level 61, right associativity).

Definition try_except_s {A} (m : MS A) (caught : Exn -> bool)
  (h : Exn -> MS A) : MS A :=
  fun ss =>
    match m ss with
    | (Ret a, ss') => (Ret a, ss')
    | (Raise e, ss') => if caught e then h e ss' else (Raise e, ss')
    end.

(** Code that works on the connection as it is. *)
Definition lift {A} (m : M A) : MS A :=
  fun ss =>
    let (o, st') := m (store ss) in
    (o, mkSession st' (connection ss) (links ss)).

Definition next_link : MS Link :=
  fun ss =>
    (Ret (hd Alive (links ss)),
     mkSession (store ss) (connection ss) (tl (links ss))).

(** A new connection has none of the uncommitted work of the one it
    replaces; a connection that is lost has none either. *)
Definition new_session (st : State) : State := with_pending (committed st) st.

(** [connect()]: [self.connection] is the new connection, or None when
    [mysql.connector.connect] raised. *)
Definition connect (reachable : bool) : MS unit :=
  fun ss => (Ret tt, mkSession (new_session (store ss)) reachable (links ss)).

(** [if not self.connection or not self.connection.is_connected():
        self.connect()] *)
Definition ensure_connection : MS unit :=
  l <~ next_link ;;
  fun ss =>
    if connection ss && match l with Alive => true | _ => false end
    then (Ret tt, ss)
    else connect (match l with Unreachable => false | _ => true end) ss.

(** [self.connection.cursor(...)] *)
Definition connection_cursor : MS unit :=
  fun ss =>
    if connection ss then (Ret tt, ss) else (Raise AttributeError, ss).

Module Session.
Import SQL.

(** [execute_query(query, params, fetch=True)], lines 53-75. *)
Definition execute_query_fetch {A} (s : Stmt) (q : Tables -> option (list A))
  : MS (list A) :=
  try_except_s
    (ensure_connection ;;~
     connection_cursor ;;~
     lift (result <- cursor_execute s (reads q) ;;
           ret result))
    is_Error
    (fun _ => ret_s []).

(** [execute_query(query, params)], lines 53-75. *)
Definition execute_query (s : Stmt) (run : Tables -> option (unit * Tables))
  : MS bool :=
  try_except_s
    (ensure_connection ;;~
     connection_cursor ;;~
     lift (cursor_execute s run ;;;
           connection_commit ;;;
           ret true))
    is_Error
    (fun _ => ret_s false).

Definition select_all {A} (name : TableName) (tbl : Tables -> list A)
  : MS (list A) :=
  execute_query_fetch (SelectAll name) (fun t => Some (tbl t)).

(** [refresh_all_data], lines 77-99. *)
Definition refresh_all_data : MS unit :=
  r <~ select_all T_Organizer Organizer_tbl ;;
  lift (set_mirror (set_organizers (or_empty r))) ;;~
  r <~ select_all T_Venue Venue_tbl ;;
  lift (set_mirror (set_venues (or_empty r))) ;;~
  r <~ select_all T_Participants Participants_tbl ;;
  lift (set_mirror (set_participants (or_empty r))) ;;~
  r <~ select_all T_Event Event_tbl ;;
  lift (set_mirror (set_events (or_empty r))) ;;~
  r <~ select_all T_Sponsor Sponsor_tbl ;;
  lift (set_mirror (set_sponsors (or_empty r))) ;;~
  r <~ select_all T_Volunteers Volunteers_tbl ;;
  lift (set_mirror (set_volunteers (or_empty r))) ;;~
  r <~ select_all T_Ticket Ticket_tbl ;;
  lift (set_mirror (set_tickets (or_empty r))) ;;~
  r <~ select_all T_Payment Payment_tbl ;;
  lift (set_mirror (set_payments (or_empty r))) ;;~
  try_except_s
    (r <~ select_all T_users users_tbl ;;
     lift (set_mirror (set_users (or_empty r))))
    any_exception
    (fun _ => lift (set_mirror (set_users []))) ;;~
  try_except_s
    (logs_data <~ execute_query_fetch SelectLog100
                    (fun t => Some (select_log_100 t)) ;;
     match logs_data with
     | [] => ret_s tt
     | _ :: _ =>
         lift (set_mirror
                 (set_logs
                    (map (fun log =>
                            mkLogEntry (Timestamp log) (Log_Message log))
                       logs_data)))
     end)
    any_exception
    (fun _ => ret_s tt).

(** [register_user_as_participant], lines 833-851. *)
Definition register_user_as_participant (given_username : string)
  (event_id : Z) (given_fullname email contact : string)
  : MS (bool * string) :=
  try_except_s
    (new_pid <~ lift Database.get_next_participant_id ;;
     ok <~ execute_query
             (InsertParticipant
                (mkParticipant new_pid given_fullname email contact))
             (insert_participant
                (mkParticipant new_pid given_fullname email contact)) ;;
     if negb ok
     then ret_s (false, "Failed to create participant record")
     else
       m <~ lift get_mirror ;;
       let new_tid :=
         Database.max_default 3000 (map Ticket_id (tickets m)) + 1 in
       ok <~ execute_query
               (InsertTicket (mkTicket new_tid event_id new_pid Pending 1))
               (insert_ticket (mkTicket new_tid event_id new_pid Pending 1)) ;;
       if negb ok
       then ret_s (false, "Participant created but failed to create ticket")
       else
         refresh_all_data ;;~
         ret_s (true,
                ("Registered as participant (Participant ID: "
                   ++ str new_pid ++ ", Ticket ID: " ++ str new_tid
                   ++ ")")%string))
    any_exception
    (fun e => ret_s (false, Database.str_exception e)).

(** [register_user_as_volunteer], lines 853-865. *)
Definition register_user_as_volunteer (given_username : string)
  (event_id : Z) (given_fullname email contact vtype : string)
  : MS (bool * string) :=
  try_except_s
    (new_vid <~ lift Database.get_next_volunteer_id ;;
     ok <~ execute_query
             (InsertVolunteer
                (mkVolunteer new_vid given_fullname email contact vtype
                   event_id))
             (insert_volunteer
                (mkVolunteer new_vid given_fullname email contact vtype
                   event_id)) ;;
     if negb ok
     then ret_s (false, "Failed to create volunteer record")
     else
       refresh_all_data ;;~
       ret_s (true,
              ("Registered as volunteer (Volunteer ID: " ++ str new_vid
                 ++ ")")%string))
    any_exception
    (fun e => ret_s (false, Database.str_exception e)).

End Session.

(** ** Vocabulary of the properties *)

(** The state after a statement has been sent and has consumed its entry
    of the fault plan. *)
Definition sent (s : Stmt) (st : State) : State :=
  with_faults (tl (faults st)) (with_issued (issued st ++ [s]) st).

Definition fault_at (k : nat) (fs : list bool) : bool := nth k fs false.

(** The statements of one [refresh_all_data]. *)
Definition reload_statements : list Stmt :=
  [ SelectAll T_Organizer; SelectAll T_Venue; SelectAll T_Participants;
    SelectAll T_Event; SelectAll T_Sponsor; SelectAll T_Volunteers;
    SelectAll T_Ticket; SelectAll T_Payment; SelectAll T_users;
    SelectLog100 ].

(** What [execute_query(..., fetch=True)] hands back for the rows of a
    table. *)
Definition fetched {A} (fault : bool) (rows : list A) : list A :=
  if fault then [] else rows.

(** The mirror after a reload under the fault plan [fs]. *)
Definition reloaded (fs : list bool) (t : Tables) (m : Mirror) : Mirror :=
  mkMirror
    (fetched (fault_at 0 fs) (Organizer_tbl t))
    (fetched (fault_at 1 fs) (Venue_tbl t))
    (fetched (fault_at 2 fs) (Participants_tbl t))
    (fetched (fault_at 3 fs) (Event_tbl t))
    (fetched (fault_at 4 fs) (Sponsor_tbl t))
    (fetched (fault_at 5 fs) (Volunteers_tbl t))
    (fetched (fault_at 6 fs) (Ticket_tbl t))
    (fetched (fault_at 7 fs) (Payment_tbl t))
    (fetched (fault_at 8 fs) (users_tbl t))
    (match fetched (fault_at 9 fs) (SQL.select_log_100 t) with
     | [] => logs m
     | (_ :: _) as logs_data =>
         map (fun log => mkLogEntry (Timestamp log) (Log_Message log))
           logs_data
     end).

(** The message written by [log_event_deletion]. *)
Definition deletion_message (event_id : Z) (event_name : string) : string :=
  ("Event " ++ SQL.str event_id ++ " (" ++ event_name
     ++ ") was deleted. Volunteers may need re-assignment.")%string.

(** The statements of the cascade of [delete_event], in the order of the
    source. *)
Definition cascade_statements (event_id : Z) (ticket_ids : list Z)
  : list Stmt :=
  [SelectTicketIdsOfEvent event_id]
    ++ map DeletePaymentOfTicket ticket_ids
    ++ [ DeleteTicketsOfEvent event_id; DeleteVolunteersOfEvent event_id;
         DeleteSponsorsOfEvent event_id; DeleteEvent event_id; Commit ].

(** Two table sets that differ at most in the [Log] table. *)
Definition same_entities (t t' : Tables) : Prop :=
  Organizer_tbl t = Organizer_tbl t' /\ Venue_tbl t = Venue_tbl t' /\
  Participants_tbl t = Participants_tbl t' /\ Event_tbl t = Event_tbl t' /\
  Sponsor_tbl t = Sponsor_tbl t' /\ Volunteers_tbl t = Volunteers_tbl t' /\
  Ticket_tbl t = Ticket_tbl t' /\ Payment_tbl t = Payment_tbl t' /\
  users_tbl t = users_tbl t'.

(** The payments left after the loop of [delete_event] over the tickets. *)
Definition delete_payments (ticket_ids : list Z) (t : Tables) : Tables :=
  fold_left (fun t ticket_id => SQL.delete_payment_of_ticket ticket_id t)
    ticket_ids t.

(** The tables after the five deletions of the cascade. *)
Definition cascaded (event_id : Z) (t : Tables) : Tables :=
  SQL.delete_event_row event_id
    (SQL.delete_sponsors_of_event event_id
       (SQL.delete_volunteers_of_event event_id
          (SQL.delete_tickets_of_event event_id
             (delete_payments (SQL.select_ticket_ids event_id t) t)))).

(** The loop body of [delete_event]. *)
Definition delete_payment_step (ticket_id : Z) : M unit :=
  cursor_execute (DeletePaymentOfTicket ticket_id)
    (writes (SQL.delete_payment_of_ticket ticket_id)).

(** The [try] block of [delete_event]. *)
Definition cascade_block (event_id : Z) : M bool :=
  tickets <- cursor_execute (SelectTicketIdsOfEvent event_id)
               (reads (fun t => Some (SQL.select_ticket_ids event_id t))) ;;
  for_each tickets
    (fun ticket_id =>
       cursor_execute (DeletePaymentOfTicket ticket_id)
         (writes (SQL.delete_payment_of_ticket ticket_id))) ;;;
  cursor_execute (DeleteTicketsOfEvent event_id)
    (writes (SQL.delete_tickets_of_event event_id)) ;;;
  cursor_execute (DeleteVolunteersOfEvent event_id)
    (writes (SQL.delete_volunteers_of_event event_id)) ;;;
  cursor_execute (DeleteSponsorsOfEvent event_id)
    (writes (SQL.delete_sponsors_of_event event_id)) ;;;
  cursor_execute (DeleteEvent event_id)
    (writes (SQL.delete_event_row event_id)) ;;;
  connection_commit ;;;
  Database.refresh_all_data ;;;
  ret true.

(** ** A small database used to exercise the properties

    The scenario of the specification: venue 1 of capacity 2, event 10 held
    at it with two tickets, next to an unrelated event 20 whose tickets
    cover the remaining combinations of status and payment. *)

Definition demo_tables : Tables :=
  mkTables
    [ mkOrganizer 5 "Asha" "555-0100" "asha@example.org" ]
    [ mkVenue 1 "Hall" "Main street" 2; mkVenue 2 "Garden" "Park lane" 50 ]
    [ mkParticipant 1001 "Ravi" "ravi@example.org" "555-0101";
      mkParticipant 1002 "Mina" "mina@example.org" "555-0102" ]
    [ mkEvent 10 "Gala" "Concert" "2025-01-10" "19:00" 1 5;
      mkEvent 20 "Fair" "Expo" "2025-02-01" "10:00" 2 5 ]
    [ mkSponsor 1 "Acme" 10 100000; mkSponsor 2 "Globex" 20 5000 ]
    [ mkVolunteer 1 "Tara" "tara@example.org" "555-0103" "Usher" 10;
      mkVolunteer 2 "Omar" "omar@example.org" "555-0104" "Guide" 20 ]
    [ mkTicket 100 10 1001 Confirmed 2500;   (* paid *)
      mkTicket 101 10 1002 Pending 2500;
      mkTicket 200 20 1001 Confirmed 1000;   (* confirmed, not paid *)
      mkTicket 201 20 1002 Cancelled 1000;
      mkTicket 203 20 1002 Pending 1000 ]    (* pending, paid *)
    [ mkPayment 1 100 2500 "Card" "2025-01-02";
      mkPayment 2 203 1000 "Cash" "2025-01-03" ]
    [ mkUser 1 "admin" "secret" "Administrator" "admin@example.org" "admin" ]
    [ mkLogRow 1700000000 "started" ].

Definition demo_mirror : Mirror :=
  mkMirror (Organizer_tbl demo_tables) (Venue_tbl demo_tables)
    (Participants_tbl demo_tables) (Event_tbl demo_tables)
    (Sponsor_tbl demo_tables) (Volunteers_tbl demo_tables)
    (Ticket_tbl demo_tables) (Payment_tbl demo_tables)
    (users_tbl demo_tables)
    [ mkLogEntry 1700000000 "started" ].

Definition demo_clock : Clock := mkClock 1700000100 "2025-01-05" 1700000101.

(** The demo database with a fresh mirror, under a given fault plan. *)
Definition demo_state (fs : list bool) : State :=
  mkState demo_tables demo_tables fs [] demo_mirror demo_clock.

(** ** The answers of the tiers, from the fault plan and the tables *)

(** Tier 1 of [get_available_capacity]: the routine ran and did not return
    NULL. *)
Definition capacity_tier1_answer (fault : bool) (event_id : Z) (t : Tables)
  : option Z :=
  if fault then None
  else match SQL.FN_GetAvailableCapacity event_id t with
       | Some (Some capacity) => Some capacity
       | _ => None
       end.

(** Tier 2 of [get_available_capacity]: the query ran and returned a row. *)
Definition capacity_tier2_answer (fault : bool) (event_id : Z) (t : Tables)
  : option Z :=
  if fault then None
  else match SQL.select_capacity_minus_confirmed event_id t with
       | capacity :: _ => Some capacity
       | [] => None
       end.

(** Tier 1 of [get_organizer_name]: the routine ran and returned a name
    that is neither NULL nor empty. *)
Definition organizer_tier1_answer (fault : bool) (organizer_id : Z)
  (t : Tables) : option string :=
  if fault then None
  else match SQL.FN_GetOrganizerName organizer_id t with
       | Some (Some name) => if truthy name then Some name else None
       | _ => None
       end.

(** Tier 2 of [get_organizer_name]. *)
Definition organizer_tier2_answer (fault : bool) (organizer_id : Z)
  (t : Tables) : option string :=
  if fault then None
  else match SQL.select_organizer_name organizer_id t with
       | name :: _ => if truthy name then Some name else None
       | [] => None
       end.

(** The mirror holds the events, venues, tickets, organizers and payments
    of the tables the connection sees. *)
Definition mirror_fresh (st : State) : Prop :=
  events (mirror st) = Event_tbl (pending st) /\
  venues (mirror st) = Venue_tbl (pending st) /\
  tickets (mirror st) = Ticket_tbl (pending st) /\
  organizers (mirror st) = Organizer_tbl (pending st) /\
  payments (mirror st) = Payment_tbl (pending st).

(** Primary keys of the tables the capacity of an event depends on. *)
Definition keys_unique (t : Tables) : Prop :=
  NoDup (map Event_id (Event_tbl t)) /\
  NoDup (map Venue_id (Venue_tbl t)) /\
  NoDup (map Organizer_id (Organizer_tbl t)).

(** ** The properties of the specification that the code does not have,
    as they are stated *)

(** A "not found" of tier 1 is the final answer of [get_organizer_name]:
    when the routine runs and returns NULL, no further tier is tried. *)
Definition tier1_not_found_is_final (st : State) (organizer_id : Z) : Prop :=
  fault_at 0 (faults st) = false ->
  SQL.FN_GetOrganizerName organizer_id (pending st) = Some None ->
  Database.get_organizer_name organizer_id st =
    (Ret "Unknown", sent (SelectFN_GetOrganizerName organizer_id) st).

(** The value all tiers compute: capacity of the venue minus the confirmed
    tickets, and no value when the event or its venue is not found. *)
Definition resolved_capacity (event_id : Z) (t : Tables) : option Z :=
  match find (fun e => Event_id e =? event_id) (Event_tbl t) with
  | None => None
  | Some event =>
      match find (fun v => Venue_id v =? Event_Venue_id event) (Venue_tbl t)
      with
      | None => None
      | Some venue =>
          Some (Capacity venue - SQL.count_confirmed event_id (Ticket_tbl t))
      end
  end.

(** ** Capacity *)

(** No event has more confirmed tickets than its venue has places. *)
Definition within_capacity (t : Tables) : Prop :=
  forall e v,
    In e (Event_tbl t) -> In v (Venue_tbl t) ->
    Venue_id v = Event_Venue_id e ->
    SQL.count_confirmed (Event_id e) (Ticket_tbl t) <= Capacity v.

Definition within_capacityb (t : Tables) : bool :=
  forallb
    (fun e =>
       forallb
         (fun v =>
            negb (Venue_id v =? Event_Venue_id e)
            || (SQL.count_confirmed (Event_id e) (Ticket_tbl t) <=? Capacity v))
         (Venue_tbl t))
    (Event_tbl t).

(** The demo database once event 10 is sold out: tickets 100 and 102 are
    confirmed for the two places of venue 1, ticket 101 is still pending. *)
Definition sold_out_tables : Tables :=
  with_Ticket_tbl
    (Ticket_tbl demo_tables ++ [mkTicket 102 10 1002 Confirmed 2500])
    (with_Payment_tbl
       (Payment_tbl demo_tables ++ [mkPayment 3 102 2500 "Card" "2025-01-04"])
       demo_tables).

Definition mirror_of (t : Tables) (l : list LogEntry) : Mirror :=
  mkMirror (Organizer_tbl t) (Venue_tbl t) (Participants_tbl t) (Event_tbl t)
    (Sponsor_tbl t) (Volunteers_tbl t) (Ticket_tbl t) (Payment_tbl t)
    (users_tbl t) l.

Definition sold_out_state (fs : list bool) : State :=
  mkState sold_out_tables sold_out_tables fs []
    (mirror_of sold_out_tables [mkLogEntry 1700000000 "started"]) demo_clock.

(** Payment confirmation keeps every event within the capacity of its
    venue. *)
Definition confirm_payment_keeps_capacity (st : State) (ticket_id : Z)
  (method : string) (amount : Z) : Prop :=
  within_capacity (pending st) ->
  within_capacity
    (pending (snd (Database.confirm_payment ticket_id method amount st))).

(** ** Payment confirmation *)

(** The [try] block of [confirm_payment]: the call of the stored routine. *)
Definition confirm_payment_routine (ticket_id : Z) (payment_method : string)
  (amount : Z) : M string :=
  send (CallSP_ConfirmPayment ticket_id payment_method amount) ;;;
  message <- Database.SP_ConfirmPayment ticket_id payment_method amount ;;
  connection_commit ;;;
  Database.refresh_all_data ;;;
  ret message.

Definition cached_ticket (ticket_id : Z) (st : State) : option Ticket :=
  find (fun t => Ticket_id t =? ticket_id) (tickets (mirror st)).

Definition cached_payment (ticket_id : Z) (st : State) : option Payment :=
  find (fun p => Payment_Ticket_id p =? ticket_id) (payments (mirror st)).

Definition stored_ticket (ticket_id : Z) (t : Tables) : option Ticket :=
  find (fun k => Ticket_id k =? ticket_id) (Ticket_tbl t).

Definition has_payment (ticket_id : Z) (t : Tables) : bool :=
  existsb (fun p => Payment_Ticket_id p =? ticket_id) (Payment_tbl t).

Definition msg_not_found (ticket_id : Z) : string :=
  ("Error: Ticket " ++ SQL.str ticket_id ++ " not found")%string.


Definition msg_already_on_record (ticket_id : Z) : string :=
  ("Ticket " ++ SQL.str ticket_id
     ++ " confirmed. Payment already on record.")%string.




(** ** mark_ticket_as_pending *)





(** The three ways the INSERT into [Log] can end. *)
Inductive LogOutcome (event_id : Z) (event_name : string) (st st1 : State)
  : Prop :=
  | log_refused :
      hd false (faults st) = true ->
      pending st1 = pending st ->
      committed st1 = committed st ->
      issued st1 = (issued st ++ [InsertLog (deletion_message event_id event_name)])%list ->
      faults st1 = tl (faults st) ->
      LogOutcome event_id event_name st st1
  | log_uncommitted :
      hd false (faults st) = false ->
      hd false (tl (faults st)) = true ->
      pending st1 =
        SQL.insert_log (CURRENT_TIMESTAMP (clock st))
          (deletion_message event_id event_name) (pending st) ->
      committed st1 = committed st ->
      issued st1 =
        (issued st ++ [InsertLog (deletion_message event_id event_name); Commit])%list ->
      faults st1 = tl (tl (faults st)) ->
      LogOutcome event_id event_name st st1
  | log_committed :
      hd false (faults st) = false ->
      hd false (tl (faults st)) = false ->
      pending st1 =
        SQL.insert_log (CURRENT_TIMESTAMP (clock st))
          (deletion_message event_id event_name) (pending st) ->
      committed st1 = pending st1 ->
      issued st1 =
        (issued st ++ [InsertLog (deletion_message event_id event_name); Commit])%list ->
      faults st1 = tl (tl (faults st)) ->
      LogOutcome event_id event_name st st1.

(** ** Vocabulary of the further properties *)

(** The shape shared by the single-statement mutations of [Database]:
    execute and commit, reload on success. *)
Definition mutation (s : Stmt) (run : Tables -> option (unit * Tables))
  : M bool :=
  result <- Database.execute_query s run ;;
  (if result then Database.refresh_all_data else ret tt) ;;;
  ret result.

(** The whole mirror is the image of the tables the connection sees. *)
Definition mirror_of_pending (st : State) : Prop :=
  organizers (mirror st) = Organizer_tbl (pending st) /\
  venues (mirror st) = Venue_tbl (pending st) /\
  participants (mirror st) = Participants_tbl (pending st) /\
  events (mirror st) = Event_tbl (pending st) /\
  sponsors (mirror st) = Sponsor_tbl (pending st) /\
  volunteers (mirror st) = Volunteers_tbl (pending st) /\
  tickets (mirror st) = Ticket_tbl (pending st) /\
  payments (mirror st) = Payment_tbl (pending st) /\
  users (mirror st) = users_tbl (pending st).

(** No fault among the [n] entries of the plan from position [k] on. *)
Definition no_fault_in (k n : nat) (fs : list bool) : Prop :=
  forall j, (j < n)%nat -> fault_at (k + j) fs = false.

(** The identifiers that the public registration generates from the
    cache. *)
Definition next_participant_id (m : Mirror) : Z :=
  Database.max_default 1000 (map Participant_id (participants m)) + 1.

Definition next_volunteer_id (m : Mirror) : Z :=
  Database.max_default 200 (map Volunteer_id (volunteers m)) + 1.

Definition next_ticket_id (m : Mirror) : Z :=
  Database.max_default 3000 (map Ticket_id (tickets m)) + 1.

(** The rows that [register_user_as_participant] inserts. *)
Definition registered_participant (m : Mirror)
  (given_fullname email contact : string) : Participant :=
  mkParticipant (next_participant_id m) given_fullname email contact.

Definition registered_ticket (m : Mirror) (event_id : Z) : Ticket :=
  mkTicket (next_ticket_id m) event_id (next_participant_id m) Pending 1.

Definition registered_volunteer (m : Mirror) (event_id : Z)
  (given_fullname email contact vtype : string) : Volunteer :=
  mkVolunteer (next_volunteer_id m) given_fullname email contact vtype
    event_id.

Definition msg_registered_participant (m : Mirror) : string :=
  ("Registered as participant (Participant ID: "
     ++ SQL.str (next_participant_id m)
     ++ ", Ticket ID: " ++ SQL.str (next_ticket_id m) ++ ")")%string.

Definition msg_registered_volunteer (m : Mirror) : string :=
  ("Registered as volunteer (Volunteer ID: "
     ++ SQL.str (next_volunteer_id m) ++ ")")%string.

(** A user whose name and password are exactly the given ones. *)
Definition credentials_match (given_username given_password : string)
  (u : User) : Prop :=
  username u = given_username /\ password u = given_password.

(** The row of report 1 for an event, from the tables. *)
Definition capacity_row (t : Tables) (e : Event) : list (string * Z * Z) :=
  match find (fun v => Venue_id v =? Event_Venue_id e) (Venue_tbl t) with
  | Some v =>
      [(Event_Name e, Capacity v,
        Capacity v - SQL.count_confirmed (Event_id e) (Ticket_tbl t))]
  | None => []
  end.

Definition total (d : list (string * Z)) : Z :=
  fold_right (fun kv acc => snd kv + acc) 0 d.

(** What report 3 counts for a ticket: the amount of the first cached
    payment of the ticket, if any. *)
Definition counted_amount (m : Mirror) (k : Ticket) : Z :=
  match find (fun p => Payment_Ticket_id p =? Ticket_id k) (payments m) with
  | Some payment => Amount payment
  | None => 0
  end.

(** What report 3 counts for an event: nothing when its organizer is not
    cached. *)
Definition counted_revenue (m : Mirror) (e : Event) : Z :=
  match find (fun o => Organizer_id o =? Event_Organizer_id e) (organizers m)
  with
  | Some _ =>
      fold_right Z.add 0
        (map (counted_amount m)
           (filter (fun t => Ticket_Event_id t =? Event_id e) (tickets m)))
  | None => 0
  end.

(** ** Vocabulary of the connection *)

Definition link_at (k : nat) (ls : list Link) : Link := nth k ls Alive.

(** The connection can be used at each of the first [k] calls of
    [execute_query]. *)
Definition reaches (k : nat) (ls : list Link) : Prop :=
  forall j, (j < k)%nat -> link_at j ls <> Unreachable.

(** The transaction that [execute_query] works on once it has looked at
    the connection: the current one, or a new one. *)
Definition usable (ss : Session) : State :=
  if connection ss && match hd Alive (links ss) with Alive => true | _ => false end
  then store ss
  else new_session (store ss).

(** The session after the connection has been found usable, and after it
    has been found lost for good. *)
Definition ready (ss : Session) : Session :=
  mkSession (usable ss) true (tl (links ss)).

Definition lost (ss : Session) : Session :=
  mkSession (new_session (store ss)) false (tl (links ss)).

(** A snapshot after its fetch: empty when the fetch raised a storage
    error, else the rows of the table, as the transaction or as the last
    commit has them (the latter after a reconnection). *)
Definition snapshot_of {A} (fault : bool)
  (rows from_pending from_committed : list A) : Prop :=
  if fault then rows = []
  else rows = from_pending \/ rows = from_committed.

(** The mirror [m'] of a reload started in [st] that has fetched the
    first [k] entity tables and no other. *)
Definition refreshed_to (k : nat) (st : State) (m' : Mirror) : Prop :=
  let fs := faults st in
  let m := mirror st in
  let p := pending st in
  let c := committed st in
  (if (0 <? k)%nat
   then snapshot_of (fault_at 0 fs) (organizers m')
          (Organizer_tbl p) (Organizer_tbl c)
   else organizers m' = organizers m) /\
  (if (1 <? k)%nat
   then snapshot_of (fault_at 1 fs) (venues m') (Venue_tbl p) (Venue_tbl c)
   else venues m' = venues m) /\
  (if (2 <? k)%nat
   then snapshot_of (fault_at 2 fs) (participants m')
          (Participants_tbl p) (Participants_tbl c)
   else participants m' = participants m) /\
  (if (3 <? k)%nat
   then snapshot_of (fault_at 3 fs) (events m') (Event_tbl p) (Event_tbl c)
   else events m' = events m) /\
  (if (4 <? k)%nat
   then snapshot_of (fault_at 4 fs) (sponsors m')
          (Sponsor_tbl p) (Sponsor_tbl c)
   else sponsors m' = sponsors m) /\
  (if (5 <? k)%nat
   then snapshot_of (fault_at 5 fs) (volunteers m')
          (Volunteers_tbl p) (Volunteers_tbl c)
   else volunteers m' = volunteers m) /\
  (if (6 <? k)%nat
   then snapshot_of (fault_at 6 fs) (tickets m') (Ticket_tbl p) (Ticket_tbl c)
   else tickets m' = tickets m) /\
  (if (7 <? k)%nat
   then snapshot_of (fault_at 7 fs) (payments m')
          (Payment_tbl p) (Payment_tbl c)
   else payments m' = payments m).

(** The session of a reload started in [ss0], before its [j]-th fetch. *)
Definition reload_inv (j : nat) (ss0 ss : Session) : Prop :=
  links ss = skipn j (links ss0) /\
  faults (store ss) = skipn j (faults (store ss0)) /\
  committed (store ss) = committed (store ss0) /\
  (pending (store ss) = pending (store ss0) \/
   pending (store ss) = committed (store ss0)) /\
  reaches j (links ss0) /\
  refreshed_to j (store ss0) (mirror (store ss)) /\
  users (mirror (store ss)) = users (mirror (store ss0)) /\
  logs (mirror (store ss)) = logs (mirror (store ss0)).

(** The demo database behind a connection, under a fault plan and a plan
    of the connection. *)
Definition demo_session (fs : list bool) (ls : list Link) : Session :=
  mkSession (demo_state fs) true ls.

(** The [i]-th fetch of a reload is reached and fails: the connection is
    lost for good there, or the server raises a storage error. *)
Definition fetch_fails (i : nat) (ss : Session) : Prop :=
  reaches i (links ss) /\
  (link_at i (links ss) = Unreachable \/
   fault_at i (faults (store ss)) = true).

(** Stale-but-available reload, as the specification states it: a table
    whose fetch fails keeps its previous snapshot. *)
Definition reload_keeps_failed_tables (ss : Session) : Prop :=
  let m := mirror (store ss) in
  let m' := mirror (store (snd (Session.refresh_all_data ss))) in
  (fetch_fails 0 ss -> organizers m' = organizers m) /\
  (fetch_fails 1 ss -> venues m' = venues m) /\
  (fetch_fails 2 ss -> participants m' = participants m) /\
  (fetch_fails 3 ss -> events m' = events m) /\
  (fetch_fails 4 ss -> sponsors m' = sponsors m) /\
  (fetch_fails 5 ss -> volunteers m' = volunteers m) /\
  (fetch_fails 6 ss -> tickets m' = tickets m) /\
  (fetch_fails 7 ss -> payments m' = payments m) /\
  (fetch_fails 8 ss -> users m' = users m) /\
  (fetch_fails 9 ss -> logs m' = logs m).

(** ** Reasoning principles for the monad *)

Section MonadFacts.
Context {A B : Type}.

Lemma bind_run_ret (m : M A) (k : A -> M B) st a st1 :
  m st = (Ret a, st1) -> bind m k st = k a st1.
Proof. intros H. unfold bind. rewrite H. reflexivity. Qed.

Lemma bind_run_raise (m : M A) (k : A -> M B) st e st1 :
  m st = (Raise e, st1) -> bind m k st = (Raise e, st1).
Proof. intros H. unfold bind. rewrite H. reflexivity. Qed.

Lemma bind_inv_ret (m : M A) (k : A -> M B) st b st' :
  bind m k st = (Ret b, st') ->
  exists a st1, m st = (Ret a, st1) /\ k a st1 = (Ret b, st').
Proof.
  unfold bind. destruct (m st) as [[a | e] st1]; intros H.
  - exists a, st1. split; [reflexivity | exact H].
  - discriminate H.
Qed.

Lemma bind_inv_raise (m : M A) (k : A -> M B) st e st' :
  bind m k st = (Raise e, st') ->
  m st = (Raise e, st') \/
  exists a st1, m st = (Ret a, st1) /\ k a st1 = (Raise e, st').
Proof.
  unfold bind. destruct (m st) as [[a | e0] st1]; intros H.
  - right. exists a, st1. split; [reflexivity | exact H].
  - left. injection H as -> ->. reflexivity.
Qed.
End MonadFacts.

Lemma try_except_run_ret {A} (m : M A) caught h st a st1 :
  m st = (Ret a, st1) -> try_except m caught h st = (Ret a, st1).
Proof. intros H. unfold try_except. rewrite H. reflexivity. Qed.

Lemma try_except_run_caught {A} (m : M A) caught h st e st1 :
  m st = (Raise e, st1) -> caught e = true ->
  try_except m caught h st = h e st1.
Proof. intros H C. unfold try_except. rewrite H, C. reflexivity. Qed.

(** ** The connection primitives, step by step *)

Lemma cursor_execute_fault {A} s (run : Tables -> option (A * Tables)) st :
  hd false (faults st) = true ->
  cursor_execute s run st = (Raise MySQLError, sent s st).
Proof.
  intros H. unfold cursor_execute, server_step, bind, send, next_fault.
  cbn. rewrite H. reflexivity.
Qed.

Lemma cursor_execute_pass {A} s (run : Tables -> option (A * Tables)) st :
  hd false (faults st) = false ->
  cursor_execute s run st =
    match run (pending st) with
    | Some (a, t') => (Ret a, with_pending t' (sent s st))
    | None => (Raise MySQLError, sent s st)
    end.
Proof.
  intros H. unfold cursor_execute, server_step, bind, send, next_fault.
  cbn. rewrite H. cbn. destruct (run (pending st)) as [[a t'] |]; reflexivity.
Qed.

Lemma connection_commit_fault st :
  hd false (faults st) = true ->
  connection_commit st = (Raise MySQLError, sent Commit st).
Proof.
  intros H. unfold connection_commit, bind, send, next_fault.
  cbn. rewrite H. reflexivity.
Qed.

Lemma connection_commit_pass st :
  hd false (faults st) = false ->
  connection_commit st =
    (Ret tt, with_committed (pending st) (sent Commit st)).
Proof.
  intros H. unfold connection_commit, bind, send, next_fault.
  cbn. rewrite H. reflexivity.
Qed.

(** Whatever the server answers, a fetch returns to its caller. *)
Lemma execute_query_fetch_run {A} s (q : Tables -> option (list A)) st :
  Database.execute_query_fetch s q st =
    (Ret (if hd false (faults st) then []
          else match q (pending st) with Some rows => rows | None => [] end),
     sent s st).
Proof.
  unfold Database.execute_query_fetch, try_except, bind, ret.
  destruct (hd false (faults st)) eqn:F.
  - rewrite (cursor_execute_fault _ _ _ F). reflexivity.
  - rewrite (cursor_execute_pass _ _ _ F). unfold reads.
    destruct (q (pending st)); reflexivity.
Qed.

Lemma select_all_run {A} name (tbl : Tables -> list A) st :
  Database.select_all name tbl st =
    (Ret (if hd false (faults st) then [] else tbl (pending st)),
     sent (SelectAll name) st).
Proof. unfold Database.select_all. rewrite execute_query_fetch_run. reflexivity. Qed.

(** ** Positions in the fault plan *)

Lemma nth_skipn_add {A} (d : A) n : forall k l,
  nth (n + k) l d = nth k (skipn n l) d.
Proof.
  induction n as [| n IH]; intros k l; [reflexivity |].
  destruct l as [| x l]; [destruct k; reflexivity |].
  cbn. apply IH.
Qed.

Lemma hd_nth0 (l : list bool) : hd false l = nth 0 l false.
Proof. destruct l; reflexivity. Qed.


(** ** What a reload does *)

Lemma or_empty_id {A} (x : list A) : or_empty x = x.
Proof. destruct x; reflexivity. Qed.

Lemma fetch_and_assign {A} name (tbl : Tables -> list A)
    (setter : list A -> Mirror -> Mirror) p c fs i m k :
  (r <- Database.select_all name tbl ;; set_mirror (setter (or_empty r)))
    (mkState p c fs i m k) =
  (Ret tt,
   mkState p c (tl fs) (i ++ [SelectAll name])
     (setter (fetched (hd false fs) (tbl p)) m) k).
Proof.
  unfold bind. rewrite select_all_run. rewrite or_empty_id. reflexivity.
Qed.

Lemma fetch_and_assign_then {A B} name (tbl : Tables -> list A)
    (setter : list A -> Mirror -> Mirror) (rest : M B) p c fs i m k :
  (r <- Database.select_all name tbl ;;
   set_mirror (setter (or_empty r)) ;;; rest)
    (mkState p c fs i m k) =
  rest (mkState p c (tl fs) (i ++ [SelectAll name])
          (setter (fetched (hd false fs) (tbl p)) m) k).
Proof.
  unfold bind. rewrite select_all_run. rewrite or_empty_id. reflexivity.
Qed.

Lemma fetch_logs_and_assign p c fs i m k :
  try_except
    (logs_data <- Database.execute_query_fetch SelectLog100
                    (fun t => Some (SQL.select_log_100 t)) ;;
     match logs_data with
     | [] => ret tt
     | _ :: _ =>
         set_mirror
           (set_logs
              (map (fun log => mkLogEntry (Timestamp log) (Log_Message log))
                 logs_data))
     end)
    any_exception
    (fun _ => ret tt) (mkState p c fs i m k) =
  (Ret tt,
   mkState p c (tl fs) (i ++ [SelectLog100])
     (set_logs
        (match fetched (hd false fs) (SQL.select_log_100 p) with
         | [] => logs m
         | (_ :: _) as logs_data =>
             map (fun log => mkLogEntry (Timestamp log) (Log_Message log))
               logs_data
         end) m) k).
Proof.
  unfold try_except, bind. rewrite execute_query_fetch_run.
  unfold fetched, sent. cbn [pending faults issued].
  destruct (hd false fs); [destruct m; reflexivity |].
  destruct (SQL.select_log_100 p); [destruct m; reflexivity | reflexivity].
Qed.

Lemma refresh_all_data_run st :
  Database.refresh_all_data st =
    (Ret tt,
     mkState (pending st) (committed st) (skipn 10 (faults st))
       (issued st ++ reload_statements)
       (reloaded (faults st) (pending st) (mirror st)) (clock st)).
Proof.
  destruct st as [p c fs i m k].
  unfold Database.refresh_all_data.
  do 8 rewrite fetch_and_assign_then.
  erewrite bind_run_ret;
    [| apply try_except_run_ret; apply fetch_and_assign ].
  rewrite fetch_logs_and_assign.
  cbn [pending committed faults issued mirror clock].
  rewrite <- !app_assoc.
  unfold reloaded, fault_at, reload_statements.
  destruct m as [mo mv mp me ms mvo mt mpa mu ml].
  destruct fs as [|f0 [|f1 [|f2 [|f3 [|f4 [|f5 [|f6 [|f7 [|f8 [|f9 fs]]]]]]]]]];
    reflexivity.
Qed.

(** ** [execute_query] without fetch *)

Lemma execute_query_run s (run : Tables -> option (unit * Tables)) st :
  Database.execute_query s run st =
    if hd false (faults st) then (Ret false, sent s st)
    else match run (pending st) with
         | None => (Ret false, sent s st)
         | Some (_, t') =>
             if hd false (tl (faults st))
             then (Ret false, sent Commit (with_pending t' (sent s st)))
             else (Ret true,
                   with_committed t' (sent Commit (with_pending t' (sent s st))))
         end.
Proof.
  unfold Database.execute_query, try_except.
  destruct (hd false (faults st)) eqn:F.
  - rewrite (bind_run_raise _ _ _ _ _ (cursor_execute_fault _ _ _ F)).
    reflexivity.
  - unfold bind at 1. rewrite (cursor_execute_pass _ _ _ F).
    destruct (run (pending st)) as [[[] t'] |]; [| reflexivity].
    destruct (hd false (tl (faults st))) eqn:F2.
    + rewrite (bind_run_raise _ _ _ _ _
                 (connection_commit_fault (with_pending t' (sent s st)) F2)).
      reflexivity.
    + unfold bind.
      rewrite (connection_commit_pass (with_pending t' (sent s st)) F2).
      reflexivity.
Qed.

(** [execute_query] returns to its caller whatever the server does. *)
Lemma execute_query_returns s run st :
  exists b st', Database.execute_query s run st = (Ret b, st').
Proof.
  rewrite execute_query_run.
  destruct (hd false (faults st)); [eauto |].
  destruct (run (pending st)) as [[[] t'] |]; [| eauto].
  destruct (hd false (tl (faults st))); eauto.
Qed.

(** Inversion of a statement that went through. *)
Lemma cursor_execute_inv_ret {A} s (run : Tables -> option (A * Tables))
    st a st' :
  cursor_execute s run st = (Ret a, st') ->
  hd false (faults st) = false /\
  exists t', run (pending st) = Some (a, t') /\
             st' = with_pending t' (sent s st).
Proof.
  intros H. destruct (hd false (faults st)) eqn:F.
  - rewrite (cursor_execute_fault _ _ _ F) in H. discriminate H.
  - rewrite (cursor_execute_pass _ _ _ F) in H.
    destruct (run (pending st)) as [[a0 t'] |]; [| discriminate H].
    injection H as -> <-. split; [reflexivity |].
    exists t'. split; reflexivity.
Qed.

Lemma cursor_execute_inv_raise {A} s (run : Tables -> option (A * Tables))
    st e st' :
  cursor_execute s run st = (Raise e, st') ->
  e = MySQLError /\ st' = sent s st.
Proof.
  intros H. destruct (hd false (faults st)) eqn:F.
  - rewrite (cursor_execute_fault _ _ _ F) in H.
    injection H as <- <-. split; reflexivity.
  - rewrite (cursor_execute_pass _ _ _ F) in H.
    destruct (run (pending st)) as [[a0 t'] |]; [discriminate H |].
    injection H as <- <-. split; reflexivity.
Qed.

Lemma connection_commit_inv_ret st u st' :
  connection_commit st = (Ret u, st') ->
  hd false (faults st) = false /\
  st' = with_committed (pending st) (sent Commit st).
Proof.
  intros H. destruct (hd false (faults st)) eqn:F.
  - rewrite (connection_commit_fault _ F) in H. discriminate H.
  - rewrite (connection_commit_pass _ F) in H.
    injection H as _ <-. split; reflexivity.
Qed.

Lemma connection_commit_inv_raise st e st' :
  connection_commit st = (Raise e, st') ->
  e = MySQLError /\ st' = sent Commit st.
Proof.
  intros H. destruct (hd false (faults st)) eqn:F.
  - rewrite (connection_commit_fault _ F) in H.
    injection H as <- <-. split; reflexivity.
  - rewrite (connection_commit_pass _ F) in H. discriminate H.
Qed.

(** ** [log_event_deletion] *)

Lemma same_entities_refl t : same_entities t t.
Proof. repeat split. Qed.

Lemma same_entities_insert_log now msg t :
  same_entities t (SQL.insert_log now msg t).
Proof. repeat split. Qed.

Lemma log_event_deletion_run event_id event_name st :
  exists st1,
    Database.log_event_deletion event_id event_name st = (Ret tt, st1) /\
    LogOutcome event_id event_name st st1 /\
    mirror st1 =
      set_logs
        (logs (mirror st) ++
           [mkLogEntry (datetime_now (clock st))
              (deletion_message event_id event_name)])
        (mirror st) /\
    clock st1 = clock st.
Proof.
  unfold Database.log_event_deletion, get_clock, try_except.
  unfold bind at 1. unfold bind at 1. unfold bind at 1.
  rewrite execute_query_run. fold (deletion_message event_id event_name).
  destruct st as [p c fs i m k]. unfold writes, sent, set_mirror.
  cbn [pending committed faults issued mirror clock with_faults with_issued
       with_pending with_committed with_mirror].
  destruct (hd false fs) eqn:F1.
  - eexists. split; [reflexivity |]. split; [| split; reflexivity].
    apply log_refused; try reflexivity; assumption.
  - destruct (hd false (tl fs)) eqn:F2.
    + eexists. split; [reflexivity |]. split; [| split; reflexivity].
      apply log_uncommitted; cbn; rewrite <- ?app_assoc; try reflexivity; assumption.
    + eexists. split; [reflexivity |]. split; [| split; reflexivity].
      apply log_committed; cbn; rewrite <- ?app_assoc; try reflexivity; assumption.
Qed.

Lemma LogOutcome_same_entities event_id event_name st st1 :
  LogOutcome event_id event_name st st1 ->
  same_entities (pending st) (pending st1).
Proof.
  intros [_ Hp _ _ _ | _ _ Hp _ _ _ | _ _ Hp _ _ _]; rewrite Hp;
    auto using same_entities_refl, same_entities_insert_log.
Qed.

(** ** The cascade of [delete_event] *)

Lemma for_each_payments_ret ticket_ids : forall st st',
  for_each ticket_ids delete_payment_step st = (Ret tt, st') ->
  st' = mkState (delete_payments ticket_ids (pending st)) (committed st)
          (skipn (List.length ticket_ids) (faults st))
          (issued st ++ map DeletePaymentOfTicket ticket_ids)
          (mirror st) (clock st).
Proof.
  induction ticket_ids as [| tid tids IH]; intros st st' H.
  - cbn in H. injection H as <-. destruct st. cbn. rewrite app_nil_r.
    reflexivity.
  - cbn [for_each] in H. apply bind_inv_ret in H as ([] & s & H1 & H).
    apply cursor_execute_inv_ret in H1 as (_ & t' & Hrun & ->).
    injection Hrun as <-.
    apply IH in H. rewrite H. destruct st as [p c fs i m k].
    unfold sent. cbn. rewrite <- app_assoc.
    destruct fs; [destruct tids |]; reflexivity.
Qed.

Lemma for_each_payments_raise ticket_ids : forall st e st',
  for_each ticket_ids delete_payment_step st = (Raise e, st') ->
  e = MySQLError /\ committed st' = committed st /\ mirror st' = mirror st /\
  clock st' = clock st.
Proof.
  induction ticket_ids as [| tid tids IH]; intros st e st' H.
  - discriminate H.
  - cbn [for_each] in H. apply bind_inv_raise in H as [H | ([] & s & H1 & H)].
    + apply cursor_execute_inv_raise in H as (-> & ->). repeat split.
    + apply cursor_execute_inv_ret in H1 as (_ & t' & _ & ->).
      apply IH in H as (-> & Hc & Hm & Hk). repeat split; assumption.
Qed.

Lemma delete_event_unfold event_id event_name :
  Database.delete_event event_id event_name =
    (Database.log_event_deletion event_id event_name ;;;
     try_except (cascade_block event_id) is_Error
       (fun _ => connection_rollback ;;; ret false)).
Proof. reflexivity. Qed.

Lemma cascade_block_ret event_id st b st' :
  cascade_block event_id st = (Ret b, st') ->
  let ticket_ids := SQL.select_ticket_ids event_id (pending st) in
  let fs := skipn (List.length ticket_ids + 6) (faults st) in
  b = true /\
  st' = mkState (cascaded event_id (pending st))
          (cascaded event_id (pending st))
          (skipn 10 fs)
          (issued st ++ cascade_statements event_id ticket_ids
             ++ reload_statements)
          (reloaded fs (cascaded event_id (pending st)) (mirror st))
          (clock st).
Proof.
  unfold cascade_block. intros H.
  apply bind_inv_ret in H as (tids & s1 & H1 & H).
  apply cursor_execute_inv_ret in H1 as (_ & t1 & R1 & ->).
  unfold reads in R1. injection R1 as <- <-.
  apply bind_inv_ret in H as ([] & s2 & H2 & H).
  apply (for_each_payments_ret _ _ _) in H2. subst s2.
  apply bind_inv_ret in H as ([] & s3 & H3 & H).
  apply cursor_execute_inv_ret in H3 as (_ & t3 & R3 & ->).
  injection R3 as <-.
  apply bind_inv_ret in H as ([] & s4 & H4 & H).
  apply cursor_execute_inv_ret in H4 as (_ & t4 & R4 & ->).
  injection R4 as <-.
  apply bind_inv_ret in H as ([] & s5 & H5 & H).
  apply cursor_execute_inv_ret in H5 as (_ & t5 & R5 & ->).
  injection R5 as <-.
  apply bind_inv_ret in H as ([] & s6 & H6 & H).
  apply cursor_execute_inv_ret in H6 as (_ & t6 & R6 & ->).
  injection R6 as <-.
  apply bind_inv_ret in H as ([] & s7 & H7 & H).
  apply connection_commit_inv_ret in H7 as (_ & ->).
  apply bind_inv_ret in H as ([] & s8 & H8 & H).
  rewrite refresh_all_data_run in H8. injection H8 as <-.
  injection H as <- <-.
  split; [reflexivity |].
  destruct st as [p c fs i m k]. unfold sent, cascaded, cascade_statements.
  cbn [pending committed faults issued mirror clock with_faults with_issued
       with_pending with_committed with_mirror].
  set (n := List.length (SQL.select_ticket_ids event_id p)).
  assert (E : tl (tl (tl (tl (tl (skipn n (tl fs)))))) = skipn (n + 6) fs).
  { replace (n + 6)%nat with (6 + n)%nat by lia.
    rewrite <- (skipn_skipn 6 n).
    change (tl fs) with (skipn 1 fs). rewrite skipn_skipn.
    replace (n + 1)%nat with (1 + n)%nat by lia.
    rewrite <- (skipn_skipn 1 n). 
    generalize (skipn n fs). intros l.
    destruct l as [|? [|? [|? [|? [|? [| ? ?]]]]]]; reflexivity. }
  rewrite E. f_equal.
  rewrite <- !app_assoc. reflexivity.
Qed.

Lemma cascade_block_raise event_id st e st' :
  cascade_block event_id st = (Raise e, st') ->
  e = MySQLError /\ committed st' = committed st /\ mirror st' = mirror st /\
  clock st' = clock st.
Proof.
  unfold cascade_block. intros H.
  apply bind_inv_raise in H as [H | (tids & s1 & H1 & H)].
  { apply cursor_execute_inv_raise in H as (-> & ->). repeat split. }
  apply cursor_execute_inv_ret in H1 as (_ & t1 & _ & ->).
  apply bind_inv_raise in H as [H | ([] & s2 & H2 & H)].
  { apply (for_each_payments_raise _ _ _ _) in H as (-> & ? & ? & ?).
    repeat split; assumption. }
  apply (for_each_payments_ret _ _ _) in H2. subst s2.
  apply bind_inv_raise in H as [H | ([] & s3 & H3 & H)].
  { apply cursor_execute_inv_raise in H as (-> & ->). repeat split. }
  apply cursor_execute_inv_ret in H3 as (_ & t3 & _ & ->).
  apply bind_inv_raise in H as [H | ([] & s4 & H4 & H)].
  { apply cursor_execute_inv_raise in H as (-> & ->). repeat split. }
  apply cursor_execute_inv_ret in H4 as (_ & t4 & _ & ->).
  apply bind_inv_raise in H as [H | ([] & s5 & H5 & H)].
  { apply cursor_execute_inv_raise in H as (-> & ->). repeat split. }
  apply cursor_execute_inv_ret in H5 as (_ & t5 & _ & ->).
  apply bind_inv_raise in H as [H | ([] & s6 & H6 & H)].
  { apply cursor_execute_inv_raise in H as (-> & ->). repeat split. }
  apply cursor_execute_inv_ret in H6 as (_ & t6 & _ & ->).
  apply bind_inv_raise in H as [H | ([] & s7 & H7 & H)].
  { apply connection_commit_inv_raise in H as (-> & ->). repeat split. }
  apply bind_inv_raise in H as [H | ([] & s8 & H8 & H)].
  { rewrite refresh_all_data_run in H. discriminate H. }
  discriminate H.
Qed.

(** ** The tiered queries, tier by tier *)

Lemma available_capacity_tier1_run event_id st :
  Database.available_capacity_tier1 event_id st =
    (Ret (capacity_tier1_answer (hd false (faults st)) event_id (pending st)),
     sent (SelectFN_GetAvailableCapacity event_id) st).
Proof.
  unfold Database.available_capacity_tier1, try_except, bind.
  rewrite execute_query_fetch_run. unfold capacity_tier1_answer.
  destruct (hd false (faults st)); [reflexivity |].
  destruct (SQL.FN_GetAvailableCapacity event_id (pending st)) as [[c |] |];
    reflexivity.
Qed.

Lemma available_capacity_tier2_run event_id st :
  Database.available_capacity_tier2 event_id st =
    (Ret (capacity_tier2_answer (hd false (faults st)) event_id (pending st)),
     sent (SelectCapacityMinusConfirmed event_id) st).
Proof.
  unfold Database.available_capacity_tier2, try_except, bind.
  rewrite execute_query_fetch_run. unfold capacity_tier2_answer.
  destruct (hd false (faults st)); [reflexivity |].
  destruct (SQL.select_capacity_minus_confirmed event_id (pending st));
    reflexivity.
Qed.

Lemma get_available_capacity_run event_id st :
  Database.get_available_capacity event_id st =
    match capacity_tier1_answer (fault_at 0 (faults st)) event_id (pending st)
    with
    | Some capacity =>
        (Ret capacity, sent (SelectFN_GetAvailableCapacity event_id) st)
    | None =>
        (Ret match capacity_tier2_answer (fault_at 1 (faults st)) event_id
                     (pending st) with
             | Some capacity => capacity
             | None => Database.available_capacity_cached event_id (mirror st)
             end,
         sent (SelectCapacityMinusConfirmed event_id)
           (sent (SelectFN_GetAvailableCapacity event_id) st))
    end.
Proof.
  unfold Database.get_available_capacity, fault_at.
  unfold bind at 1. rewrite available_capacity_tier1_run.
  rewrite <- hd_nth0.
  destruct (capacity_tier1_answer _ _ _); [reflexivity |].
  unfold bind at 1. rewrite available_capacity_tier2_run.
  replace (nth 1 (faults st) false) with (hd false (tl (faults st)))
    by (destruct (faults st) as [| ? [| ? ?]]; reflexivity).
  cbn [pending faults sent with_faults with_issued].
  destruct (capacity_tier2_answer _ _ _); reflexivity.
Qed.

Lemma organizer_name_tier1_run organizer_id st :
  Database.organizer_name_tier1 organizer_id st =
    (Ret (organizer_tier1_answer (hd false (faults st)) organizer_id
            (pending st)),
     sent (SelectFN_GetOrganizerName organizer_id) st).
Proof.
  unfold Database.organizer_name_tier1, try_except, bind.
  rewrite execute_query_fetch_run. unfold organizer_tier1_answer.
  destruct (hd false (faults st)); [reflexivity |].
  destruct (SQL.FN_GetOrganizerName organizer_id (pending st)) as [[n |] |];
    try reflexivity.
  destruct (truthy n); reflexivity.
Qed.

Lemma organizer_name_tier2_run organizer_id st :
  Database.organizer_name_tier2 organizer_id st =
    (Ret (organizer_tier2_answer (hd false (faults st)) organizer_id
            (pending st)),
     sent (SelectOrganizerName organizer_id) st).
Proof.
  unfold Database.organizer_name_tier2, try_except, bind.
  rewrite execute_query_fetch_run. unfold organizer_tier2_answer.
  destruct (hd false (faults st)); [reflexivity |].
  destruct (SQL.select_organizer_name organizer_id (pending st)) as [| n ?];
    try reflexivity.
  destruct (truthy n); reflexivity.
Qed.

Lemma get_organizer_name_run organizer_id st :
  Database.get_organizer_name organizer_id st =
    match organizer_tier1_answer (fault_at 0 (faults st)) organizer_id
            (pending st) with
    | Some name => (Ret name, sent (SelectFN_GetOrganizerName organizer_id) st)
    | None =>
        (Ret match organizer_tier2_answer (fault_at 1 (faults st))
                     organizer_id (pending st) with
             | Some name => name
             | None => Database.organizer_name_cached organizer_id (mirror st)
             end,
         sent (SelectOrganizerName organizer_id)
           (sent (SelectFN_GetOrganizerName organizer_id) st))
    end.
Proof.
  unfold Database.get_organizer_name, fault_at.
  unfold bind at 1. rewrite organizer_name_tier1_run.
  rewrite <- hd_nth0.
  destruct (organizer_tier1_answer _ _ _); [reflexivity |].
  unfold bind at 1. rewrite organizer_name_tier2_run.
  replace (nth 1 (faults st) false) with (hd false (tl (faults st)))
    by (destruct (faults st) as [| ? [| ? ?]]; reflexivity).
  cbn [pending faults sent with_faults with_issued].
  destruct (organizer_tier2_answer _ _ _); reflexivity.
Qed.

Lemma get_total_confirmed_tickets_run event_id st :
  Database.get_total_confirmed_tickets event_id st =
    if fault_at 0 (faults st)
    then (Ret (if fault_at 1 (faults st) then 0
               else SQL.count_confirmed event_id (Ticket_tbl (pending st))),
          sent (SelectCountConfirmed event_id)
            (sent (SelectFN_GetTotalConfirmedTickets event_id) st))
    else (Ret (SQL.count_confirmed event_id (Ticket_tbl (pending st))),
          sent (SelectFN_GetTotalConfirmedTickets event_id) st).
Proof.
  unfold Database.get_total_confirmed_tickets,
    Database.confirmed_tickets_tier1, fault_at, try_except.
  unfold bind at 1. unfold bind at 1. rewrite execute_query_fetch_run.
  rewrite <- hd_nth0.
  destruct (hd false (faults st)) eqn:F; [| reflexivity].
  cbn [ret]. unfold bind. rewrite execute_query_fetch_run.
  replace (nth 1 (faults st) false) with (hd false (tl (faults st)))
    by (destruct (faults st) as [| ? [| ? ?]]; reflexivity).
  cbn [pending faults sent with_faults with_issued].
  destruct (hd false (tl (faults st))); reflexivity.
Qed.

(** ** [execute_query] and the connection *)

Lemma bind_s_run_ret {A B} (m : MS A) (k : A -> MS B) ss a ss1 :
  m ss = (Ret a, ss1) -> bind_s m k ss = k a ss1.
Proof. intros H. unfold bind_s. rewrite H. reflexivity. Qed.

Lemma bind_s_run_raise {A B} (m : MS A) (k : A -> MS B) ss e ss1 :
  m ss = (Raise e, ss1) -> bind_s m k ss = (Raise e, ss1).
Proof. intros H. unfold bind_s. rewrite H. reflexivity. Qed.

(** Lines 56-59: the connection is found usable, or AttributeError is
    raised. *)
Lemma prologue_run {A} (k : MS A) ss :
  (ensure_connection ;;~ connection_cursor ;;~ k) ss =
    match hd Alive (links ss) with
    | Unreachable => (Raise AttributeError, lost ss)
    | _ => k (ready ss)
    end.
Proof.
  unfold bind_s, ensure_connection, bind_s, next_link, connect,
    connection_cursor, ready, lost, usable.
  cbn [store connection links].
  destruct (hd Alive (links ss)), (connection ss); reflexivity.
Qed.

Lemma usable_frame ss :
  faults (usable ss) = faults (store ss) /\
  committed (usable ss) = committed (store ss) /\
  mirror (usable ss) = mirror (store ss) /\
  clock (usable ss) = clock (store ss) /\
  issued (usable ss) = issued (store ss) /\
  (pending (usable ss) = pending (store ss) \/
   pending (usable ss) = committed (store ss)).
Proof.
  unfold usable, new_session.
  destruct (connection ss && _); cbn; auto 10.
Qed.

Lemma new_session_clean st :
  pending st = committed st -> new_session st = st.
Proof. destruct st. cbn. intros ->. reflexivity. Qed.

Lemma usable_clean ss :
  pending (store ss) = committed (store ss) -> usable ss = store ss.
Proof.
  intros H. unfold usable. rewrite (new_session_clean _ H).
  destruct (connection ss && _); reflexivity.
Qed.

Lemma execute_query_fetch_link {A} s (q : Tables -> option (list A)) ss :
  Session.execute_query_fetch s q ss =
    match hd Alive (links ss) with
    | Unreachable => (Raise AttributeError, lost ss)
    | _ =>
        (Ret (if hd false (faults (usable ss)) then []
              else match q (pending (usable ss)) with
                   | Some rows => rows
                   | None => []
                   end),
         mkSession (sent s (usable ss)) true (tl (links ss)))
    end.
Proof.
  unfold Session.execute_query_fetch, try_except_s. rewrite prologue_run.
  assert (E : lift (result <- cursor_execute s (reads q) ;; ret result)
                (ready ss) =
              (fst ((result <- cursor_execute s (reads q) ;; ret result)
                      (usable ss)),
               mkSession
                 (snd ((result <- cursor_execute s (reads q) ;; ret result)
                         (usable ss))) true (tl (links ss)))).
  { unfold lift, ready. cbn [store connection links].
    destruct (bind _ _ (usable ss)); reflexivity. }
  assert (R : (result <- cursor_execute s (reads q) ;; ret result)
                (usable ss) =
              if hd false (faults (usable ss))
              then (Raise MySQLError, sent s (usable ss))
              else match q (pending (usable ss)) with
                   | Some rows => (Ret rows, sent s (usable ss))
                   | None => (Raise MySQLError, sent s (usable ss))
                   end).
  { unfold bind. destruct (hd false (faults (usable ss))) eqn:F.
    - rewrite cursor_execute_fault by exact F. reflexivity.
    - rewrite cursor_execute_pass by exact F. unfold reads.
      destruct (q (pending (usable ss))); [| reflexivity].
      unfold ret.
      first [reflexivity | f_equal; destruct (usable ss); reflexivity]. }
  destruct (hd Alive (links ss)); [| | reflexivity]; rewrite E, R;
    (destruct (hd false (faults (usable ss))); [reflexivity |]);
    destruct (q (pending (usable ss))); reflexivity.
Qed.

Lemma execute_query_link s run ss :
  Session.execute_query s run ss =
    match hd Alive (links ss) with
    | Unreachable => (Raise AttributeError, lost ss)
    | _ =>
        (fst (Database.execute_query s run (usable ss)),
         mkSession (snd (Database.execute_query s run (usable ss))) true
           (tl (links ss)))
    end.
Proof.
  unfold Session.execute_query, try_except_s. rewrite prologue_run.
  unfold Database.execute_query, try_except, lift, ready.
  cbn [store connection links].
  destruct (hd Alive (links ss)); [| | reflexivity];
    destruct (bind _ _ (usable ss)) as [[a | e] st']; cbn;
    try reflexivity; destruct (is_Error e); reflexivity.
Qed.

Lemma lift_set_mirror f ss :
  lift (set_mirror f) ss =
    (Ret tt,
     mkSession (with_mirror (f (mirror (store ss))) (store ss))
       (connection ss) (links ss)).
Proof. reflexivity. Qed.

(** One line [self.table = self.execute_query(..., fetch=True) or []]. *)
Lemma fetch_assign_link {A B} name (tbl : Tables -> list A)
    (assign : list A -> Mirror -> Mirror) (k : MS B) ss :
  (r <~ Session.select_all name tbl ;;
   lift (set_mirror (assign (or_empty r))) ;;~ k) ss =
    match hd Alive (links ss) with
    | Unreachable => (Raise AttributeError, lost ss)
    | _ =>
        k (mkSession
             (with_mirror
                (assign (fetched (hd false (faults (store ss)))
                           (tbl (pending (usable ss))))
                   (mirror (store ss)))
                (sent (SelectAll name) (usable ss)))
             true (tl (links ss)))
    end.
Proof.
  unfold bind_s at 1. unfold Session.select_all.
  rewrite execute_query_fetch_link.
  destruct (usable_frame ss) as (F & _ & Mi & _).
  destruct (hd Alive (links ss)); [| | reflexivity];
    unfold bind_s; rewrite lift_set_mirror, or_empty_id;
    cbn [store connection links]; unfold fetched; rewrite F;
    unfold sent; cbn [mirror with_faults with_issued]; rewrite Mi;
    reflexivity.
Qed.

(** ** The reload and the connection *)

Lemma hd_skipn {A} (d : A) j : forall l, hd d (skipn j l) = nth j l d.
Proof.
  induction j as [| j IH]; intros [| x l]; cbn; auto.
Qed.

Lemma tl_skipn {A} j : forall l : list A, tl (skipn j l) = skipn (S j) l.
Proof.
  induction j as [| j IH]; intros [| x l]; cbn; auto.
Qed.

Lemma reload_step {A B} j name (tbl : Tables -> list A)
    (assign : list A -> Mirror -> Mirror) (k : MS B) ss0 ss :
  reload_inv j ss0 ss ->
  (forall rows m,
      users (assign rows m) = users m /\ logs (assign rows m) = logs m) ->
  (forall rows m,
      snapshot_of (fault_at j (faults (store ss0))) rows
        (tbl (pending (store ss0))) (tbl (committed (store ss0))) ->
      refreshed_to j (store ss0) m ->
      refreshed_to (S j) (store ss0) (assign rows m)) ->
  (link_at j (links ss0) = Unreachable /\
   (r <~ Session.select_all name tbl ;;
    lift (set_mirror (assign (or_empty r))) ;;~ k) ss =
     (Raise AttributeError, lost ss)) \/
  exists ss',
    (r <~ Session.select_all name tbl ;;
     lift (set_mirror (assign (or_empty r))) ;;~ k) ss = k ss' /\
    reload_inv (S j) ss0 ss'.
Proof.
  intros (L & F & C & P & Re & Rf & U & Lg) HA HB.
  rewrite fetch_assign_link.
  assert (E : hd Alive (links ss) = link_at j (links ss0))
    by (rewrite L; apply hd_skipn).
  assert (E' : hd false (faults (store ss)) = fault_at j (faults (store ss0)))
    by (rewrite F; apply hd_skipn).
  destruct (usable_frame ss) as (Fu & Cu & _ & _ & _ & Pu).
  rewrite E, E'.
  assert (Step : link_at j (links ss0) <> Unreachable ->
            reload_inv (S j) ss0
              (mkSession
                 (with_mirror
                    (assign (fetched (fault_at j (faults (store ss0)))
                               (tbl (pending (usable ss))))
                       (mirror (store ss)))
                    (sent (SelectAll name) (usable ss)))
                 true (tl (links ss)))).
  { intros N. unfold reload_inv. cbn [store links].
    unfold sent. cbn [faults committed pending mirror with_mirror
      with_faults with_issued].
    rewrite Fu, Cu, L, F, !tl_skipn, C.
    split; [reflexivity |]. split; [reflexivity |]. split; [reflexivity |].
    split.
    { destruct Pu as [-> | ->]; [exact P | right; exact C]. }
    split.
    { intros i Hi. destruct (Nat.eq_dec i j) as [-> | Hn]; [exact N |].
      apply Re. lia. }
    split.
    { apply HB; [| exact Rf]. unfold snapshot_of, fetched.
      destruct (fault_at j (faults (store ss0))); [reflexivity |].
      destruct Pu as [-> | ->]; [destruct P as [-> | ->]; auto |].
      right. rewrite C. reflexivity. }
    destruct (HA (fetched (fault_at j (faults (store ss0)))
                    (tbl (pending (usable ss)))) (mirror (store ss)))
      as (-> & ->). auto. }
  destruct (link_at j (links ss0)) eqn:Lk.
  - right. eexists. split; [reflexivity |]. apply Step. discriminate.
  - right. eexists. split; [reflexivity |]. apply Step. discriminate.
  - left. split; reflexivity.
Qed.

Lemma reload_inv_start ss : reload_inv 0 ss ss.
Proof.
  unfold reload_inv, reaches, refreshed_to. cbn.
  repeat split; auto. intros j Hj. lia.
Qed.

Lemma refreshed_to_ext k st m1 m2 :
  organizers m2 = organizers m1 -> venues m2 = venues m1 ->
  participants m2 = participants m1 -> events m2 = events m1 ->
  sponsors m2 = sponsors m1 -> volunteers m2 = volunteers m1 ->
  tickets m2 = tickets m1 -> payments m2 = payments m1 ->
  refreshed_to k st m1 -> refreshed_to k st m2.
Proof.
  unfold refreshed_to. intros -> -> -> -> -> -> -> ->. exact (fun H => H).
Qed.

(** A reload stopped by the loss of the connection at its [k]-th fetch. *)
Lemma reload_stopped k ss0 ss :
  reload_inv k ss0 ss -> link_at k (links ss0) = Unreachable ->
  committed (store (lost ss)) = committed (store ss0) /\
  (pending (store (lost ss)) = pending (store ss0) \/
   pending (store (lost ss)) = committed (store ss0)) /\
  reaches k (links ss0) /\
  refreshed_to k (store ss0) (mirror (store (lost ss))) /\
  users (mirror (store (lost ss))) = users (mirror (store ss0)) /\
  logs (mirror (store (lost ss))) = logs (mirror (store ss0)).
Proof.
  intros (L & F & C & P & Re & Rf & U & Lg) Lk.
  unfold lost, new_session. cbn. auto 10.
Qed.

(** The fetch of the users, in its [try]. *)
Lemma reload_users ss :
  exists ss',
    try_except_s
      (r <~ Session.select_all T_users users_tbl ;;
       lift (set_mirror (set_users (or_empty r))))
      any_exception
      (fun _ => lift (set_mirror (set_users []))) ss = (Ret tt, ss') /\
    committed (store ss') = committed (store ss) /\
    (pending (store ss') = pending (store ss) \/
     pending (store ss') = committed (store ss)) /\
    (organizers (mirror (store ss')) = organizers (mirror (store ss)) /\
     venues (mirror (store ss')) = venues (mirror (store ss)) /\
     participants (mirror (store ss')) = participants (mirror (store ss)) /\
     events (mirror (store ss')) = events (mirror (store ss)) /\
     sponsors (mirror (store ss')) = sponsors (mirror (store ss)) /\
     volunteers (mirror (store ss')) = volunteers (mirror (store ss)) /\
     tickets (mirror (store ss')) = tickets (mirror (store ss)) /\
     payments (mirror (store ss')) = payments (mirror (store ss))) /\
    logs (mirror (store ss')) = logs (mirror (store ss)) /\
    links ss' = tl (links ss) /\
    (hd Alive (links ss) <> Unreachable ->
     faults (store ss') = tl (faults (store ss))) /\
    (hd Alive (links ss) = Unreachable -> users (mirror (store ss')) = []) /\
    (hd Alive (links ss) <> Unreachable ->
     snapshot_of (hd false (faults (store ss))) (users (mirror (store ss')))
       (users_tbl (pending (store ss))) (users_tbl (committed (store ss)))) /\
    (hd Alive (links ss) = Unreachable ->
     faults (store ss') = faults (store ss)).
Proof.
  destruct (usable_frame ss) as (Fu & Cu & Mu & _ & _ & Pu).
  unfold try_except_s, bind_s, Session.select_all.
  rewrite execute_query_fetch_link.
  assert (S : forall l, l <> Unreachable ->
            snapshot_of (hd false (faults (store ss)))
              (or_empty
                 (if hd false (faults (store ss)) then []
                  else users_tbl (pending (usable ss))))
              (users_tbl (pending (store ss)))
              (users_tbl (committed (store ss)))).
  { intros l _. rewrite or_empty_id. unfold snapshot_of.
    destruct (hd false (faults (store ss))); [reflexivity |].
    destruct Pu as [-> | ->]; auto. }
  destruct (hd Alive (links ss)) eqn:L1.
  - rewrite lift_set_mirror. eexists. split; [reflexivity |].
    cbn [store connection links]. unfold sent.
    cbn [committed pending mirror faults with_mirror with_faults with_issued
         organizers venues participants events sponsors volunteers tickets
         payments users logs set_users].
    rewrite Cu, Mu, Fu.
    repeat split; intros;
      first [reflexivity | exact Pu | discriminate
            | apply (S Alive); discriminate].
  - rewrite lift_set_mirror. eexists. split; [reflexivity |].
    cbn [store connection links]. unfold sent.
    cbn [committed pending mirror faults with_mirror with_faults with_issued
         organizers venues participants events sponsors volunteers tickets
         payments users logs set_users].
    rewrite Cu, Mu, Fu.
    repeat split; intros;
      first [reflexivity | exact Pu | discriminate
            | apply (S Alive); discriminate].
  - cbn [any_exception]. rewrite lift_set_mirror. eexists.
    split; [reflexivity |]. unfold lost, new_session.
    cbn [store connection links committed pending mirror faults with_mirror
         with_pending organizers venues participants events sponsors
         volunteers tickets payments users logs set_users].
    split; [reflexivity |]. split; [right; reflexivity |].
    repeat split; intros; first [reflexivity | contradiction].
Qed.

(** The fetch of the log, in its [try]. *)
Lemma reload_logs ss :
  exists ss',
    try_except_s
      (logs_data <~ Session.execute_query_fetch SelectLog100
                      (fun t => Some (SQL.select_log_100 t)) ;;
       match logs_data with
       | [] => ret_s tt
       | _ :: _ =>
           lift (set_mirror
                   (set_logs
                      (map (fun log =>
                              mkLogEntry (Timestamp log) (Log_Message log))
                         logs_data)))
       end)
      any_exception
      (fun _ => ret_s tt) ss = (Ret tt, ss') /\
    committed (store ss') = committed (store ss) /\
    (pending (store ss') = pending (store ss) \/
     pending (store ss') = committed (store ss)) /\
    (organizers (mirror (store ss')) = organizers (mirror (store ss)) /\
     venues (mirror (store ss')) = venues (mirror (store ss)) /\
     participants (mirror (store ss')) = participants (mirror (store ss)) /\
     events (mirror (store ss')) = events (mirror (store ss)) /\
     sponsors (mirror (store ss')) = sponsors (mirror (store ss)) /\
     volunteers (mirror (store ss')) = volunteers (mirror (store ss)) /\
     tickets (mirror (store ss')) = tickets (mirror (store ss)) /\
     payments (mirror (store ss')) = payments (mirror (store ss))) /\
    users (mirror (store ss')) = users (mirror (store ss)) /\
    (hd Alive (links ss) = Unreachable ->
     logs (mirror (store ss')) = logs (mirror (store ss))) /\
    (hd false (faults (store ss)) = true ->
     logs (mirror (store ss')) = logs (mirror (store ss))).
Proof.
  destruct (usable_frame ss) as (Fu & Cu & Mu & _ & _ & Pu).
  unfold try_except_s, bind_s.
  rewrite execute_query_fetch_link.
  destruct (hd Alive (links ss)) eqn:L1.
  3:{ cbn [any_exception]. unfold ret_s. eexists. split; [reflexivity |].
      unfold lost, new_session. cbn. auto 20. }
  - rewrite Fu.
    destruct (hd false (faults (store ss))) eqn:F.
    { unfold ret_s. eexists. split; [reflexivity |].
      cbn [store]. unfold sent. cbn. rewrite Cu, Mu. auto 20. }
    destruct (SQL.select_log_100 (pending (usable ss))) eqn:Q.
    { unfold ret_s. eexists. split; [reflexivity |].
      cbn [store]. unfold sent. cbn. rewrite Cu, Mu. auto 20. }
    rewrite lift_set_mirror. eexists. split; [reflexivity |].
    cbn [store]. unfold sent. cbn. rewrite Cu, Mu.
    split; [reflexivity |]. split; [exact Pu |].
    split; [auto 10 |]. split; [reflexivity |].
    split; [discriminate | discriminate].
  - rewrite Fu.
    destruct (hd false (faults (store ss))) eqn:F.
    { unfold ret_s. eexists. split; [reflexivity |].
      cbn [store]. unfold sent. cbn. rewrite Cu, Mu. auto 20. }
    destruct (SQL.select_log_100 (pending (usable ss))) eqn:Q.
    { unfold ret_s. eexists. split; [reflexivity |].
      cbn [store]. unfold sent. cbn. rewrite Cu, Mu. auto 20. }
    rewrite lift_set_mirror. eexists. split; [reflexivity |].
    cbn [store]. unfold sent. cbn. rewrite Cu, Mu.
    split; [reflexivity |]. split; [exact Pu |].
    split; [auto 10 |]. split; [reflexivity |].
    split; [discriminate | discriminate].
Qed.

Ltac reload_assign_facts :=
  let rows := fresh "rows" in
  let m := fresh "m" in
  let Sn := fresh "Sn" in
  let Rf := fresh "Rf" in
  intros rows m Sn Rf; unfold refreshed_to in *;
  cbn [Nat.ltb Nat.leb organizers venues participants events sponsors
       volunteers tickets payments users logs set_organizers set_venues
       set_participants set_events set_sponsors set_volunteers set_tickets
       set_payments] in *;
  intuition.

Ltac reload_fetch j ss0 I :=
  match goal with
  | |- context [bind_s (Session.select_all ?n ?t)
                  (fun r => bind_s (lift (set_mirror (?a (or_empty r))))
                              (fun _ => ?k)) ?s] =>
      let HA := fresh "HA" in
      let HB := fresh "HB" in
      assert (HA : forall rows m,
                 users (a rows m) = users m /\ logs (a rows m) = logs m)
        by (intros; split; reflexivity);
      assert (HB : forall rows m,
                 snapshot_of (fault_at j (faults (store ss0))) rows
                   (t (pending (store ss0))) (t (committed (store ss0))) ->
                 refreshed_to j (store ss0) m ->
                 refreshed_to (S j) (store ss0) (a rows m))
        by reload_assign_facts;
      let Lk := fresh "Lk" in
      let R := fresh "R" in
      let s' := fresh "ss" in
      let I' := fresh "I" in
      destruct (reload_step j n t a k ss0 s I HA HB)
        as [(Lk & R) | (s' & R & I')];
      rewrite R; clear R HA HB;
      [ destruct (reload_stopped j ss0 s I Lk)
          as (? & ? & ? & ? & ? & ?);
        exists (Raise AttributeError), (lost s);
        split; [reflexivity |]; split; [assumption |];
        split; [assumption |]; left; exists j;
        repeat (split; [first [lia | assumption | reflexivity] |]);
        assumption
      | ]
  end.

(** Every way a reload can go: it is stopped by the loss of the
    connection at one of the first eight fetches, or it runs to its end. *)
Lemma refresh_all_data_paths ss :
  exists o ss',
    Session.refresh_all_data ss = (o, ss') /\
    committed (store ss') = committed (store ss) /\
    (pending (store ss') = pending (store ss) \/
     pending (store ss') = committed (store ss)) /\
    ((exists k,
         (k < 8)%nat /\ reaches k (links ss) /\
         link_at k (links ss) = Unreachable /\
         o = Raise AttributeError /\
         refreshed_to k (store ss) (mirror (store ss')) /\
         users (mirror (store ss')) = users (mirror (store ss)) /\
         logs (mirror (store ss')) = logs (mirror (store ss)))
     \/
     (reaches 8 (links ss) /\ o = Ret tt /\
      refreshed_to 8 (store ss) (mirror (store ss')) /\
      (link_at 8 (links ss) = Unreachable ->
       users (mirror (store ss')) = []) /\
      (link_at 8 (links ss) <> Unreachable ->
       snapshot_of (fault_at 8 (faults (store ss)))
         (users (mirror (store ss')))
         (users_tbl (pending (store ss)))
         (users_tbl (committed (store ss)))) /\
      (link_at 9 (links ss) = Unreachable ->
       logs (mirror (store ss')) = logs (mirror (store ss))) /\
      (link_at 8 (links ss) <> Unreachable ->
       fault_at 9 (faults (store ss)) = true ->
       logs (mirror (store ss')) = logs (mirror (store ss))) /\
      (link_at 8 (links ss) = Unreachable ->
       fault_at 8 (faults (store ss)) = true ->
       logs (mirror (store ss')) = logs (mirror (store ss))))).
Proof.
  unfold Session.refresh_all_data.
  pose proof (reload_inv_start ss) as I0.
  reload_fetch 0%nat ss I0.
  reload_fetch 1%nat ss I.
  reload_fetch 2%nat ss I1.
  reload_fetch 3%nat ss I2.
  reload_fetch 4%nat ss I3.
  reload_fetch 5%nat ss I4.
  reload_fetch 6%nat ss I5.
  reload_fetch 7%nat ss I6.
  destruct I7 as (L & F & C & P & Re & Rf & U & Lg).
  destruct (reload_users ss7)
    as (ss8 & R8 & C8 & P8 & (E1 & E2 & E3 & E4 & E5 & E6 & E7 & E8) & Lg8
        & L8 & F8 & U8a & U8b & F8u).
  destruct (reload_logs ss8)
    as (ss9 & R9 & C9 & P9 & (G1 & G2 & G3 & G4 & G5 & G6 & G7 & G8) & U9
        & Lg9a & Lg9b).
  rewrite (bind_s_run_ret _ _ _ _ _ R8), R9.
  assert (H8 : hd Alive (links ss7) = link_at 8 (links ss))
    by (rewrite L; apply hd_skipn).
  assert (H9 : hd Alive (links ss8) = link_at 9 (links ss))
    by (rewrite L8, L, tl_skipn; apply hd_skipn).
  assert (K8 : hd false (faults (store ss7)) = fault_at 8 (faults (store ss)))
    by (rewrite F; apply hd_skipn).
  rewrite H8 in *. rewrite H9 in *. rewrite K8 in *.
  exists (Ret tt), ss9. split; [reflexivity |].
  split; [congruence |].
  split.
  { destruct P9 as [Q | Q]; rewrite Q.
    - destruct P8 as [Q' | Q']; rewrite Q'; [exact P | right; exact C].
    - right. congruence. }
  right. split; [exact Re |]. split; [reflexivity |].
  split.
  { apply (refreshed_to_ext 8 (store ss) (mirror (store ss8))); try assumption.
    apply (refreshed_to_ext 8 (store ss) (mirror (store ss7)));
      assumption. }
  split; [intros N; rewrite U9; exact (U8a N) |].
  split.
  { intros N. rewrite U9. specialize (U8b N). revert U8b.
    unfold snapshot_of. rewrite C.
    destruct (fault_at 8 (faults (store ss))); [exact (fun H => H) |].
    destruct P as [-> | ->]; intuition. }
  split; [intros N; rewrite (Lg9a N), Lg8; exact Lg |].
  split.
  { intros N Ft. rewrite Lg9b, Lg8; [exact Lg |].
    rewrite (F8 N), F, tl_skipn, hd_skipn. exact Ft. }
  intros N Ft. rewrite Lg9b, Lg8; [exact Lg |].
  rewrite (F8u N), K8. exact Ft.
Qed.

(** ** Cascade completeness (C1) *)

Lemma delete_payments_tables ticket_ids : forall t,
  Organizer_tbl (delete_payments ticket_ids t) = Organizer_tbl t /\
  Venue_tbl (delete_payments ticket_ids t) = Venue_tbl t /\
  Participants_tbl (delete_payments ticket_ids t) = Participants_tbl t /\
  Event_tbl (delete_payments ticket_ids t) = Event_tbl t /\
  Sponsor_tbl (delete_payments ticket_ids t) = Sponsor_tbl t /\
  Volunteers_tbl (delete_payments ticket_ids t) = Volunteers_tbl t /\
  Ticket_tbl (delete_payments ticket_ids t) = Ticket_tbl t /\
  users_tbl (delete_payments ticket_ids t) = users_tbl t /\
  Log_tbl (delete_payments ticket_ids t) = Log_tbl t /\
  Payment_tbl (delete_payments ticket_ids t) =
    filter (fun p => negb (existsb (Z.eqb (Payment_Ticket_id p)) ticket_ids))
      (Payment_tbl t).
Proof.
  induction ticket_ids as [| tid tids IH]; intros t.
  - cbn. repeat split. induction (Payment_tbl t) as [| p ps IHp];
      [reflexivity | cbn; congruence].
  - cbn [delete_payments fold_left].
    specialize (IH (SQL.delete_payment_of_ticket tid t)).
    unfold delete_payments in IH.
    destruct IH as (H1 & H2 & H3 & H4 & H5 & H6 & H7 & H8 & H9 & H10).
    rewrite H1, H2, H3, H4, H5, H6, H7, H8, H9, H10.
    repeat split. cbn.
    induction (Payment_tbl t) as [| p ps IHp]; [reflexivity |].
    cbn. destruct (Payment_Ticket_id p =? tid); cbn.
    + exact IHp.
    + destruct (existsb (Z.eqb (Payment_Ticket_id p)) tids); cbn;
        [exact IHp | f_equal; exact IHp].
Qed.

Lemma cascaded_tables event_id t :
  Ticket_tbl (cascaded event_id t) =
    filter (fun k => negb (Ticket_Event_id k =? event_id)) (Ticket_tbl t) /\
  Payment_tbl (cascaded event_id t) =
    filter (fun p => negb (existsb (Z.eqb (Payment_Ticket_id p))
                             (SQL.select_ticket_ids event_id t)))
      (Payment_tbl t) /\
  Volunteers_tbl (cascaded event_id t) =
    filter (fun v => negb (Volunteer_Event_id v =? event_id))
      (Volunteers_tbl t) /\
  Sponsor_tbl (cascaded event_id t) =
    filter (fun s => negb (Sponsor_Event_id s =? event_id)) (Sponsor_tbl t) /\
  Event_tbl (cascaded event_id t) =
    filter (fun e => negb (Event_id e =? event_id)) (Event_tbl t) /\
  Organizer_tbl (cascaded event_id t) = Organizer_tbl t /\
  Venue_tbl (cascaded event_id t) = Venue_tbl t /\
  Participants_tbl (cascaded event_id t) = Participants_tbl t /\
  users_tbl (cascaded event_id t) = users_tbl t /\
  Log_tbl (cascaded event_id t) = Log_tbl t.
Proof.
  destruct (delete_payments_tables (SQL.select_ticket_ids event_id t) t)
    as (H1 & H2 & H3 & H4 & H5 & H6 & H7 & H8 & H9 & H10).
  unfold cascaded. cbn.
  rewrite H1, H2, H3, H4, H5, H6, H7, H8, H9, H10. repeat split.
Qed.

Lemma select_ticket_ids_same t t' event_id :
  same_entities t t' ->
  SQL.select_ticket_ids event_id t' = SQL.select_ticket_ids event_id t.
Proof.
  intros (_ & _ & _ & _ & _ & _ & H & _). unfold SQL.select_ticket_ids.
  rewrite H. reflexivity.
Qed.

Lemma cascaded_same_entities t t' event_id :
  same_entities t t' ->
  same_entities (cascaded event_id t) (cascaded event_id t').
Proof.
  intros S.
  pose proof (select_ticket_ids_same _ _ event_id S) as Hids.
  destruct S as (S1 & S2 & S3 & S4 & S5 & S6 & S7 & S8 & S9).
  destruct (cascaded_tables event_id t)
    as (A1 & A2 & A3 & A4 & A5 & A6 & A7 & A8 & A9 & _).
  destruct (cascaded_tables event_id t')
    as (B1 & B2 & B3 & B4 & B5 & B6 & B7 & B8 & B9 & _).
  unfold same_entities.
  rewrite A1, A2, A3, A4, A5, A6, A7, A8, A9, B1, B2, B3, B4, B5, B6, B7, B8, B9.
  rewrite Hids, S1, S2, S3, S4, S5, S6, S7, S8, S9. repeat split.
Qed.

(** C1. After a successful [delete_event], the committed tables hold no
    ticket, volunteer or sponsor of the event, no payment of a ticket the
    event had, and no row of the event itself; they are exactly the tables
    of before with those rows filtered out.  The statements sent are the
    log insertion, then the deletions of the payments (one per ticket of the
    event), of the tickets, of the volunteers, of the sponsors and of the
    event, then the commit, then the reload. *)
Theorem delete_event_cascade_complete event_id event_name st st' :
  Database.delete_event event_id event_name st = (Ret true, st') ->
  (forall k, In k (Ticket_tbl (committed st')) ->
             Ticket_Event_id k <> event_id) /\
  (forall p k, In p (Payment_tbl (committed st')) ->
               In k (Ticket_tbl (pending st)) ->
               Ticket_Event_id k = event_id ->
               Payment_Ticket_id p <> Ticket_id k) /\
  (forall v, In v (Volunteers_tbl (committed st')) ->
             Volunteer_Event_id v <> event_id) /\
  (forall s, In s (Sponsor_tbl (committed st')) ->
             Sponsor_Event_id s <> event_id) /\
  (forall e, In e (Event_tbl (committed st')) -> Event_id e <> event_id) /\
  same_entities (cascaded event_id (pending st)) (committed st') /\
  pending st' = committed st' /\
  exists log_statements,
    (log_statements = [InsertLog (deletion_message event_id event_name)] \/
     log_statements =
       [InsertLog (deletion_message event_id event_name); Commit]) /\
    issued st' =
      (issued st ++ log_statements
         ++ cascade_statements event_id
              (SQL.select_ticket_ids event_id (pending st))
         ++ reload_statements)%list.
Proof.
  intros H. rewrite delete_event_unfold in H.
  destruct (log_event_deletion_run event_id event_name st)
    as (st1 & Hlog & Hout & Hmir & Hclk).
  rewrite (bind_run_ret _ _ _ _ _ Hlog) in H.
  unfold try_except in H.
  destruct (cascade_block event_id st1) as [[b | e] st2] eqn:Hblock.
  2:{ apply cascade_block_raise in Hblock as (-> & _).
      cbn in H. discriminate H. }
  injection H as -> ->.
  apply cascade_block_ret in Hblock as (_ & ->).
  cbn [pending committed issued].
  pose proof (LogOutcome_same_entities _ _ _ _ Hout) as S.
  pose proof (cascaded_same_entities _ _ event_id S) as SC.
  destruct (cascaded_tables event_id (pending st1))
    as (A1 & A2 & A3 & A4 & A5 & _).
  rewrite A1, A2, A3, A4, A5.
  assert (Hneq : forall x y : Z, negb (x =? y) = true -> x <> y).
  { intros x y Hn ->. rewrite Z.eqb_refl in Hn. discriminate Hn. }
  split; [| split; [| split; [| split; [| split; [| split; [| split]]]]]].
  - intros k Hk. apply filter_In in Hk as (_ & Hk). auto.
  - intros p k Hp Hk Hev. apply filter_In in Hp as (_ & Hp).
    intros Heq. apply negb_true_iff in Hp.
    assert (X : existsb (Z.eqb (Payment_Ticket_id p))
                  (SQL.select_ticket_ids event_id (pending st1)) = true).
    { apply existsb_exists. exists (Ticket_id k). split.
      - rewrite (select_ticket_ids_same _ _ event_id S).
        unfold SQL.select_ticket_ids. apply in_map. apply filter_In.
        split; [exact Hk |]. unfold SQL.of_event. apply Z.eqb_eq. exact Hev.
      - apply Z.eqb_eq. exact Heq. }
    congruence.
  - intros v Hv. apply filter_In in Hv as (_ & Hv). auto.
  - intros s Hs. apply filter_In in Hs as (_ & Hs). auto.
  - intros e He. apply filter_In in He as (_ & He). auto.
  - exact SC.
  - reflexivity.
  - destruct Hout as [_ _ _ Hi _ | _ _ _ _ Hi _ | _ _ _ _ Hi _]; rewrite Hi;
      rewrite (select_ticket_ids_same _ _ event_id S);
      eexists; (split; [| rewrite <- app_assoc; reflexivity]); auto.
Qed.

(** On the demo database, without faults, the deletion of event 10
    succeeds. *)
Lemma delete_event_cascade_complete_witness :
  Database.delete_event 10 "Gala" (demo_state []) =
    (Ret true, snd (Database.delete_event 10 "Gala" (demo_state []))) /\
  Ticket_tbl (committed (snd (Database.delete_event 10 "Gala" (demo_state []))))
    = [ mkTicket 200 20 1001 Confirmed 1000;
        mkTicket 201 20 1002 Cancelled 1000;
        mkTicket 203 20 1002 Pending 1000 ] /\
  forall k,
    In k (Ticket_tbl
            (committed (snd (Database.delete_event 10 "Gala" (demo_state [])))))
    -> Ticket_Event_id k <> 10.
Proof.
  split; [vm_compute; reflexivity |].
  split; [vm_compute; reflexivity |].
  apply (delete_event_cascade_complete 10 "Gala" (demo_state [])
           (snd (Database.delete_event 10 "Gala" (demo_state [])))).
  vm_compute. reflexivity.
Defined.

(** ** Cascade atomicity (C2) *)

Lemma for_each_payments_ret_faults ticket_ids : forall st st',
  for_each ticket_ids delete_payment_step st = (Ret tt, st') ->
  forall j, (j < List.length ticket_ids)%nat -> fault_at j (faults st) = false.
Proof.
  unfold fault_at.
  induction ticket_ids as [| tid tids IH]; intros st st' H j Hj.
  - cbn in Hj. lia.
  - cbn [for_each] in H. apply bind_inv_ret in H as ([] & s & H1 & H).
    apply cursor_execute_inv_ret in H1 as (F & t' & _ & ->).
    destruct j as [| j].
    + rewrite <- hd_nth0. exact F.
    + specialize (IH _ _ H j). cbn in Hj.
      assert (Hj' : (j < List.length tids)%nat) by lia.
      specialize (IH Hj'). cbn in IH.
      destruct (faults st); [destruct j; reflexivity | exact IH].
Qed.

(** A cascade that commits met no fault on its way. *)
Lemma cascade_block_ret_faults event_id st b st' :
  cascade_block event_id st = (Ret b, st') ->
  forall j,
    (j < List.length (SQL.select_ticket_ids event_id (pending st)) + 6)%nat ->
    fault_at j (faults st) = false.
Proof.
  unfold cascade_block. intros H.
  apply bind_inv_ret in H as (tids & s1 & H1 & H).
  apply cursor_execute_inv_ret in H1 as (F0 & t1 & R1 & ->).
  unfold reads in R1. injection R1 as <- <-.
  apply bind_inv_ret in H as ([] & s2 & H2 & H).
  pose proof (for_each_payments_ret_faults _ _ _ H2) as FL.
  apply (for_each_payments_ret _ _ _) in H2. subst s2.
  apply bind_inv_ret in H as ([] & s3 & H3 & H).
  apply cursor_execute_inv_ret in H3 as (F3 & t3 & _ & ->).
  apply bind_inv_ret in H as ([] & s4 & H4 & H).
  apply cursor_execute_inv_ret in H4 as (F4 & t4 & _ & ->).
  apply bind_inv_ret in H as ([] & s5 & H5 & H).
  apply cursor_execute_inv_ret in H5 as (F5 & t5 & _ & ->).
  apply bind_inv_ret in H as ([] & s6 & H6 & H).
  apply cursor_execute_inv_ret in H6 as (F6 & t6 & _ & ->).
  apply bind_inv_ret in H as ([] & s7 & H7 & _).
  apply connection_commit_inv_ret in H7 as (F7 & _).
  destruct st as [p c fs i m k]. unfold sent in *.
  cbn [pending committed faults issued mirror clock with_faults with_issued
       with_pending with_committed with_mirror] in *.
  set (n := List.length (SQL.select_ticket_ids event_id p)) in *.
  intros j Hj. unfold fault_at in *.
  destruct j as [| j]; [rewrite <- hd_nth0; exact F0 |].
  destruct (Nat.lt_ge_cases j n) as [Hlt | Hge].
  - specialize (FL j Hlt). destruct fs; [reflexivity | exact FL].
  - replace (S j) with (S n + (j - n))%nat by lia.
    rewrite nth_skipn_add.
    assert (E : skipn (S n) fs = skipn n (tl fs)).
    { destruct fs; [destruct n |]; reflexivity. }
    rewrite E. clear E. 
    remember (skipn n (tl fs)) as l eqn:El. clear El FL.
    assert (Hk : (j - n < 5)%nat) by lia.
    destruct l as [| x0 [| x1 [| x2 [| x3 [| x4 l]]]]];
      cbn in F3, F4, F5, F6, F7;
      destruct (j - n)%nat as [| [| [| [| [| q]]]]]; cbn; try lia; 
      try reflexivity; try assumption.
Qed.

Lemma rollback_handler_run st :
  (connection_rollback ;;; ret false) st =
    (Ret false,
     mkState (committed st) (committed st) (faults st)
       (issued st ++ [Rollback]) (mirror st) (clock st)).
Proof. reflexivity. Qed.

(** [delete_event] always returns one of the two truth values. *)
Lemma delete_event_returns event_id event_name st :
  exists b st', Database.delete_event event_id event_name st = (Ret b, st').
Proof.
  rewrite delete_event_unfold.
  destruct (log_event_deletion_run event_id event_name st)
    as (st1 & Hlog & _).
  rewrite (bind_run_ret _ _ _ _ _ Hlog). unfold try_except.
  destruct (cascade_block event_id st1) as [[b | e] st2] eqn:Hblock.
  - eauto.
  - apply cascade_block_raise in Hblock as (-> & _).
    cbn [is_Error]. rewrite rollback_handler_run. eauto.
Qed.

(** What a failed [delete_event] leaves behind. *)
Lemma delete_event_false_inv event_id event_name st st' :
  pending st = committed st ->
  Database.delete_event event_id event_name st = (Ret false, st') ->
  same_entities (pending st) (pending st') /\
  same_entities (committed st) (committed st') /\
  pending st' = committed st' /\
  mirror st' =
    set_logs
      (logs (mirror st) ++
         [mkLogEntry (datetime_now (clock st))
            (deletion_message event_id event_name)])
      (mirror st) /\
  (hd false (faults st) = false -> hd false (tl (faults st)) = false ->
   Log_tbl (committed st') =
     (Log_tbl (committed st) ++
        [mkLogRow (CURRENT_TIMESTAMP (clock st))
           (deletion_message event_id event_name)])%list).
Proof.
  intros Hclean H. rewrite delete_event_unfold in H.
  destruct (log_event_deletion_run event_id event_name st)
    as (st1 & Hlog & Hout & Hmir & Hclk).
  rewrite (bind_run_ret _ _ _ _ _ Hlog) in H. unfold try_except in H.
  destruct (cascade_block event_id st1) as [[b | e] st2] eqn:Hblock.
  { apply cascade_block_ret in Hblock as (-> & _). discriminate H. }
  apply cascade_block_raise in Hblock as (-> & Hc & Hm & _).
  cbn [is_Error] in H. rewrite rollback_handler_run in H.
  injection H as <-. cbn [pending committed mirror].
  rewrite Hc, Hm, Hmir.
  destruct Hout as [F1 Hp Hc1 _ _ | F1 F2 Hp Hc1 _ _ | F1 F2 Hp Hc1 _ _].
  - rewrite Hc1, <- Hclean.
    repeat split; try reflexivity. intros G. congruence.
  - rewrite Hc1, <- Hclean.
    repeat split; try reflexivity. intros _ G. congruence.
  - rewrite Hc1, Hp, <- Hclean.
    repeat split; reflexivity.
Qed.

(** C2. Let the j-th interaction of the cascade fail (0 is the selection of
    the tickets, then one deletion per ticket for its payments, then the
    deletions of tickets, volunteers, sponsors and event, then the commit).
    Started on a connection without uncommitted work, [delete_event]
    returns [False]; the tables are, both as seen by the connection and as
    committed, those of before the call, the [Log] table apart; the mirror
    is unchanged but for the deletion message appended to [logs]; and when
    the insertion into [Log] and its commit went through, the row stays in
    the committed [Log] table. *)
Theorem delete_event_atomic event_id event_name st j :
  pending st = committed st ->
  (j < List.length (SQL.select_ticket_ids event_id (pending st)) + 6)%nat ->
  fault_at j
    (faults (snd (Database.log_event_deletion event_id event_name st)))
    = true ->
  exists st',
    Database.delete_event event_id event_name st = (Ret false, st') /\
    same_entities (pending st) (pending st') /\
    same_entities (committed st) (committed st') /\
    pending st' = committed st' /\
    mirror st' =
      set_logs
        (logs (mirror st) ++
           [mkLogEntry (datetime_now (clock st))
              (deletion_message event_id event_name)])
        (mirror st) /\
    (hd false (faults st) = false -> hd false (tl (faults st)) = false ->
     Log_tbl (committed st') =
       (Log_tbl (committed st) ++
          [mkLogRow (CURRENT_TIMESTAMP (clock st))
             (deletion_message event_id event_name)])%list).
Proof.
  intros Hclean Hj Hfault.
  destruct (delete_event_returns event_id event_name st) as (b & st' & H).
  exists st'.
  assert (Hb : b = false).
  { destruct b; [| reflexivity]. exfalso.
    rewrite delete_event_unfold in H.
    destruct (log_event_deletion_run event_id event_name st)
      as (st1 & Hlog & Hout & _).
    rewrite Hlog in Hfault. cbn [snd] in Hfault.
    rewrite (bind_run_ret _ _ _ _ _ Hlog) in H. unfold try_except in H.
    destruct (cascade_block event_id st1) as [[b | e] st2] eqn:Hblock.
    - pose proof (cascade_block_ret_faults _ _ _ _ Hblock j) as Hno.
      rewrite (select_ticket_ids_same _ _ event_id
                 (LogOutcome_same_entities _ _ _ _ Hout)) in Hno.
      rewrite (Hno Hj) in Hfault. discriminate Hfault.
    - apply cascade_block_raise in Hblock as (-> & _).
      cbn [is_Error] in H. rewrite rollback_handler_run in H.
      discriminate H. }
  subst b. split; [exact H |].
  exact (delete_event_false_inv _ _ _ _ Hclean H).
Qed.

(** On the demo database the deletion of the tickets of event 10 fails
    (fault plan entries: log insertion, its commit, ticket selection, the
    two payment deletions, then the failing ticket deletion). *)
Lemma delete_event_atomic_witness :
  exists st',
    Database.delete_event 10 "Gala"
      (demo_state [false; false; false; false; false; true]) = (Ret false, st')
    /\ Payment_tbl (committed st') = Payment_tbl demo_tables
    /\ Payment_tbl (pending st') = Payment_tbl demo_tables.
Proof.
  destruct (delete_event_atomic 10 "Gala"
              (demo_state [false; false; false; false; false; true]) 3%nat)
    as (st' & H & Sp & Sc & _).
  - reflexivity.
  - vm_compute. lia.
  - vm_compute. reflexivity.
  - exists st'. split; [exact H |].
    destruct Sp as (_ & _ & _ & _ & _ & _ & _ & Pp & _).
    destruct Sc as (_ & _ & _ & _ & _ & _ & _ & Pc & _).
    split; [rewrite <- Pc | rewrite <- Pp]; reflexivity.
Defined.
(** ** Reload under fetch failures (C7) *)

Lemma first_unreachable_unique k k' ls :
  reaches k ls -> link_at k ls = Unreachable ->
  reaches k' ls -> link_at k' ls = Unreachable -> k = k'.
Proof.
  intros R L R' L'.
  destruct (Nat.lt_trichotomy k k') as [H | [H | H]]; [| exact H |].
  - exfalso. exact (R' k H L).
  - exfalso. exact (R k' H L').
Qed.

(** C7, as amended.  A reload fetches the eight entity tables in turn,
    then the users and the log.
    - When the connection is lost for good at the fetch of an entity
      table, the reload stops there with AttributeError: that snapshot and
      all later ones (users and log included) are kept, the earlier ones
      have been replaced.
    - A fetch that is reached replaces the snapshot of its entity table:
      by the empty list when the server raises a storage error, by the
      rows of the table otherwise.
    - The users snapshot is emptied by either kind of failure, the log
      snapshot is kept in either (the fetch of the log consumes the tenth
      entry of the fault plan, or the ninth when the users could not be
      asked for).
    The committed tables are never changed. *)
Theorem refresh_all_data_failed_fetch ss :
  let r := Session.refresh_all_data ss in
  let st := store ss in
  let st' := store (snd r) in
  let m := mirror st in
  let m' := mirror st' in
  let fs := faults st in
  let ls := links ss in
  committed st' = committed st /\
  (forall k,
      (k < 8)%nat -> reaches k ls -> link_at k ls = Unreachable ->
      fst r = Raise AttributeError /\
      refreshed_to k st m' /\ users m' = users m /\ logs m' = logs m) /\
  (reaches 8 ls ->
   fst r = Ret tt /\
   refreshed_to 8 st m' /\
   (link_at 8 ls = Unreachable -> users m' = []) /\
   (link_at 8 ls <> Unreachable ->
    snapshot_of (fault_at 8 fs) (users m')
      (users_tbl (pending st)) (users_tbl (committed st))) /\
   (link_at 9 ls = Unreachable -> logs m' = logs m) /\
   (link_at 8 ls <> Unreachable -> fault_at 9 fs = true ->
    logs m' = logs m) /\
   (link_at 8 ls = Unreachable -> fault_at 8 fs = true ->
    logs m' = logs m)).
Proof.
  cbv zeta.
  destruct (refresh_all_data_paths ss) as (o & ss' & R & C & _ & Paths).
  rewrite R. cbn [fst snd]. split; [exact C |]. split.
  - intros k Hk Re Lk.
    destruct Paths as [(k0 & _ & Re0 & Lk0 & -> & Rf & U & Lg)
                      | (Re8 & _)].
    + rewrite (first_unreachable_unique k k0 _ Re Lk Re0 Lk0). auto.
    + exfalso. exact (Re8 k Hk Lk).
  - intros Re8.
    destruct Paths as [(k0 & Hk0 & _ & Lk0 & _) | (_ & -> & Rest)].
    + exfalso. exact (Re8 k0 Hk0 Lk0).
    + split; [reflexivity | exact Rest].
Qed.

(** On the demo database: the venues cannot be fetched because the
    connection is lost, after the organizers met a storage error. *)
Lemma refresh_all_data_failed_fetch_witness :
  let ss := demo_session [true] [Alive; Unreachable] in
  let r := Session.refresh_all_data ss in
  fst r = Raise AttributeError /\
  organizers (mirror (store (snd r))) = [] /\
  venues (mirror (store (snd r))) = venues (mirror (store ss)) /\
  users (mirror (store (snd r))) = users (mirror (store ss)).
Proof.
  cbv zeta.
  destruct (refresh_all_data_failed_fetch
              (demo_session [true] [Alive; Unreachable]))
    as (_ & Stop & _).
  destruct (Stop 1%nat) as (A & (B1 & B2 & _) & U & _).
  - lia.
  - intros j Hj. assert (j = 0%nat) as -> by lia. discriminate.
  - reflexivity.
  - exact (conj A (conj B1 (conj B2 U))).
Defined.

(** The claim as stated fails: when every fetch of a reload meets a
    storage error on a connection that is up, the mirror of the demo
    database loses its organizers. *)
Lemma reload_keeps_failed_tables_counterexample :
  ~ reload_keeps_failed_tables
      (demo_session
         [true; true; true; true; true; true; true; true; true; true] []).
Proof.
  intros (H & _).
  assert (F : fetch_fails 0
                (demo_session
                   [true; true; true; true; true; true; true; true; true;
                    true] [])).
  { split; [intros j Hj; lia | right; reflexivity]. }
  specialize (H F). vm_compute in H. discriminate H.
Qed.

(** ** Tier selection (C8) and tier equivalence (C9) *)

(** C8, as amended.  Each tier of [get_available_capacity] and of
    [get_organizer_name] hands over to the next one whenever it has no
    usable answer: because its statement failed, or because it returned
    NULL, no row or an empty name.  The cached computation is the answer
    exactly when neither tier 1 nor tier 2 has a usable answer. *)
Theorem tiers_fall_through_without_answer st event_id organizer_id :
  let fs := faults st in
  let t := pending st in
  fst (Database.get_available_capacity event_id st) =
    Ret match capacity_tier1_answer (fault_at 0 fs) event_id t with
        | Some capacity => capacity
        | None =>
            match capacity_tier2_answer (fault_at 1 fs) event_id t with
            | Some capacity => capacity
            | None => Database.available_capacity_cached event_id (mirror st)
            end
        end /\
  fst (Database.get_organizer_name organizer_id st) =
    Ret match organizer_tier1_answer (fault_at 0 fs) organizer_id t with
        | Some name => name
        | None =>
            match organizer_tier2_answer (fault_at 1 fs) organizer_id t with
            | Some name => name
            | None => Database.organizer_name_cached organizer_id (mirror st)
            end
        end.
Proof.
  cbv zeta. rewrite get_available_capacity_run, get_organizer_name_run.
  split.
  - destruct (capacity_tier1_answer _ _ _); reflexivity.
  - destruct (organizer_tier1_answer _ _ _); reflexivity.
Qed.

(** The claim as stated fails on the demo database with a fresh mirror and
    no fault: organizer 7 does not exist, tier 1 answers NULL, and tier 2
    is queried all the same. *)
Lemma tier1_not_found_is_final_counterexample :
  ~ tier1_not_found_is_final (demo_state []) 7.
Proof.
  intros H. specialize (H eq_refl eq_refl).
  apply (f_equal (fun r => List.length (issued (snd r)))) in H.
  vm_compute in H. discriminate H.
Qed.

(** *** Agreement of the tiers on a fresh mirror *)

Section UniqueKeys.
Context {A : Type} (key : A -> Z).

Lemma find_none_of_fresh_key (k : Z) (l : list A) :
  ~ In k (map key l) -> filter (fun x => key x =? k) l = [].
Proof.
  induction l as [| x l IH]; intros H; [reflexivity |].
  cbn in *. destruct (Z.eqb_spec (key x) k) as [E | E].
  - exfalso. apply H. left. exact E.
  - apply IH. intros G. apply H. right. exact G.
Qed.

Lemma filter_unique_key (k : Z) (l : list A) :
  NoDup (map key l) ->
  filter (fun x => key x =? k) l =
    match find (fun x => key x =? k) l with
    | Some x => [x]
    | None => []
    end.
Proof.
  induction l as [| x l IH]; intros H; [reflexivity |].
  cbn in *. inversion H as [| ? ? Hnotin Hnodup]; subst.
  destruct (Z.eqb_spec (key x) k) as [E | E].
  - subst k. rewrite (find_none_of_fresh_key _ _ Hnotin). reflexivity.
  - apply IH. exact Hnodup.
Qed.
End UniqueKeys.

Lemma joined_capacities_unique event_id t :
  keys_unique t ->
  SQL.joined_capacities event_id t =
    match find (fun e => Event_id e =? event_id) (Event_tbl t) with
    | None => []
    | Some event =>
        match find (fun v => Venue_id v =? Event_Venue_id event) (Venue_tbl t)
        with
        | None => []
        | Some venue => [Capacity venue]
        end
    end.
Proof.
  intros (He & Hv & _). unfold SQL.joined_capacities.
  rewrite (filter_unique_key Event_id event_id _ He).
  destruct (find _ (Event_tbl t)) as [event |]; [| reflexivity].
  cbn. rewrite (filter_unique_key Venue_id _ _ Hv).
  destruct (find _ (Venue_tbl t)); reflexivity.
Qed.

Lemma capacity_tier1_answer_unique event_id t :
  keys_unique t ->
  capacity_tier1_answer false event_id t = resolved_capacity event_id t.
Proof.
  intros K. unfold capacity_tier1_answer, SQL.FN_GetAvailableCapacity,
    resolved_capacity.
  rewrite (joined_capacities_unique _ _ K).
  destruct (find _ (Event_tbl t)) as [event |]; [| reflexivity].
  destruct (find _ (Venue_tbl t)); reflexivity.
Qed.

Lemma capacity_tier2_answer_unique event_id t :
  keys_unique t ->
  capacity_tier2_answer false event_id t = resolved_capacity event_id t.
Proof.
  intros K. unfold capacity_tier2_answer, SQL.select_capacity_minus_confirmed,
    resolved_capacity.
  rewrite (joined_capacities_unique _ _ K).
  destruct (find _ (Event_tbl t)) as [event |]; [| reflexivity].
  destruct (find _ (Venue_tbl t)) as [venue |]; [| reflexivity].
  cbn. destruct (Z.eq_dec (Capacity venue) (Capacity venue)) as [_ | N];
    [| contradiction].
  f_equal. lia.
Qed.

Lemma available_capacity_cached_fresh event_id st :
  mirror_fresh st ->
  Database.available_capacity_cached event_id (mirror st) =
    match resolved_capacity event_id (pending st) with
    | Some capacity => capacity
    | None => 0
    end.
Proof.
  intros (He & Hv & Ht & _).
  unfold Database.available_capacity_cached, resolved_capacity.
  rewrite He, Hv, Ht.
  destruct (find _ (Event_tbl (pending st))) as [event |]; [| reflexivity].
  destruct (find _ (Venue_tbl (pending st))); reflexivity.
Qed.

(** On a fresh mirror and with unique keys, [get_available_capacity] has
    one answer whichever tiers are available: capacity minus confirmed
    tickets, and 0 when the event or its venue is not found. *)
Theorem get_available_capacity_any_tier event_id st :
  keys_unique (pending st) -> mirror_fresh st ->
  fst (Database.get_available_capacity event_id st) =
    Ret match resolved_capacity event_id (pending st) with
        | Some capacity => capacity
        | None => 0
        end.
Proof.
  intros K F. rewrite get_available_capacity_run.
  rewrite (available_capacity_cached_fresh _ _ F).
  pose proof (capacity_tier1_answer_unique event_id _ K) as T1.
  pose proof (capacity_tier2_answer_unique event_id _ K) as T2.
  destruct (fault_at 0 (faults st)), (fault_at 1 (faults st));
    try rewrite T1; try rewrite T2; cbn [capacity_tier1_answer
      capacity_tier2_answer fst];
    destruct (resolved_capacity event_id (pending st)); reflexivity.
Qed.

Lemma truthy_false_empty s : truthy s = false -> s = "".
Proof. destruct s; [reflexivity | discriminate]. Qed.

(** Likewise for [get_organizer_name]: the name of the organizer, and
    "Unknown" when there is none. *)
Theorem get_organizer_name_any_tier organizer_id st :
  keys_unique (pending st) -> mirror_fresh st ->
  fst (Database.get_organizer_name organizer_id st) =
    Ret match find (fun o => Organizer_id o =? organizer_id)
                (Organizer_tbl (pending st)) with
        | Some organizer => Organizer_Name organizer
        | None => "Unknown"
        end.
Proof.
  intros (_ & _ & Ko) (_ & _ & _ & Fo & _). rewrite get_organizer_name_run.
  unfold Database.organizer_name_cached. rewrite Fo.
  unfold organizer_tier1_answer, organizer_tier2_answer,
    SQL.FN_GetOrganizerName, SQL.select_organizer_name.
  rewrite (filter_unique_key Organizer_id organizer_id _ Ko).
  destruct (find _ (Organizer_tbl (pending st))) as [o |];
    destruct (fault_at 0 (faults st)), (fault_at 1 (faults st)); cbn;
    try reflexivity;
    destruct (truthy (Organizer_Name o)) eqn:T; reflexivity.
Qed.

(** [get_total_confirmed_tickets] agrees with the count as long as tier 1
    or tier 2 is available. *)
Theorem get_total_confirmed_tickets_tier12 event_id st :
  fault_at 0 (faults st) = false \/ fault_at 1 (faults st) = false ->
  fst (Database.get_total_confirmed_tickets event_id st) =
    Ret (SQL.count_confirmed event_id (Ticket_tbl (pending st))).
Proof.
  intros H. rewrite get_total_confirmed_tickets_run.
  destruct (fault_at 0 (faults st)), (fault_at 1 (faults st));
    try reflexivity.
  destruct H; discriminate.
Qed.

(** C9 at the failing input.  On the demo database event 10 has one
    confirmed ticket; tier 1 alone, tier 2 alone and the cached computation
    all count 1, but with tiers 1 and 2 both failing
    [get_total_confirmed_tickets] answers 0 instead of consulting the
    mirror. *)
Theorem get_total_confirmed_tickets_both_tiers_down :
  fst (Database.get_total_confirmed_tickets 10 (demo_state [])) = Ret 1 /\
  fst (Database.get_total_confirmed_tickets 10 (demo_state [true])) = Ret 1 /\
  SQL.count_confirmed 10 (tickets (mirror (demo_state [true; true]))) = 1 /\
  fst (Database.get_total_confirmed_tickets 10 (demo_state [true; true]))
    = Ret 0.
Proof. vm_compute. repeat split. Qed.

(** ** Admission control (C3) *)

Lemma within_capacity_reflect t :
  within_capacityb t = true <-> within_capacity t.
Proof.
  unfold within_capacityb, within_capacity. split.
  - intros H e v He Hv Hev.
    rewrite forallb_forall in H. specialize (H e He).
    rewrite forallb_forall in H. specialize (H v Hv).
    apply orb_true_iff in H as [H | H].
    + apply negb_true_iff in H. apply Z.eqb_neq in H. contradiction.
    + apply Z.leb_le. exact H.
  - intros H. apply forallb_forall. intros e He.
    apply forallb_forall. intros v Hv.
    destruct (Z.eqb_spec (Venue_id v) (Event_Venue_id e)) as [E | E];
      [| reflexivity].
    cbn. apply Z.leb_le. apply H; assumption.
Qed.

(** The claim as stated fails: on the sold-out demo database, with the
    stored routine unavailable, [confirm_payment] confirms the pending
    ticket 101 and leaves event 10 with three confirmed tickets for two
    places. *)
Lemma confirm_payment_keeps_capacity_counterexample :
  ~ confirm_payment_keeps_capacity (sold_out_state [true]) 101 "Card" 2500.
Proof.
  intros H.
  assert (Hbefore : within_capacity (pending (sold_out_state [true]))).
  { apply within_capacity_reflect. vm_compute. reflexivity. }
  specialize (H Hbefore). apply within_capacity_reflect in H.
  vm_compute in H. discriminate H.
Qed.

Lemma get_available_capacity_frame event_id st :
  exists a st1,
    Database.get_available_capacity event_id st = (Ret a, st1) /\
    pending st1 = pending st /\ committed st1 = committed st /\
    mirror st1 = mirror st.
Proof.
  rewrite get_available_capacity_run.
  destruct (capacity_tier1_answer _ _ _); eexists; eexists;
    (split; [reflexivity | repeat split]).
Qed.

Lemma find_unique_key {A} (key : A -> Z) (l : list A) x :
  NoDup (map key l) -> In x l ->
  find (fun y => key y =? key x) l = Some x.
Proof.
  induction l as [| y l IH]; intros N I; [contradiction |].
  cbn in *. inversion N as [| ? ? Hnotin Hnodup]; subst.
  destruct I as [-> | I].
  - rewrite Z.eqb_refl. reflexivity.
  - destruct (Z.eqb_spec (key y) (key x)) as [E | E].
    + exfalso. apply Hnotin. rewrite E. apply in_map. exact I.
    + apply IH; assumption.
Qed.

Lemma count_confirmed_app event_id ts k :
  SQL.count_confirmed event_id (ts ++ [k]) =
    SQL.count_confirmed event_id ts
    + (if SQL.confirmed_of_event event_id k then 1 else 0).
Proof.
  unfold SQL.count_confirmed. rewrite filter_app, length_app. cbn.
  destruct (SQL.confirmed_of_event event_id k); cbn; lia.
Qed.

(** The tables after [EventManagementApp.add_ticket]: unchanged, or with
    the new ticket appended after the capacity check let it through. *)
Lemma add_ticket_pending result st :
  let r := EventManagementApp.add_ticket result st in
  (pending (snd r) = pending st /\ committed (snd r) = committed st) \/
  (pending (snd r) =
     with_Ticket_tbl (Ticket_tbl (pending st) ++ [result]) (pending st) /\
   (committed (snd r) = committed st \/ committed (snd r) = pending (snd r)) /\
   exists a,
     fst (Database.get_available_capacity (Ticket_Event_id result) st) = Ret a
     /\ (a <=? 0) && TicketStatus_eqb (Status result) Confirmed = false).
Proof.
  cbv zeta. remember (EventManagementApp.add_ticket result st) as r eqn:E.
  unfold EventManagementApp.add_ticket, Database.check_ticket_price in E.
  unfold bind at 1 in E. unfold try_except in E.
  destruct (Price result <=? 0).
  { left. subst r. split; reflexivity. }
  unfold bind at 1 in E. cbn [ret] in E.
  destruct (get_available_capacity_frame (Ticket_Event_id result) st)
    as (a & st1 & Ha & Hp & Hc & Hm).
  unfold bind at 1 in E. rewrite Ha in E.
  destruct ((a <=? 0) && TicketStatus_eqb (Status result) Confirmed) eqn:G.
  { left. subst r. cbn [snd ret]. split; assumption. }
  unfold Database.add_ticket in E. unfold bind at 1 in E.
  unfold bind at 1 in E. rewrite execute_query_run in E.
  destruct (hd false (faults st1)).
  { left. subst r. cbn. split; assumption. }
  unfold SQL.insert_ticket in E.
  destruct (existsb _ (Ticket_tbl (pending st1))).
  { left. subst r. cbn. split; assumption. }
  right. rewrite Hp in E.
  destruct (hd false (tl (faults st1))).
  - subst r. cbn. split; [reflexivity |]. split; [left; assumption |].
    exists a. split; [rewrite Ha; reflexivity | exact G].
  - unfold bind at 1 in E. rewrite refresh_all_data_run in E.
    subst r. cbn. split; [reflexivity |]. split; [right; reflexivity |].
    exists a. split; [rewrite Ha; reflexivity | exact G].
Qed.

(** C3, as amended.  [EventManagementApp.add_ticket] refuses a Confirmed
    ticket with "Event capacity is full" when [get_available_capacity] is
    not positive: the state is the one the capacity query left, so nothing
    was inserted.  With unique keys and a fresh mirror, [add_ticket]
    therefore keeps every event within the capacity of its venue, whatever
    the storage faults.  ([confirm_payment] makes no capacity check.) *)
Theorem add_ticket_admission_control result st :
  let r := EventManagementApp.add_ticket result st in
  let check :=
    Database.get_available_capacity (Ticket_Event_id result) st in
  (forall a,
      0 < Price result -> Status result = Confirmed ->
      fst check = Ret a -> a <= 0 ->
      r = (Ret (showerror "Error" "Cannot add ticket: Event capacity is full!"),
           snd check) /\
      pending (snd r) = pending st /\ committed (snd r) = committed st) /\
  (keys_unique (pending st) -> mirror_fresh st ->
   within_capacity (pending st) ->
   within_capacity (pending (snd r))).
Proof.
  cbv zeta. split.
  - intros a Hprice Hstatus Ha Hle.
    destruct (get_available_capacity_frame (Ticket_Event_id result) st)
      as (a' & st1 & Hrun & Hp & Hc & _).
    rewrite Hrun in Ha. cbn [fst] in Ha. injection Ha as ->.
    assert (E : EventManagementApp.add_ticket result st =
                (Ret (showerror "Error"
                        "Cannot add ticket: Event capacity is full!"), st1)).
    { unfold EventManagementApp.add_ticket, Database.check_ticket_price.
      unfold bind at 1. unfold try_except.
      destruct (Z.leb_spec (Price result) 0) as [L | L]; [lia |].
      unfold bind at 1. cbn [ret]. unfold bind at 1. rewrite Hrun.
      rewrite Hstatus. destruct (Z.leb_spec a 0) as [L' | L']; [| lia].
      reflexivity. }
    rewrite E, Hrun. cbn [snd]. repeat split; assumption.
  - intros K F W.
    destruct (add_ticket_pending result st)
      as [(Hp & _) | (Hp & _ & a & Ha & G)]; rewrite Hp; [exact W |].
    rewrite (get_available_capacity_any_tier _ _ K F) in Ha.
    injection Ha as Ha.
    intros e v He Hv Hev. cbn in He, Hv |- *.
    rewrite count_confirmed_app.
    specialize (W e v He Hv Hev).
    destruct (SQL.confirmed_of_event (Event_id e) result) eqn:C; [| lia].
    unfold SQL.confirmed_of_event in C. apply andb_true_iff in C as (C1 & C2).
    apply Z.eqb_eq in C1. rewrite C2, andb_true_r in G.
    apply Z.leb_gt in G.
    destruct K as (Ke & Kv & _).
    unfold resolved_capacity in Ha. rewrite C1 in Ha.
    rewrite (find_unique_key Event_id _ e Ke He) in Ha.
    rewrite <- Hev in Ha.
    rewrite (find_unique_key Venue_id _ v Kv Hv) in Ha.
    lia.
Qed.

(** On the sold-out demo database a third Confirmed ticket for event 10 is
    refused, and the database stays within capacity. *)
Lemma add_ticket_admission_control_witness :
  EventManagementApp.add_ticket (mkTicket 103 10 1001 Confirmed 2500)
    (sold_out_state []) =
    (Ret (showerror "Error" "Cannot add ticket: Event capacity is full!"),
     snd (Database.get_available_capacity 10 (sold_out_state []))) /\
  within_capacity
    (pending (snd (EventManagementApp.add_ticket
                     (mkTicket 103 10 1001 Confirmed 2500)
                     (sold_out_state [])))).
Proof.
  destruct (add_ticket_admission_control
              (mkTicket 103 10 1001 Confirmed 2500) (sold_out_state []))
    as (Guard & Keeps).
  split.
  - apply (Guard 0); [reflexivity | reflexivity | reflexivity | discriminate].
  - apply Keeps.
    + repeat split; repeat constructor; cbn; intuition discriminate.
    + repeat split.
    + apply within_capacity_reflect. reflexivity.
Defined.

(** ** [confirm_payment] *)

Lemma server_step_fault {A} (run : Tables -> option (A * Tables)) st :
  hd false (faults st) = true ->
  server_step run st = (Raise MySQLError, with_faults (tl (faults st)) st).
Proof.
  intros H. unfold server_step, bind, next_fault. rewrite H. reflexivity.
Qed.






(** The four early exits and the two writing branches of the fallback. *)
Lemma fallback_not_found ticket_id payment_method amount st :
  cached_ticket ticket_id st = None ->
  Database.confirm_payment_fallback ticket_id payment_method amount st =
    (Ret (msg_not_found ticket_id), st).
Proof.
  unfold cached_ticket, Database.confirm_payment_fallback, bind, get_mirror.
  intros ->. reflexivity.
Qed.



Lemma confirm_payment_routine_refused ticket_id payment_method amount st :
  hd false (faults st) = true ->
  confirm_payment_routine ticket_id payment_method amount st =
    (Raise MySQLError,
     sent (CallSP_ConfirmPayment ticket_id payment_method amount) st).
Proof.
  intros F. unfold confirm_payment_routine, Database.SP_ConfirmPayment.
  unfold bind at 1. cbn [send]. unfold bind at 1. unfold bind at 1.
  cbn [get_clock]. unfold bind at 1.
  rewrite server_step_fault by exact F. reflexivity.
Qed.

(** Re-confirmation of a pending ticket whose payment is on record: the
    message does not depend on the fate of the UPDATE, and no payment row
    is written. *)
Lemma fallback_reconfirm ticket_id payment_method amount st ticket p :
  cached_ticket ticket_id st = Some ticket -> Status ticket = Pending ->
  cached_payment ticket_id st = Some p ->
  exists st2,
    Database.confirm_payment_fallback ticket_id payment_method amount st =
      (Ret (msg_already_on_record ticket_id), st2) /\
    Payment_tbl (pending st2) = Payment_tbl (pending st) /\
    (hd false (faults st) = false -> hd false (tl (faults st)) = false ->
     st2 =
       mkState (SQL.update_ticket_status ticket_id Confirmed (pending st))
         (SQL.update_ticket_status ticket_id Confirmed (pending st))
         (skipn 12 (faults st))
         (issued st ++ [UpdateTicketStatus ticket_id Confirmed; Commit]
            ++ reload_statements)
         (reloaded (skipn 2 (faults st))
            (SQL.update_ticket_status ticket_id Confirmed (pending st))
            (mirror st))
         (clock st)).
Proof.
  unfold cached_ticket, cached_payment, Database.confirm_payment_fallback.
  intros Ht Hs Hp. unfold bind at 1. cbn [get_mirror].
  rewrite Ht, Hs, Hp. cbn [TicketStatus_eqb].
  unfold bind at 1. rewrite execute_query_run. unfold writes.
  destruct (hd false (faults st)) eqn:F1;
    [| destruct (hd false (tl (faults st))) eqn:F2];
    unfold bind; rewrite refresh_all_data_run; eexists;
    (split; [reflexivity |]); (split; [reflexivity |]);
    intros G1 G2; try discriminate.
  destruct st as [pe c fs i m k]. unfold sent. cbn.
  rewrite <- !app_assoc. cbn [app].
  destruct fs as [| ? [| ? fs]]; reflexivity.
Qed.

(** ** Preconditions of payment confirmation (C4) *)

(** C4 at the failing input.  Ticket 201 of the demo database is
    Cancelled.  With the stored routine available, [confirm_payment]
    answers that it is confirmed and paid, commits a payment for it and
    sets it to Confirmed; the manual path of the same function, reached
    when the call of the routine is refused, turns the same ticket away and
    leaves the tables as they are. *)
Theorem confirm_payment_pays_cancelled_ticket :
  let st := demo_state [] in
  let r := Database.confirm_payment 201 "Card" 1000 st in
  stored_ticket 201 (pending st) = Some (mkTicket 201 20 1002 Cancelled 1000)
  /\
  fst r = Ret "Ticket 201 confirmed and payment recorded." /\
  Payment_tbl (committed (snd r)) =
    (Payment_tbl (committed st)
       ++ [mkPayment 3 201 1000 "Card" "2025-01-05"])%list /\
  stored_ticket 201 (committed (snd r)) =
    Some (mkTicket 201 20 1002 Confirmed 1000) /\
  Database.confirm_payment 201 "Card" 1000 (demo_state [true]) =
    (Ret "Error: Cannot process payment for cancelled ticket 201",
     sent (CallSP_ConfirmPayment 201 "Card" 1000) (demo_state [true])).
Proof. vm_compute. repeat split. Qed.

(** ** Terminal states (C5) *)




(** ** Idempotent re-confirmation (C6) *)

(** C6 at the failing input.  Ticket 203 of the demo database is Pending
    and has a payment.  With the stored routine available,
    [confirm_payment] commits a second payment for it; the manual path of
    the same function, reached when the call of the routine is refused,
    confirms the ticket and leaves the one payment.  When the routine
    raises after its INSERT, nothing rolls that row back: the manual path
    answers "payment already on record" and its commit publishes the
    duplicate. *)
Theorem confirm_payment_duplicates_payment :
  let of_203 (t : Tables) :=
    filter (fun p => Payment_Ticket_id p =? 203) (Payment_tbl t) in
  let available := Database.confirm_payment 203 "Cash" 1000 (demo_state []) in
  let refused := Database.confirm_payment 203 "Cash" 1000 (demo_state [true]) in
  let interrupted :=
    Database.confirm_payment 203 "Cash" 1000 (demo_state [false; true]) in
  stored_ticket 203 demo_tables = Some (mkTicket 203 20 1002 Pending 1000) /\
  of_203 demo_tables = [mkPayment 2 203 1000 "Cash" "2025-01-03"] /\
  fst available = Ret "Ticket 203 confirmed and payment recorded." /\
  of_203 (committed (snd available)) =
    [ mkPayment 2 203 1000 "Cash" "2025-01-03";
      mkPayment 3 203 1000 "Cash" "2025-01-05" ] /\
  fst refused = Ret "Ticket 203 confirmed. Payment already on record." /\
  of_203 (committed (snd refused)) =
    [mkPayment 2 203 1000 "Cash" "2025-01-03"] /\
  fst interrupted = Ret "Ticket 203 confirmed. Payment already on record." /\
  of_203 (committed (snd interrupted)) =
    [ mkPayment 2 203 1000 "Cash" "2025-01-03";
      mkPayment 3 203 1000 "Cash" "2025-01-05" ].
Proof. vm_compute. repeat split. Qed.

(** ** [mark_ticket_as_pending] (C10) *)







(** * Further properties of the code *)

(** ** The single-statement mutations *)

Lemma mutation_run s run st :
  mutation s run st =
    if hd false (faults st) then (Ret false, sent s st)
    else match run (pending st) with
         | None => (Ret false, sent s st)
         | Some (_, t') =>
             if hd false (tl (faults st))
             then (Ret false, sent Commit (with_pending t' (sent s st)))
             else (Ret true,
                   mkState t' t' (skipn 12 (faults st))
                     ((issued st ++ [s; Commit]) ++ reload_statements)
                     (reloaded (skipn 2 (faults st)) t' (mirror st))
                     (clock st))
         end.
Proof.
  unfold mutation. unfold bind at 1. rewrite execute_query_run.
  destruct (hd false (faults st)) eqn:F1; [reflexivity |].
  destruct (run (pending st)) as [[[] t'] |]; [| reflexivity].
  destruct (hd false (tl (faults st))) eqn:F2; [reflexivity |].
  unfold bind. rewrite refresh_all_data_run.
  destruct st as [p c fs i m k]. unfold sent. cbn.
  rewrite <- !app_assoc. cbn [app].
  destruct fs as [| ? [| ? fs]]; reflexivity.
Qed.

Lemma hd_tl_fault_at (fs : list bool) :
  hd false fs = fault_at 0 fs /\ hd false (tl fs) = fault_at 1 fs /\
  hd false (tl (tl fs)) = fault_at 2 fs /\
  hd false (tl (tl (tl fs))) = fault_at 3 fs.
Proof.
  unfold fault_at. destruct fs as [| ? [| ? [| ? [| ? ?]]]]; repeat split.
Qed.

Lemma fault_at_skipn k n fs : fault_at k (skipn n fs) = fault_at (n + k) fs.
Proof. unfold fault_at. symmetry. apply nth_skipn_add. Qed.

(** A reload that meets no fault leaves the mirror equal to the tables. *)
Lemma reloaded_fresh fs t m :
  no_fault_in 0 9 fs ->
  let m' := reloaded fs t m in
  organizers m' = Organizer_tbl t /\ venues m' = Venue_tbl t /\
  participants m' = Participants_tbl t /\ events m' = Event_tbl t /\
  sponsors m' = Sponsor_tbl t /\ volunteers m' = Volunteers_tbl t /\
  tickets m' = Ticket_tbl t /\ payments m' = Payment_tbl t /\
  users m' = users_tbl t.
Proof.
  intros H0. cbv zeta. unfold reloaded, fetched. cbn.
  assert (H : forall j, (j < 9)%nat -> fault_at j fs = false)
    by (intros j Hj; exact (H0 j Hj)).
  rewrite (H 0%nat), (H 1%nat), (H 2%nat), (H 3%nat), (H 4%nat), (H 5%nat),
    (H 6%nat), (H 7%nat), (H 8%nat) by lia.
  repeat split.
Qed.

(** ** Deleting and updating tickets *)

(** The three ways a writing [execute_query] can end. *)
Lemma execute_query_writes_cases s f st :
  exists b s1,
    Database.execute_query s (writes f) st = (Ret b, s1) /\
    mirror s1 = mirror st /\ clock s1 = clock st /\
    ((fault_at 0 (faults st) = true /\ b = false /\
      pending s1 = pending st /\ committed s1 = committed st /\
      faults s1 = skipn 1 (faults st)) \/
     (fault_at 0 (faults st) = false /\ fault_at 1 (faults st) = true /\
      b = false /\ pending s1 = f (pending st) /\
      committed s1 = committed st /\ faults s1 = skipn 2 (faults st)) \/
     (fault_at 0 (faults st) = false /\ fault_at 1 (faults st) = false /\
      b = true /\ pending s1 = f (pending st) /\
      committed s1 = f (pending st) /\ faults s1 = skipn 2 (faults st))).
Proof.
  rewrite execute_query_run. unfold writes.
  destruct (hd_tl_fault_at (faults st)) as (<- & <- & _).
  destruct st as [p c fs i m k]. cbn [faults pending committed mirror clock].
  destruct (hd false fs) eqn:F0; [| destruct (hd false (tl fs)) eqn:F1];
    eexists; eexists; (split; [reflexivity |]);
    (split; [reflexivity |]); (split; [reflexivity |]).
  - left. repeat split; destruct fs; reflexivity.
  - right. left. repeat split; destruct fs as [| ? [| ? ?]]; reflexivity.
  - right. right. repeat split; destruct fs as [| ? [| ? ?]]; reflexivity.
Qed.

(** The three ways a mutation can end; it reloads the mirror exactly when
    it returns [True]. *)
Lemma mutation_writes_cases s f st :
  exists b s1,
    mutation s (writes f) st = (Ret b, s1) /\ clock s1 = clock st /\
    ((fault_at 0 (faults st) = true /\ b = false /\
      pending s1 = pending st /\ committed s1 = committed st /\
      mirror s1 = mirror st) \/
     (fault_at 0 (faults st) = false /\ fault_at 1 (faults st) = true /\
      b = false /\ pending s1 = f (pending st) /\
      committed s1 = committed st /\ mirror s1 = mirror st) \/
     (fault_at 0 (faults st) = false /\ fault_at 1 (faults st) = false /\
      b = true /\ pending s1 = f (pending st) /\
      committed s1 = f (pending st) /\
      mirror s1 = reloaded (skipn 2 (faults st)) (f (pending st)) (mirror st))).
Proof.
  rewrite mutation_run. unfold writes.
  destruct (hd_tl_fault_at (faults st)) as (<- & <- & _).
  destruct (hd false (faults st)) eqn:F0;
    [| destruct (hd false (tl (faults st))) eqn:F1];
    eexists; eexists; (split; [reflexivity |]); (split; [reflexivity |]).
  - left. repeat split.
  - right. left. repeat split.
  - right. right. repeat split.
Qed.

Lemma delete_ticket_unfold ticket_id :
  Database.delete_ticket ticket_id =
    (Database.execute_query (DeletePaymentOfTicket ticket_id)
       (writes (SQL.delete_payment_of_ticket ticket_id)) ;;;
     mutation (DeleteTicket ticket_id)
       (writes (SQL.delete_ticket_row ticket_id))).
Proof. reflexivity. Qed.

(** X1.  When [delete_ticket] returns [True], everything pending is
    committed and no ticket of that id is left.  Its payments are deleted
    with it only if the DELETE on Payment went through: the source ignores
    the outcome of that statement, so when it is refused the payments stay
    behind without their ticket. *)
Theorem delete_ticket_success ticket_id st st' :
  Database.delete_ticket ticket_id st = (Ret true, st') ->
  committed st' = pending st' /\
  Ticket_tbl (committed st') =
    filter (fun k => negb (Ticket_id k =? ticket_id))
      (Ticket_tbl (pending st)) /\
  (fault_at 0 (faults st) = false ->
   Payment_tbl (committed st') =
     filter (fun p => negb (Payment_Ticket_id p =? ticket_id))
       (Payment_tbl (pending st))) /\
  (fault_at 0 (faults st) = true ->
   Payment_tbl (committed st') = Payment_tbl (pending st)).
Proof.
  rewrite delete_ticket_unfold. intros H.
  destruct (execute_query_writes_cases (DeletePaymentOfTicket ticket_id)
              (SQL.delete_payment_of_ticket ticket_id) st)
    as (b & s1 & E1 & _ & _ & C1).
  rewrite (bind_run_ret _ _ _ _ _ E1) in H.
  destruct (mutation_writes_cases (DeleteTicket ticket_id)
              (SQL.delete_ticket_row ticket_id) s1)
    as (b2 & s2 & E2 & _ & C2).
  rewrite E2 in H. injection H as -> ->.
  destruct C2 as [(_ & B & _) | [(_ & _ & B & _) | (_ & _ & _ & P2 & K2 & _)]];
    try discriminate B.
  rewrite K2, P2.
  destruct C1 as [(F0 & _ & P1 & _) | [(F0 & _ & _ & P1 & _)
                                      | (F0 & _ & _ & P1 & _)]];
    rewrite P1; cbn; repeat split; intros G; try reflexivity; congruence.
Qed.

Lemma delete_ticket_success_witness :
  Database.delete_ticket 100 (demo_state []) =
    (Ret true, snd (Database.delete_ticket 100 (demo_state []))) /\
  Payment_tbl (committed (snd (Database.delete_ticket 100 (demo_state []))))
    = filter (fun p => negb (Payment_Ticket_id p =? 100))
        (Payment_tbl (pending (demo_state []))).
Proof.
  assert (H : Database.delete_ticket 100 (demo_state []) =
              (Ret true, snd (Database.delete_ticket 100 (demo_state []))))
    by (vm_compute; reflexivity).
  split; [exact H |].
  destruct (delete_ticket_success _ _ _ H) as (_ & _ & P & _).
  exact (P eq_refl).
Defined.

(** X2.  [delete_ticket] is not atomic: when the deletion of the payments
    is committed and the deletion of the ticket, or its commit, then fails,
    it returns [False] with the payments of the ticket gone from the
    committed tables, the ticket still there, and the mirror not reloaded
    (it still lists the payments). *)
Theorem delete_ticket_partial ticket_id st :
  fault_at 0 (faults st) = false -> fault_at 1 (faults st) = false ->
  fault_at 2 (faults st) = true \/ fault_at 3 (faults st) = true ->
  exists st',
    Database.delete_ticket ticket_id st = (Ret false, st') /\
    Payment_tbl (committed st') =
      filter (fun p => negb (Payment_Ticket_id p =? ticket_id))
        (Payment_tbl (pending st)) /\
    Ticket_tbl (committed st') = Ticket_tbl (pending st) /\
    mirror st' = mirror st.
Proof.
  intros F0 F1 F23. rewrite delete_ticket_unfold.
  destruct (execute_query_writes_cases (DeletePaymentOfTicket ticket_id)
              (SQL.delete_payment_of_ticket ticket_id) st)
    as (b & s1 & E1 & M1 & _ & C1).
  rewrite (bind_run_ret _ _ _ _ _ E1).
  destruct C1 as [(G & _) | [(_ & G & _) | (_ & _ & _ & P1 & K1 & Fs)]];
    try congruence.
  destruct (mutation_writes_cases (DeleteTicket ticket_id)
              (SQL.delete_ticket_row ticket_id) s1)
    as (b2 & s2 & E2 & _ & C2).
  rewrite E2. rewrite Fs, !fault_at_skipn in C2. cbn [Nat.add] in C2.
  destruct C2 as [(_ & -> & P2 & K2 & M2) | [(_ & _ & -> & P2 & K2 & M2)
                                            | (G2 & G3 & _)]].
  - exists s2. split; [reflexivity |]. rewrite K2, K1, M2, M1. repeat split.
  - exists s2. split; [reflexivity |]. rewrite K2, K1, M2, M1. repeat split.
  - destruct F23; congruence.
Qed.

Lemma delete_ticket_partial_witness :
  exists st',
    Database.delete_ticket 100 (demo_state [false; false; true]) =
      (Ret false, st') /\
    Payment_tbl (committed st') =
      [mkPayment 2 203 1000 "Cash" "2025-01-03"] /\
    Ticket_tbl (committed st') = Ticket_tbl demo_tables.
Proof.
  destruct (delete_ticket_partial 100 (demo_state [false; false; true])
              eq_refl eq_refl (or_introl eq_refl))
    as (st' & H & P & K & _).
  exists st'. exact (conj H (conj P K)).
Defined.

(** ** Updating a ticket *)






(** ** The insertions *)

Lemma mutation_true_inv s run st st' :
  mutation s run st = (Ret true, st') ->
  fault_at 0 (faults st) = false /\ fault_at 1 (faults st) = false /\
  exists t',
    run (pending st) = Some (tt, t') /\ pending st' = t' /\
    committed st' = t' /\
    mirror st' = reloaded (skipn 2 (faults st)) t' (mirror st) /\
    clock st' = clock st.
Proof.
  rewrite mutation_run.
  destruct (hd_tl_fault_at (faults st)) as (<- & <- & _).
  destruct (hd false (faults st)); [discriminate |].
  destruct (run (pending st)) as [[[] t'] |]; [| discriminate].
  destruct (hd false (tl (faults st))); [discriminate |].
  intros H. injection H as <-. repeat split. exists t'. repeat split.
Qed.

Lemma mutation_false_inv s run st st' :
  mutation s run st = (Ret false, st') ->
  committed st' = committed st /\ mirror st' = mirror st /\
  clock st' = clock st.
Proof.
  rewrite mutation_run.
  destruct (hd false (faults st)).
  { intros H. injection H as <-. repeat split. }
  destruct (run (pending st)) as [[[] t'] |].
  2:{ intros H. injection H as <-. repeat split. }
  destruct (hd false (tl (faults st))); [| discriminate].
  intros H. injection H as <-. repeat split.
Qed.

Lemma mutation_returns s run st :
  exists b st', mutation s run st = (Ret b, st').
Proof.
  rewrite mutation_run.
  destruct (hd false (faults st)); [eauto |].
  destruct (run (pending st)) as [[[] t'] |]; [| eauto].
  destruct (hd false (tl (faults st))); eauto.
Qed.

Lemma mutation_refused s run st :
  fault_at 0 (faults st) = true ->
  mutation s run st = (Ret false, sent s st).
Proof.
  intros F. rewrite mutation_run.
  destruct (hd_tl_fault_at (faults st)) as (<- & _) in F. rewrite F.
  reflexivity.
Qed.

(** X4.  Read after write for [Database.add_ticket]: when it returns
    [True], the new row is the last row of the committed Ticket table,
    nothing is left uncommitted, and the cached ticket list is the
    committed table unless the reload's fetch of the tickets failed; when
    it returns [False], neither the committed tables nor the cache have
    changed. *)
Theorem add_ticket_read_after_write ticket_data st b st' :
  Database.add_ticket ticket_data st = (Ret b, st') ->
  (b = true ->
   Ticket_tbl (committed st') =
     (Ticket_tbl (pending st) ++ [ticket_data])%list /\
   pending st' = committed st' /\
   (fault_at 8 (faults st) = false ->
    tickets (mirror st') = Ticket_tbl (committed st'))) /\
  (b = false -> committed st' = committed st /\ mirror st' = mirror st).
Proof.
  change (Database.add_ticket ticket_data)
    with (mutation (InsertTicket ticket_data) (SQL.insert_ticket ticket_data)).
  intros H. split; intros ->.
  - apply mutation_true_inv in H
      as (_ & _ & t' & R & P & K & Mi & _).
    unfold SQL.insert_ticket in R.
    destruct (existsb _ _); [discriminate R |].
    injection R as <-. rewrite K, P, Mi.
    split; [reflexivity | split; [reflexivity |]].
    intros F. unfold reloaded. cbn [tickets].
    rewrite fault_at_skipn. cbn [Nat.add]. rewrite F. reflexivity.
  - apply mutation_false_inv in H as (K & Mi & _). split; assumption.
Qed.

Lemma add_ticket_read_after_write_witness :
  Ticket_tbl
    (committed
       (snd (Database.add_ticket (mkTicket 300 20 1001 Pending 1500)
               (demo_state [])))) =
    (Ticket_tbl demo_tables ++ [mkTicket 300 20 1001 Pending 1500])%list.
Proof.
  assert (H : Database.add_ticket (mkTicket 300 20 1001 Pending 1500)
                (demo_state []) =
              (Ret true,
               snd (Database.add_ticket (mkTicket 300 20 1001 Pending 1500)
                      (demo_state []))))
    by (vm_compute; reflexivity).
  destruct (add_ticket_read_after_write _ _ _ _ H) as (T & _).
  destruct (T eq_refl) as (E & _). exact E.
Defined.

(** ** The forms of the application *)

Lemma NoDup_map_snoc {A} (f : A -> string) (l : list A) (x : A) :
  NoDup (map f l) ->
  existsb (fun y => String.eqb (f y) (f x)) l = false ->
  NoDup (map f (l ++ [x])).
Proof.
  intros N E. rewrite map_app. cbn.
  apply NoDup_app; [exact N | constructor; [intros [] | constructor] |].
  intros e He [<- | []].
  apply in_map_iff in He as (y & Hy & Iy).
  assert (X : existsb (fun y => String.eqb (f y) (f x)) l = true).
  { apply existsb_exists. exists y. split; [exact Iy |].
    apply String.eqb_eq. exact Hy. }
  congruence.
Qed.

(** X5.  The participant and volunteer forms keep e-mail addresses
    pairwise distinct: if the cached list is the stored table, nothing is
    left uncommitted, and no two stored participants (volunteers) share an
    e-mail address, then the same holds of the committed table after
    [add_participant] ([add_volunteer]), whatever the storage failures. *)
Theorem add_forms_keep_emails_distinct st :
  committed st = pending st ->
  (forall result box st',
      participants (mirror st) = Participants_tbl (pending st) ->
      NoDup (map Participant_Email (Participants_tbl (committed st))) ->
      EventManagementApp.add_participant result st = (Ret box, st') ->
      NoDup (map Participant_Email (Participants_tbl (committed st')))) /\
  (forall result box st',
      volunteers (mirror st) = Volunteers_tbl (pending st) ->
      NoDup (map Volunteer_Email (Volunteers_tbl (committed st))) ->
      EventManagementApp.add_volunteer result st = (Ret box, st') ->
      NoDup (map Volunteer_Email (Volunteers_tbl (committed st')))).
Proof.
  intros C. split; intros result box st' Mi N H.
  - unfold EventManagementApp.add_participant in H.
    unfold bind at 1 in H. cbn [get_mirror] in H. rewrite Mi in H.
    destruct (existsb _ (Participants_tbl (pending st))) eqn:E.
    { injection H as _ <-. exact N. }
    change (Database.add_participant result)
      with (mutation (InsertParticipant result)
              (SQL.insert_participant result)) in H.
    unfold bind in H.
    destruct (mutation_returns (InsertParticipant result)
                (SQL.insert_participant result) st) as (b & s1 & R).
    rewrite R in H. destruct b; injection H as _ <-.
    + apply mutation_true_inv in R as (_ & _ & t' & R & _ & K & _).
      unfold SQL.insert_participant in R.
      destruct (existsb _ (Participants_tbl (pending st))) in R;
        [discriminate R |].
      injection R as <-. rewrite K. cbn.
      apply NoDup_map_snoc; [rewrite <- C; exact N | exact E].
    + apply mutation_false_inv in R as (K & _). rewrite K. exact N.
  - unfold EventManagementApp.add_volunteer in H.
    unfold bind at 1 in H. cbn [get_mirror] in H. rewrite Mi in H.
    destruct (existsb _ (Volunteers_tbl (pending st))) eqn:E.
    { injection H as _ <-. exact N. }
    change (Database.add_volunteer result)
      with (mutation (InsertVolunteer result)
              (SQL.insert_volunteer result)) in H.
    unfold bind in H.
    destruct (mutation_returns (InsertVolunteer result)
                (SQL.insert_volunteer result) st) as (b & s1 & R).
    rewrite R in H. destruct b; injection H as _ <-.
    + apply mutation_true_inv in R as (_ & _ & t' & R & _ & K & _).
      unfold SQL.insert_volunteer in R.
      destruct (existsb _ (Volunteers_tbl (pending st))) in R;
        [discriminate R |].
      injection R as <-. rewrite K. cbn.
      apply NoDup_map_snoc; [rewrite <- C; exact N | exact E].
    + apply mutation_false_inv in R as (K & _). rewrite K. exact N.
Qed.

Lemma add_forms_keep_emails_distinct_witness :
  NoDup
    (map Participant_Email
       (Participants_tbl
          (committed
             (snd (EventManagementApp.add_participant
                     (mkParticipant 1003 "Lila" "lila@example.org" "555-0105")
                     (demo_state [])))))).
Proof.
  destruct (add_forms_keep_emails_distinct (demo_state []) eq_refl)
    as (P & _).
  apply (P (mkParticipant 1003 "Lila" "lila@example.org" "555-0105")
           (showinfo "Success" "Participant added successfully!")).
  - reflexivity.
  - repeat constructor; cbn; intuition discriminate.
  - vm_compute. reflexivity.
Defined.



(** ** Generated identifiers and public registration *)

Lemma fold_left_max_ge (l : list Z) : forall a,
  a <= fold_left Z.max l a /\
  forall x, In x l -> x <= fold_left Z.max l a.
Proof.
  induction l as [| y l IH]; intros a; cbn.
  - split; [lia | intros x []].
  - destruct (IH (Z.max a y)) as (G & I). split; [lia |].
    intros x [<- | Hx]; [lia | exact (I x Hx)].
Qed.

Lemma max_default_ge d (l : list Z) x :
  In x l -> x <= Database.max_default d l.
Proof.
  destruct l as [| y l]; [intros [] |]. cbn [Database.max_default].
  destruct (fold_left_max_ge l y) as (G & I).
  intros [<- | Hx]; [exact G | exact (I x Hx)].
Qed.

Lemma get_next_participant_id_run st :
  Database.get_next_participant_id st =
    (Ret (next_participant_id (mirror st)), st).
Proof. reflexivity. Qed.

Lemma get_next_volunteer_id_run st :
  Database.get_next_volunteer_id st =
    (Ret (next_volunteer_id (mirror st)), st).
Proof. reflexivity. Qed.

(** X9.  [get_next_participant_id] and [get_next_volunteer_id] send
    nothing and return an identifier above every identifier in the cache:
    1001 and 201 on an empty cache (the defaults 1000 and 200 play no part
    once the cache holds a row, even one with a smaller identifier). *)
Theorem next_ids_fresh st :
  (exists n,
      Database.get_next_participant_id st = (Ret n, st) /\
      (forall p, In p (participants (mirror st)) -> Participant_id p < n) /\
      (participants (mirror st) = [] -> n = 1001) /\
      (forall p, participants (mirror st) = [p] -> n = Participant_id p + 1))
  /\
  (exists n,
      Database.get_next_volunteer_id st = (Ret n, st) /\
      (forall v, In v (volunteers (mirror st)) -> Volunteer_id v < n) /\
      (volunteers (mirror st) = [] -> n = 201) /\
      (forall v, volunteers (mirror st) = [v] -> n = Volunteer_id v + 1)).
Proof.
  split.
  - exists (next_participant_id (mirror st)).
    split; [apply get_next_participant_id_run |]. unfold next_participant_id.
    split; [| split].
    + intros p Hp.
      pose proof (max_default_ge 1000 _ _ (in_map Participant_id _ _ Hp)).
      lia.
    + intros ->. reflexivity.
    + intros p ->. reflexivity.
  - exists (next_volunteer_id (mirror st)).
    split; [apply get_next_volunteer_id_run |]. unfold next_volunteer_id.
    split; [| split].
    + intros v Hv.
      pose proof (max_default_ge 200 _ _ (in_map Volunteer_id _ _ Hv)).
      lia.
    + intros ->. reflexivity.
    + intros v ->. reflexivity.
Qed.

(** The ways an [execute_query] without fetch can end. *)
Lemma execute_query_cases s run st :
  exists b s1,
    Database.execute_query s run st = (Ret b, s1) /\
    mirror s1 = mirror st /\ clock s1 = clock st /\
    ((b = false /\ committed s1 = committed st /\
      (fault_at 0 (faults st) = true \/ run (pending st) = None \/
       fault_at 1 (faults st) = true)) \/
     (b = true /\ fault_at 0 (faults st) = false /\
      fault_at 1 (faults st) = false /\
      exists t',
        run (pending st) = Some (tt, t') /\ pending s1 = t' /\
        committed s1 = t' /\ faults s1 = skipn 2 (faults st))).
Proof.
  rewrite execute_query_run.
  destruct (hd_tl_fault_at (faults st)) as (<- & <- & _).
  destruct st as [p c fs i m k]. cbn [faults pending committed mirror clock].
  destruct (hd false fs) eqn:F0.
  { eexists; eexists. split; [reflexivity |]. repeat split. left. auto. }
  destruct (run p) as [[[] t'] |] eqn:R.
  2:{ eexists; eexists. split; [reflexivity |]. repeat split. left. auto. }
  destruct (hd false (tl fs)) eqn:F1.
  { eexists; eexists. split; [reflexivity |]. repeat split. left. auto. }
  eexists; eexists. split; [reflexivity |]. repeat split. right.
  repeat split. exists t'. repeat split.
  destruct fs as [| ? [| ? ?]]; reflexivity.
Qed.

Lemma register_user_as_participant_cases given_username event_id
    given_fullname email contact st :
  let p := registered_participant (mirror st) given_fullname email contact in
  let k := registered_ticket (mirror st) event_id in
  let t1 := with_Participants_tbl (Participants_tbl (pending st) ++ [p])
              (pending st) in
  exists ok msg st',
    Database.register_user_as_participant given_username event_id
      given_fullname email contact st = (Ret (ok, msg), st') /\
    ((ok = false /\ msg = "Failed to create participant record" /\
      committed st' = committed st /\ mirror st' = mirror st) \/
     (ok = false /\
      msg = "Participant created but failed to create ticket" /\
      committed st' = t1 /\ mirror st' = mirror st) \/
     (ok = true /\ msg = msg_registered_participant (mirror st) /\
      committed st' = with_Ticket_tbl (Ticket_tbl t1 ++ [k]) t1 /\
      pending st' = committed st' /\
      mirror st' =
        reloaded (skipn 4 (faults st)) (committed st') (mirror st))).
Proof.
  intros p k t1. unfold Database.register_user_as_participant.
  unfold try_except, bind at 1. rewrite get_next_participant_id_run.
  fold (registered_participant (mirror st) given_fullname email contact).
  fold p.
  destruct (execute_query_cases (InsertParticipant p)
              (SQL.insert_participant p) st)
    as (b1 & s1 & E1 & M1 & _ & C1).
  unfold bind at 1. rewrite E1.
  destruct C1 as [(-> & K1 & _) | (-> & _ & _ & t' & R1 & P1 & K1 & F1)].
  { cbn. do 3 eexists. split; [reflexivity |]. left. auto. }
  cbn [negb]. unfold bind at 1. cbn [get_mirror]. rewrite M1.
  fold (next_participant_id (mirror st)).
  fold (next_ticket_id (mirror st)).
  fold (registered_ticket (mirror st) event_id). fold k.
  unfold SQL.insert_participant in R1.
  destruct (existsb _ _) in R1; [discriminate R1 |].
  injection R1 as <-. fold t1 in P1, K1.
  destruct (execute_query_cases (InsertTicket k) (SQL.insert_ticket k) s1)
    as (b2 & s2 & E2 & M2 & _ & C2).
  unfold bind at 1. rewrite E2.
  destruct C2 as [(-> & K2 & _) | (-> & _ & _ & t'' & R2 & P2 & K2 & F2)].
  { cbn. do 3 eexists. split; [reflexivity |]. right. left.
    rewrite K2, K1, M2, M1. auto. }
  cbn [negb]. unfold bind. rewrite refresh_all_data_run.
  do 3 eexists. split; [reflexivity |]. right. right.
  cbn [committed pending mirror].
  unfold SQL.insert_ticket in R2. rewrite P1 in R2.
  destruct (existsb _ _) in R2; [discriminate R2 |].
  injection R2 as <-. rewrite K2, P2, F2, F1, M2, M1, skipn_skipn.
  repeat split.
Qed.

(** X11.  Public registration cannot oversell an event: the ticket it
    creates is Pending, so if no event has more Confirmed tickets than its
    venue has places before [register_user_as_participant], none has
    afterwards, whatever the storage failures. *)
Theorem register_user_as_participant_keeps_capacity given_username event_id
    given_fullname email contact st :
  within_capacity (pending st) -> within_capacity (committed st) ->
  within_capacity
    (committed
       (snd (Database.register_user_as_participant given_username event_id
               given_fullname email contact st))).
Proof.
  intros WP WC.
  destruct (register_user_as_participant_cases given_username event_id
              given_fullname email contact st)
    as (ok & msg & st' & R & C).
  rewrite R. cbn [snd].
  destruct C as [(_ & _ & K & _) | [(_ & _ & K & _) | (_ & _ & K & _)]];
    rewrite K.
  - exact WC.
  - exact WP.
  - intros e v He Hv Hev. cbn [Ticket_tbl with_Ticket_tbl with_Participants_tbl].
    rewrite count_confirmed_app.
    unfold SQL.confirmed_of_event, registered_ticket. cbn [Status].
    rewrite andb_false_r, Z.add_0_r. exact (WP e v He Hv Hev).
Qed.

Lemma register_user_as_participant_keeps_capacity_witness :
  within_capacity
    (committed
       (snd (Database.register_user_as_participant "ravi" 10 "Ravi"
               "ravi@example.org" "" (sold_out_state [])))).
Proof.
  assert (W : within_capacity sold_out_tables)
    by (apply within_capacity_reflect; vm_compute; reflexivity).
  exact (register_user_as_participant_keeps_capacity "ravi" 10 "Ravi"
           "ravi@example.org" "" (sold_out_state []) W W).
Defined.

Lemma fresh_id_not_taken {A} (key : A -> Z) d (l : list A) :
  existsb (fun x => key x =? Database.max_default d (map key l) + 1) l
    = false.
Proof.
  destruct (existsb _ l) eqn:E; [| reflexivity].
  apply existsb_exists in E as (x & Hx & E). apply Z.eqb_eq in E.
  pose proof (max_default_ge d _ _ (in_map key _ _ Hx)). lia.
Qed.



(** ** Users *)

Lemma authenticate_user_run collate given_username given_password st :
  Database.authenticate_user collate given_username given_password st =
    match find (fun u => String.eqb (username u) given_username
                         && String.eqb (password u) given_password)
            (users (mirror st)) with
    | Some u => (Ret (Some u), st)
    | None =>
        (Ret (hd_error
                (if fault_at 0 (faults st) then []
                 else SQL.select_user_by_credentials collate given_username
                        given_password (pending st))),
         sent (SelectUserByCredentials given_username given_password) st)
    end.
Proof.
  unfold Database.authenticate_user. unfold bind at 1. cbn [get_mirror].
  destruct (find _ (users (mirror st))); [reflexivity |].
  unfold bind at 1, try_except, bind at 1.
  rewrite execute_query_fetch_run.
  destruct (hd_tl_fault_at (faults st)) as (<- & _).
  destruct (hd false (faults st)); [reflexivity |].
  destruct (SQL.select_user_by_credentials _ _ _ _); reflexivity.
Qed.

Lemma credentials_match_eqb given_username given_password u :
  String.eqb (username u) given_username
  && String.eqb (password u) given_password = true <->
  credentials_match given_username given_password u.
Proof.
  unfold credentials_match.
  rewrite andb_true_iff, !String.eqb_eq. reflexivity.
Qed.

Lemma find_first_match {A} (f : A -> bool) (l : list A) x :
  In x l -> f x = true ->
  exists y, find f l = Some y /\ In y l /\ f y = true.
Proof.
  intros I F. destruct (find f l) as [y |] eqn:E.
  - exists y. apply find_some in E as (Iy & Fy). auto.
  - pose proof (find_none _ _ E x I). congruence.
Qed.

(** X14.  [authenticate_user] trusts the cache first: as soon as the
    cached user list holds a user with exactly the given name and
    password, such a cached user is returned and no statement is sent,
    whatever the users table holds by then. *)
Theorem authenticate_user_cache_first collate given_username given_password
    st u :
  In u (users (mirror st)) ->
  credentials_match given_username given_password u ->
  exists u',
    Database.authenticate_user collate given_username given_password st =
      (Ret (Some u'), st) /\
    In u' (users (mirror st)) /\
    credentials_match given_username given_password u'.
Proof.
  intros I C. rewrite authenticate_user_run.
  apply credentials_match_eqb in C.
  destruct (find_first_match
              (fun u => String.eqb (username u) given_username
                        && String.eqb (password u) given_password)
              _ _ I C) as (y & -> & Iy & Fy).
  exists y. apply credentials_match_eqb in Fy. auto.
Qed.

Lemma authenticate_user_cache_first_witness :
  exists u',
    Database.authenticate_user String.eqb "admin" "secret"
      (mkState (with_users_tbl [] demo_tables) (with_users_tbl [] demo_tables)
         [] [] demo_mirror demo_clock) =
      (Ret (Some u'),
       mkState (with_users_tbl [] demo_tables) (with_users_tbl [] demo_tables)
         [] [] demo_mirror demo_clock) /\
    username u' = "admin".
Proof.
  destruct (authenticate_user_cache_first String.eqb "admin" "secret"
              (mkState (with_users_tbl [] demo_tables)
                 (with_users_tbl [] demo_tables) [] [] demo_mirror demo_clock)
              (mkUser 1 "admin" "secret" "Administrator" "admin@example.org"
                 "admin")
              (or_introl eq_refl) (conj eq_refl eq_refl))
    as (u' & R & _ & U & _).
  exists u'. exact (conj R U).
Defined.

(** X15.  What [authenticate_user] returns is justified: a user it
    returns is either a cached user with exactly the given name and
    password (and then nothing was sent), or, when the cache has none, a
    row of the users table that the server matched; it returns None
    exactly when the cache has no exact match and the lookup failed or
    matched no row (a storage error is answered like a wrong password). *)
Theorem authenticate_user_sound collate given_username given_password st r
    st' :
  Database.authenticate_user collate given_username given_password st =
    (Ret r, st') ->
  match r with
  | Some u =>
      (In u (users (mirror st)) /\
       credentials_match given_username given_password u /\ st' = st) \/
      ((forall c, In c (users (mirror st)) ->
                  ~ credentials_match given_username given_password c) /\
       fault_at 0 (faults st) = false /\
       In u (users_tbl (pending st)) /\
       collate (username u) given_username = true /\
       collate (password u) given_password = true)
  | None =>
      (forall c, In c (users (mirror st)) ->
                 ~ credentials_match given_username given_password c) /\
      (fault_at 0 (faults st) = true \/
       forall row, In row (users_tbl (pending st)) ->
                   collate (username row) given_username
                   && collate (password row) given_password = false)
  end.
Proof.
  rewrite authenticate_user_run.
  destruct (find _ (users (mirror st))) as [u |] eqn:E.
  { intros H. injection H as <- <-. apply find_some in E as (I & F).
    apply credentials_match_eqb in F. left. auto. }
  assert (N : forall c, In c (users (mirror st)) ->
                        ~ credentials_match given_username given_password c).
  { intros c Ic Cc. apply credentials_match_eqb in Cc.
    pose proof (find_none _ _ E c Ic) as X. cbv beta in X. congruence. }
  intros H. injection H as <- _.
  destruct (fault_at 0 (faults st)) eqn:F0; cbn [hd_error].
  { split; [exact N | left; reflexivity]. }
  unfold SQL.select_user_by_credentials.
  destruct (filter _ (users_tbl (pending st))) as [| u rest] eqn:Q;
    cbn [hd_error].
  - split; [exact N | right]. intros row Ir.
    destruct (collate (username row) given_username
              && collate (password row) given_password) eqn:X;
      [| reflexivity].
    assert (I : In row (filter
                          (fun u => collate (username u) given_username
                                    && collate (password u) given_password)
                          (users_tbl (pending st))))
      by (apply filter_In; auto).
    rewrite Q in I. destruct I.
  - right. assert (I : In u (filter
                          (fun u => collate (username u) given_username
                                    && collate (password u) given_password)
                          (users_tbl (pending st))))
      by (rewrite Q; left; reflexivity).
    apply filter_In in I as (I & X). apply andb_true_iff in X as (X1 & X2).
    auto 6.
Qed.

Lemma authenticate_user_sound_witness :
  (forall c, In c (users (mirror (demo_state [true]))) ->
             ~ credentials_match "admin" "wrong" c) /\
  (fault_at 0 (faults (demo_state [true])) = true \/
   forall row, In row (users_tbl (pending (demo_state [true]))) ->
               String.eqb (username row) "admin"
               && String.eqb (password row) "wrong" = false).
Proof.
  exact (authenticate_user_sound String.eqb "admin" "wrong"
           (demo_state [true]) None
           (sent (SelectUserByCredentials "admin" "wrong") (demo_state [true]))
           eq_refl).
Defined.

Lemma add_user_unfold user_data :
  Database.add_user user_data =
    mutation (InsertUser (Database.data_User_id user_data) (Database.data_Username user_data))
      (SQL.insert_user (Database.data_User_id user_data) (Database.data_Username user_data)
         (Database.data_Password user_data) (Database.data_Fullname user_data)
         (Database.data_Email user_data)
         (match Database.data_Role user_data with
          | Some r => r
          | None => "user"
          end)).
Proof. reflexivity. Qed.

(** X16.  Round trip of [add_user] and [authenticate_user]: once
    [add_user] has returned [True] and the reload has fetched the users,
    the name and password just stored authenticate, from the cache and
    without a statement; the user returned has these credentials and is a
    committed row (the first such row, which is an older one when the
    credentials were already in use).  A missing role is stored as
    'user'. *)
Theorem add_user_then_authenticate collate user_data st st' :
  Database.add_user user_data st = (Ret true, st') ->
  fault_at 10 (faults st) = false ->
  (exists u,
      Database.authenticate_user collate (Database.data_Username user_data)
        (Database.data_Password user_data) st' = (Ret (Some u), st') /\
      credentials_match (Database.data_Username user_data) (Database.data_Password user_data) u
      /\ In u (users_tbl (committed st'))) /\
  exists new_id,
    In (mkUser new_id (Database.data_Username user_data) (Database.data_Password user_data)
          (Database.data_Fullname user_data) (Database.data_Email user_data)
          (match Database.data_Role user_data with Some r => r | None => "user" end))
      (users_tbl (committed st')).
Proof.
  rewrite add_user_unfold. intros H F.
  apply mutation_true_inv in H as (_ & _ & t' & R & _ & K & Mi & _).
  assert (U : users (mirror st') = users_tbl t').
  { rewrite Mi. unfold reloaded. cbn [users]. rewrite fault_at_skipn.
    cbn [Nat.add]. rewrite F. reflexivity. }
  assert (N : exists new_id,
             In (mkUser new_id (Database.data_Username user_data)
                   (Database.data_Password user_data) (Database.data_Fullname user_data)
                   (Database.data_Email user_data)
                   (match Database.data_Role user_data with
                    | Some r => r
                    | None => "user"
                    end))
               (users_tbl t')).
  { unfold SQL.insert_user in R. destruct (Database.data_User_id user_data) as [k |].
    - destruct (existsb _ _) in R; [discriminate R |]. injection R as <-.
      exists k. cbn. apply in_or_app. right. left. reflexivity.
    - injection R as <-. eexists. cbn. apply in_or_app. right. left.
      reflexivity. }
  rewrite K. split; [| exact N]. destruct N as (new_id & I).
  rewrite authenticate_user_run, U.
  destruct (find_first_match
              (fun u => String.eqb (username u) (Database.data_Username user_data)
                        && String.eqb (password u) (Database.data_Password user_data))
              _ _ I) as (y & -> & Iy & Fy).
  { cbn [username password]. rewrite !String.eqb_refl. reflexivity. }
  exists y. apply credentials_match_eqb in Fy. auto.
Qed.

Lemma add_user_then_authenticate_witness :
  exists new_id,
    In (mkUser new_id "lila" "pw" "Lila" "lila@example.org" "user")
      (users_tbl
         (committed
            (snd (Database.add_user
                    (Database.mkUserData None "lila" "pw" "Lila" "lila@example.org"
                       None) (demo_state []))))).
Proof.
  assert (H : Database.add_user
                (Database.mkUserData None "lila" "pw" "Lila" "lila@example.org" None)
                (demo_state []) =
              (Ret true,
               snd (Database.add_user
                      (Database.mkUserData None "lila" "pw" "Lila" "lila@example.org"
                         None) (demo_state []))))
    by (vm_compute; reflexivity).
  exact (proj2 (add_user_then_authenticate String.eqb _ (demo_state []) _
                  H eq_refl)).
Defined.

(** ** The event summary *)

Lemma select_event_summary_unique event_id t :
  keys_unique t ->
  SQL.select_event_summary event_id t =
    match find (fun e => Event_id e =? event_id) (Event_tbl t) with
    | None => []
    | Some event =>
        match find (fun v => Venue_id v =? Event_Venue_id event) (Venue_tbl t)
        with
        | None => []
        | Some venue => [(Event_Name event, Venue_Name venue, Capacity venue)]
        end
    end.
Proof.
  intros (He & Hv & _). unfold SQL.select_event_summary.
  rewrite (filter_unique_key Event_id event_id _ He).
  destruct (find _ (Event_tbl t)) as [event |]; [| reflexivity].
  cbn. rewrite (filter_unique_key Venue_id _ _ Hv).
  destruct (find _ (Venue_tbl t)); reflexivity.
Qed.

(** The call of the routine SP_GetEventSummary. *)
Lemma summary_call_run {B} event_id (k : list (string * string * Z) -> M B)
    st :
  (send (CallSP_GetEventSummary event_id) ;;;
   rows <- server_step
             (reads (fun t => Some (SQL.select_event_summary event_id t))) ;;
   k rows) st =
    let s1 := sent (CallSP_GetEventSummary event_id) st in
    if fault_at 0 (faults st) then (Raise MySQLError, s1)
    else k (SQL.select_event_summary event_id (pending st)) s1.
Proof.
  destruct (hd_tl_fault_at (faults st)) as (<- & _).
  destruct st as [p c fs i m ck]. unfold bind, send, server_step, bind,
    next_fault, reads, sent. cbn.
  destruct (hd false fs); reflexivity.
Qed.

Lemma summary_counts event_id row_Event_Name row_Venue_Name row_Capacity
    s1 :
  keys_unique (pending s1) -> mirror_fresh s1 ->
  exists confirmed s3,
    (available <- Database.get_available_capacity event_id ;;
     confirmed <- Database.get_total_confirmed_tickets event_id ;;
     ret (Database.Summary
            (Database.mkEventSummary row_Event_Name row_Venue_Name
               row_Capacity available confirmed))) s1 =
      (Ret (Database.Summary
              (Database.mkEventSummary row_Event_Name row_Venue_Name
                 row_Capacity
                 match resolved_capacity event_id (pending s1) with
                 | Some capacity => capacity
                 | None => 0
                 end
                 confirmed)), s3) /\
    (confirmed = SQL.count_confirmed event_id (Ticket_tbl (pending s1)) \/
     confirmed = 0).
Proof.
  intros K F.
  pose proof (get_available_capacity_any_tier event_id s1 K F) as A.
  destruct (get_available_capacity_frame event_id s1)
    as (a & s2 & G & P2 & _).
  rewrite G in A. cbn [fst] in A. injection A as ->.
  unfold bind at 1. rewrite G. unfold bind.
  rewrite get_total_confirmed_tickets_run, P2.
  destruct (fault_at 0 (faults s2)); [destruct (fault_at 1 (faults s2)) |];
    eexists; eexists; (split; [reflexivity |]); auto.
Qed.


Lemma get_event_summary_fresh_run event_id st :
  keys_unique (pending st) -> mirror_fresh st ->
  let sold := SQL.count_confirmed event_id (Ticket_tbl (pending st)) in
  exists confirmed,
    (confirmed = sold \/ confirmed = 0) /\
    fst (Database.get_event_summary event_id st) =
      Ret match find (fun e => Event_id e =? event_id)
                  (Event_tbl (pending st)) with
          | None =>
              Database.SummaryError
                ("Event " ++ SQL.str event_id ++ " not found")%string
          | Some event =>
              match find (fun v => Venue_id v =? Event_Venue_id event)
                      (Venue_tbl (pending st)) with
              | None => Database.SummaryError "Venue not found"
              | Some venue =>
                  Database.Summary
                    (Database.mkEventSummary (Event_Name event)
                       (Venue_Name venue) (Capacity venue)
                       (Capacity venue - sold) confirmed)
              end
          end.
Proof.
  intros K F. cbv zeta.
  pose proof F as (Fe & Fv & _).
  unfold Database.get_event_summary.
  unfold bind at 1, try_except. rewrite summary_call_run. cbv zeta.
  rewrite (select_event_summary_unique _ _ K).
  set (s1 := sent (CallSP_GetEventSummary event_id) st).
  assert (K1 : keys_unique (pending s1)) by exact K.
  assert (F1 : mirror_fresh s1) by exact F.
  assert (R : forall event venue,
             find (fun e => Event_id e =? event_id) (Event_tbl (pending st))
               = Some event ->
             find (fun v => Venue_id v =? Event_Venue_id event)
               (Venue_tbl (pending st)) = Some venue ->
             match resolved_capacity event_id (pending s1) with
             | Some capacity => capacity
             | None => 0
             end =
             Capacity venue
             - SQL.count_confirmed event_id (Ticket_tbl (pending st))).
  { intros event venue Ev Ve. unfold resolved_capacity.
    change (pending s1) with (pending st). rewrite Ev, Ve. reflexivity. }
  destruct (fault_at 0 (faults st)).
  - cbn [any_exception ret]. unfold bind at 1. cbn [get_mirror].
    change (mirror s1) with (mirror st). rewrite Fe, Fv.
    destruct (find _ (Event_tbl (pending st))) as [event |] eqn:Ev.
    2:{ exists 0. split; [right |]; reflexivity. }
    destruct (find _ (Venue_tbl (pending st))) as [venue |] eqn:Ve.
    2:{ exists 0. split; [right |]; reflexivity. }
    destruct (summary_counts event_id (Event_Name event) (Venue_Name venue)
                (Capacity venue) s1 K1 F1) as (confirmed & s3 & E & C).
    rewrite E. exists confirmed. split; [exact C |]. cbn [fst].
    rewrite (R event venue eq_refl Ve). reflexivity.
  - destruct (find _ (Event_tbl (pending st))) as [event |] eqn:Ev.
    2:{ cbn [ret]. unfold bind at 1. cbn [get_mirror].
        change (mirror s1) with (mirror st). rewrite Fe, Ev.
        exists 0. split; [right |]; reflexivity. }
    destruct (find _ (Venue_tbl (pending st))) as [venue |] eqn:Ve.
    2:{ cbn [ret]. unfold bind at 1. cbn [get_mirror].
        change (mirror s1) with (mirror st). rewrite Fe, Ev, Fv, Ve.
        exists 0. split; [right |]; reflexivity. }
    destruct (summary_counts event_id (Event_Name event) (Venue_Name venue)
                (Capacity venue) s1 K1 F1) as (confirmed & s3 & E & C).
    unfold bind at 1.
    unfold bind in E at 1.
    destruct (Database.get_available_capacity event_id s1) as [[a | e] s2]
      eqn:G; [| discriminate E].
    unfold bind at 1.
    unfold bind in E at 1.
    destruct (Database.get_total_confirmed_tickets event_id s2)
      as [[c | e] s3'] eqn:T; [| discriminate E].
    unfold ret in E. injection E as -> -> ->. cbn [ret fst].
    exists confirmed. split; [exact C |].
    rewrite <- (R event venue eq_refl Ve). reflexivity.
Qed.

(** X17.  [get_event_summary] on a cache that shows the stored tables,
    with unique keys: whatever the storage failures, the routine and the
    cached computation give the same names and capacity, and Available is
    the capacity minus the number of Confirmed tickets; an unknown event
    gives 'Event {id} not found' and an event without its venue 'Venue not
    found'.  Confirmed_Tickets is that number of tickets too, or 0 (the
    answer of [get_total_confirmed_tickets] when both of its queries
    fail). *)
Theorem get_event_summary_fresh event_id st :
  keys_unique (pending st) -> mirror_fresh st ->
  let r := fst (Database.get_event_summary event_id st) in
  match find (fun e => Event_id e =? event_id) (Event_tbl (pending st)) with
  | None =>
      r = Ret (Database.SummaryError
                 ("Event " ++ SQL.str event_id ++ " not found")%string)
  | Some event =>
      match find (fun v => Venue_id v =? Event_Venue_id event)
              (Venue_tbl (pending st)) with
      | None => r = Ret (Database.SummaryError "Venue not found")
      | Some venue =>
          let sold :=
            SQL.count_confirmed event_id (Ticket_tbl (pending st)) in
          exists confirmed,
            r = Ret (Database.Summary
                       (Database.mkEventSummary (Event_Name event)
                          (Venue_Name venue) (Capacity venue)
                          (Capacity venue - sold) confirmed)) /\
            (confirmed = sold \/ confirmed = 0)
      end
  end.
Proof.
  intros K F r.
  destruct (get_event_summary_fresh_run event_id st K F)
    as (confirmed & C & E).
  subst r. rewrite E.
  destruct (find _ (Event_tbl (pending st))) as [event |]; [| reflexivity].
  destruct (find _ (Venue_tbl (pending st))) as [venue |]; [| reflexivity].
  exists confirmed. split; [reflexivity | exact C].
Qed.

Lemma get_event_summary_fresh_witness :
  exists confirmed,
    fst (Database.get_event_summary 10 (demo_state [true])) =
      Ret (Database.Summary
             (Database.mkEventSummary "Gala" "Hall" 2 1 confirmed)) /\
    (confirmed = 1 \/ confirmed = 0).
Proof.
  assert (K : keys_unique (pending (demo_state [true]))).
  { repeat split; repeat constructor; cbn; intuition discriminate. }
  assert (F : mirror_fresh (demo_state [true])) by (repeat split).
  exact (get_event_summary_fresh 10 (demo_state [true]) K F).
Defined.

(** ** The log pane *)

Lemma skipn_snoc {A} (l : list A) (e : A) n :
  (n <= List.length l)%nat -> skipn n (l ++ [e]) = (skipn n l ++ [e])%list.
Proof.
  intros H. rewrite skipn_app.
  replace (n - List.length l)%nat with 0%nat by lia. reflexivity.
Qed.

(** X18.  The log pane after [log_event_deletion]: whether or not the Log
    table took the row, the first line shown by [refresh_logs] is the
    deletion message just appended to the in-memory log, followed by at
    most nine of the entries that were there before (the most recently
    appended ones, latest first). *)
Theorem refresh_logs_after_deletion event_id event_name st :
  let st1 := snd (Database.log_event_deletion event_id event_name st) in
  let before := logs (mirror st) in
  EventManagementApp.refresh_logs (mirror st1) =
    EventManagementApp.LogLines
      (mkLogEntry (datetime_now (clock st))
         (deletion_message event_id event_name)
       :: rev (skipn (List.length before - 9) before)) /\
  List.length (rev (skipn (List.length before - 9) before))
    = Nat.min 9 (List.length before).
Proof.
  cbv zeta.
  destruct (log_event_deletion_run event_id event_name st)
    as (st1 & R & _ & Mi & _).
  rewrite R. cbn [snd]. rewrite Mi.
  unfold EventManagementApp.refresh_logs. cbn [logs set_logs].
  set (l := logs (mirror st)).
  set (e := mkLogEntry (datetime_now (clock st))
              (deletion_message event_id event_name)).
  split.
  - destruct (l ++ [e])%list eqn:E.
    { destruct l; discriminate E. }
    rewrite <- E. rewrite length_app. cbn [List.length].
    replace (List.length l + 1 - 10)%nat with (List.length l - 9)%nat by lia.
    rewrite skipn_snoc by lia. rewrite rev_app_distr. reflexivity.
  - rewrite length_rev, length_skipn. lia.
Qed.

(** ** Deleting an event from the event list *)

Lemma delete_event_true_inv event_id event_name st st' :
  Database.delete_event event_id event_name st = (Ret true, st') ->
  same_entities (cascaded event_id (pending st)) (committed st').
Proof.
  intros H. rewrite delete_event_unfold in H.
  destruct (log_event_deletion_run event_id event_name st)
    as (st1 & Hlog & Hout & Hmir & Hclk).
  rewrite (bind_run_ret _ _ _ _ _ Hlog) in H.
  unfold try_except in H.
  destruct (cascade_block event_id st1) as [[b | e] st2] eqn:Hblock.
  2:{ apply cascade_block_raise in Hblock as (-> & _).
      cbn in H. discriminate H. }
  injection H as -> ->.
  apply cascade_block_ret in Hblock as (_ & ->).
  cbn [pending committed issued].
  pose proof (LogOutcome_same_entities _ _ _ _ Hout) as S.
  exact (cascaded_same_entities _ _ event_id S).
Qed.

Lemma filter_length_split {A} (f : A -> bool) (l : list A) :
  (List.length (filter (fun x => negb (f x)) l) + List.length (filter f l)
   = List.length l)%nat.
Proof.
  induction l as [| x l IH]; [reflexivity |].
  cbn. destruct (f x); cbn; lia.
Qed.

(** X19.  The numbers announced by the confirmation dialog of
    [delete_event] are the numbers of rows a successful deletion removes,
    when the cache shows the stored tickets, volunteers and sponsors: the
    committed tables have lost exactly [tickets_count] tickets,
    [volunteers_count] volunteers and [sponsors_count] sponsors.  When the
    user answers no, nothing is sent. *)
Theorem delete_event_dialog_counts event_id event_name answer st box st' :
  tickets (mirror st) = Ticket_tbl (pending st) ->
  volunteers (mirror st) = Volunteers_tbl (pending st) ->
  sponsors (mirror st) = Sponsor_tbl (pending st) ->
  EventManagementApp.delete_event event_id event_name answer st
    = (Ret box, st') ->
  match box with
  | None => answer = false /\ st' = st
  | Some (showinfo _ _) =>
      (List.length (Ticket_tbl (committed st'))
       + EventManagementApp.tickets_count event_id (mirror st)
       = List.length (Ticket_tbl (pending st)))%nat /\
      (List.length (Volunteers_tbl (committed st'))
       + EventManagementApp.volunteers_count event_id (mirror st)
       = List.length (Volunteers_tbl (pending st)))%nat /\
      (List.length (Sponsor_tbl (committed st'))
       + EventManagementApp.sponsors_count event_id (mirror st)
       = List.length (Sponsor_tbl (pending st)))%nat
  | Some (showerror _ _) =>
      answer = true /\
      exists s1,
        Database.delete_event event_id event_name st = (Ret false, s1)
  end.
Proof.
  intros MT MV MS H. unfold EventManagementApp.delete_event in H.
  destruct answer.
  2:{ injection H as <- <-. split; reflexivity. }
  unfold bind in H.
  destruct (delete_event_returns event_id event_name st) as (b & s1 & R).
  rewrite R in H. destruct b; injection H as <- <-.
  - apply delete_event_true_inv in R
      as (_ & _ & _ & _ & Sp & Vo & Ti & _).
    destruct (cascaded_tables event_id (pending st))
      as (A1 & _ & A3 & A4 & _).
    rewrite <- Ti, <- Vo, <- Sp, A1, A3, A4.
    unfold EventManagementApp.tickets_count,
      EventManagementApp.volunteers_count,
      EventManagementApp.sponsors_count.
    rewrite MT, MV, MS.
    split; [| split]; apply filter_length_split.
  - split; [reflexivity | exists s1; exact R].
Qed.

Lemma delete_event_dialog_counts_witness :
  (List.length
     (Ticket_tbl
        (committed
           (snd (EventManagementApp.delete_event 10 "Gala" true
                   (demo_state [])))))
   + EventManagementApp.tickets_count 10 (mirror (demo_state []))
   = 5)%nat.
Proof.
  assert (H : EventManagementApp.delete_event 10 "Gala" true (demo_state [])
              = (Ret (Some (showinfo "Success"
                              "Event 'Gala' and all related records deleted successfully from database!")),
                 snd (EventManagementApp.delete_event 10 "Gala" true
                        (demo_state []))))
    by (vm_compute; reflexivity).
  exact (proj1 (delete_event_dialog_counts 10 "Gala" true (demo_state []) _ _
                  eq_refl eq_refl eq_refl H)).
Defined.










(** ** Payment confirmation without the routine *)



(** ** The analytics reports *)

Lemma report1_rows_fresh evs : forall st,
  keys_unique (pending st) -> mirror_fresh st ->
  (forall e, In e evs -> In e (Event_tbl (pending st))) ->
  exists st',
    EventManagementApp.report1_rows evs st =
      (Ret (flat_map (capacity_row (pending st)) evs), st') /\
    pending st' = pending st /\ mirror st' = mirror st.
Proof.
  induction evs as [| event evs IH]; intros st K F Hin;
    cbn [EventManagementApp.report1_rows flat_map].
  { eexists. split; [reflexivity | split; reflexivity]. }
  pose proof F as (_ & Fv & _). pose proof K as (Ke & _).
  unfold bind at 1. cbn [get_mirror]. rewrite Fv. unfold capacity_row at 1.
  destruct (find _ (Venue_tbl (pending st))) as [venue |] eqn:V.
  - destruct (get_available_capacity_frame (Event_id event) st)
      as (av & s1 & G & P1 & _ & M1).
    pose proof (get_available_capacity_any_tier (Event_id event) st K F) as A.
    rewrite G in A. cbn [fst] in A. injection A as ->.
    unfold resolved_capacity in G.
    rewrite (find_unique_key Event_id _ event Ke
               (Hin event (or_introl eq_refl))), V in G.
    unfold bind at 1. rewrite G.
    destruct (IH s1) as (st' & R & P' & M').
    + rewrite P1. exact K.
    + unfold mirror_fresh. rewrite P1, M1. exact F.
    + intros e He. rewrite P1. apply Hin. right. exact He.
    + unfold bind at 1. rewrite R. rewrite P1.
      eexists. split; [reflexivity |]. split; congruence.
  - destruct (IH st K F) as (st' & R & P' & M').
    + intros e He. apply Hin. right. exact He.
    + exists st'. cbn [app]. auto.
Qed.

(** X22.  Report 1 of [refresh_analytics] on a cache that shows the
    stored tables, with unique keys: it lists, in the order of the
    events, every event whose venue exists, with the capacity of the venue
    and as 'available' that capacity minus the number of Confirmed tickets
    of the event, whatever storage failures the capacity queries meet. *)
Theorem refresh_analytics_report1_fresh st :
  keys_unique (pending st) -> mirror_fresh st ->
  fst (EventManagementApp.refresh_analytics_report1 st) =
    Ret (flat_map (capacity_row (pending st)) (Event_tbl (pending st))).
Proof.
  intros K F. unfold EventManagementApp.refresh_analytics_report1.
  unfold bind. cbn [get_mirror]. pose proof F as (Fe & _). rewrite Fe.
  destruct (report1_rows_fresh (Event_tbl (pending st)) st K F)
    as (st' & R & _); [auto |].
  rewrite R. reflexivity.
Qed.

Lemma refresh_analytics_report1_fresh_witness :
  fst (EventManagementApp.refresh_analytics_report1
         (demo_state [true; false; true; true])) =
    Ret [("Gala", 2, 1); ("Fair", 50, 49)].
Proof.
  assert (K : keys_unique (pending (demo_state [true; false; true; true]))).
  { repeat split; repeat constructor; cbn; intuition discriminate. }
  assert (F : mirror_fresh (demo_state [true; false; true; true]))
    by (repeat split).
  exact (refresh_analytics_report1_fresh
           (demo_state [true; false; true; true]) K F).
Defined.

Lemma dict_add_keys key amount d :
  map fst (EventManagementApp.dict_add key amount d) = map fst d.
Proof.
  unfold EventManagementApp.dict_add. rewrite map_map.
  apply map_ext. intros kv. destruct (String.eqb (fst kv) key); reflexivity.
Qed.

Lemma dict_add_absent key amount d :
  EventManagementApp.dict_contains key d = false ->
  EventManagementApp.dict_add key amount d = d.
Proof.
  induction d as [| kv d IH]; intros H; [reflexivity |].
  cbn in H. apply orb_false_iff in H as (H1 & H2).
  cbn. rewrite H1. f_equal. exact (IH H2).
Qed.

Lemma dict_contains_In key d :
  EventManagementApp.dict_contains key d = true <-> In key (map fst d).
Proof.
  unfold EventManagementApp.dict_contains. rewrite existsb_exists. split.
  - intros (kv & I & E). apply String.eqb_eq in E. subst key.
    apply in_map. exact I.
  - intros I. apply in_map_iff in I as (kv & E & I). exists kv.
    split; [exact I |]. apply String.eqb_eq. exact E.
Qed.

Lemma dict_add_total key amount d :
  NoDup (map fst d) -> EventManagementApp.dict_contains key d = true ->
  total (EventManagementApp.dict_add key amount d) = total d + amount.
Proof.
  induction d as [| kv d IH]; intros N H; [discriminate H |].
  cbn [map] in N. apply NoDup_cons_iff in N as (N1 & N2).
  cbn in H. cbn [EventManagementApp.dict_add map total fold_right].
  destruct (String.eqb (fst kv) key) eqn:E.
  - apply String.eqb_eq in E.
    assert (A : EventManagementApp.dict_contains key d = false).
    { destruct (EventManagementApp.dict_contains key d) eqn:C;
        [| reflexivity].
      apply dict_contains_In in C. congruence. }
    fold (EventManagementApp.dict_add key amount d).
    rewrite (dict_add_absent _ _ _ A). cbn [snd]. fold (total d). lia.
  - cbn in H. fold (EventManagementApp.dict_add key amount d).
    fold (total (EventManagementApp.dict_add key amount d)).
    rewrite (IH N2 H). fold (total d). lia.
Qed.

Lemma add_event_revenue_spec m org_name event_tickets : forall d,
  NoDup (map fst d) -> EventManagementApp.dict_contains org_name d = true ->
  map fst (EventManagementApp.add_event_revenue m org_name event_tickets d)
    = map fst d /\
  total (EventManagementApp.add_event_revenue m org_name event_tickets d)
    = total d + fold_right Z.add 0 (map (counted_amount m) event_tickets).
Proof.
  unfold EventManagementApp.add_event_revenue.
  induction event_tickets as [| k ks IH]; intros d N C;
    cbn [fold_left map fold_right].
  { split; [reflexivity | lia]. }
  unfold counted_amount at 1.
  destruct (find _ (payments m)) as [payment |].
  - destruct (IH (EventManagementApp.dict_add org_name (Amount payment) d))
      as (A & B).
    + rewrite dict_add_keys. exact N.
    + apply dict_contains_In.
      rewrite (dict_add_keys org_name (Amount payment) d).
      apply dict_contains_In in C. exact C.
    + rewrite A, B, (dict_add_total _ _ _ N C),
        (dict_add_keys org_name (Amount payment) d).
      split; [reflexivity | lia].
  - destruct (IH d N C) as (A & B). rewrite A, B. split; [reflexivity | lia].
Qed.

Lemma total_snoc d key : total (d ++ [(key, 0)]) = total d.
Proof.
  unfold total. rewrite fold_right_app. reflexivity.
Qed.

Lemma add_organizer_revenue_spec m d event :
  NoDup (map fst d) ->
  let d' := EventManagementApp.add_organizer_revenue m d event in
  NoDup (map fst d') /\
  total d' = total d + counted_revenue m event /\
  forall name,
    In name (map fst d') ->
    In name (map fst d) \/
    exists o,
      In o (organizers m) /\
      Organizer_id o = Event_Organizer_id event /\ Organizer_Name o = name.
Proof.
  intros N. cbv zeta.
  unfold EventManagementApp.add_organizer_revenue, counted_revenue.
  destruct (find _ (organizers m)) as [organizer |] eqn:O.
  2:{ split; [exact N | split; [lia | auto]]. }
  cbv zeta.
  set (org_name := Organizer_Name organizer).
  set (d1 := if EventManagementApp.dict_contains org_name d then d
             else (d ++ [(org_name, 0)])%list).
  assert (N1 : NoDup (map fst d1)).
  { unfold d1.
    destruct (EventManagementApp.dict_contains org_name d) eqn:C;
      [exact N |].
    rewrite map_app. cbn.
    apply NoDup_app; [exact N | repeat constructor; intros [] |].
    intros x Hx [<- | []]. apply dict_contains_In in Hx. congruence. }
  assert (C1 : EventManagementApp.dict_contains org_name d1 = true).
  { unfold d1.
    destruct (EventManagementApp.dict_contains org_name d) eqn:C;
      [exact C |].
    apply dict_contains_In. rewrite map_app. apply in_or_app.
    right. left. reflexivity. }
  assert (T1 : total d1 = total d).
  { unfold d1. destruct (EventManagementApp.dict_contains org_name d);
      [reflexivity | apply total_snoc]. }
  assert (K1 : forall name, In name (map fst d1) ->
                            In name (map fst d) \/ name = org_name).
  { unfold d1. intros name.
    destruct (EventManagementApp.dict_contains org_name d); [auto |].
    rewrite map_app. intros I. apply in_app_or in I as [I | [<- | []]];
      auto. }
  destruct (add_event_revenue_spec m org_name
              (filter (fun t => Ticket_Event_id t =? Event_id event)
                 (tickets m)) d1 N1 C1) as (A & B).
  rewrite A, B, T1. split; [exact N1 | split; [reflexivity |]].
  intros name Hn. destruct (K1 name Hn) as [Hd | ->]; [auto |].
  right. exists organizer. apply find_some in O as (Oi & Oe).
  apply Z.eqb_eq in Oe. auto.
Qed.

Lemma organizer_revenue_fold m evs : forall d,
  NoDup (map fst d) ->
  let d' := fold_left (EventManagementApp.add_organizer_revenue m) evs d in
  NoDup (map fst d') /\
  total d' = total d + fold_right Z.add 0 (map (counted_revenue m) evs) /\
  forall name,
    In name (map fst d') ->
    In name (map fst d) \/
    exists e o,
      In e evs /\ In o (organizers m) /\
      Organizer_id o = Event_Organizer_id e /\ Organizer_Name o = name.
Proof.
  induction evs as [| event evs IH]; intros d N; cbn [fold_left map fold_right].
  { cbv zeta. split; [exact N | split; [lia | auto]]. }
  destruct (add_organizer_revenue_spec m d event N) as (N1 & T1 & K1).
  destruct (IH _ N1) as (I1 & I2 & I3).
  cbv zeta. split; [exact I1 |]. split; [rewrite I2, T1; lia |].
  intros name Hn. destruct (I3 name Hn) as [Hd | (e & o & He & Ho & E1 & E2)].
  - destruct (K1 name Hd) as [Hd' | (o & Ho & E1 & E2)]; [auto |].
    right. exists event, o. cbn. auto.
  - right. exists e, o. cbn. auto.
Qed.

(** X23.  Report 3 of [refresh_analytics] (total revenue by organizer):
    the dictionary has one entry per organizer name, each the name of the
    cached organizer of some cached event, and its amounts add up to what
    the events contribute: for every event whose organizer is cached, the
    amount of the first cached payment of each of its tickets (a second
    payment of a ticket is never counted, and organizers of the same name
    share one entry). *)
Theorem organizer_revenue_total m :
  NoDup (map fst (EventManagementApp.organizer_revenue m)) /\
  total (EventManagementApp.organizer_revenue m) =
    fold_right Z.add 0 (map (counted_revenue m) (events m)) /\
  forall name,
    In name (map fst (EventManagementApp.organizer_revenue m)) ->
    exists e o,
      In e (events m) /\ In o (organizers m) /\
      Organizer_id o = Event_Organizer_id e /\ Organizer_Name o = name.
Proof.
  destruct (organizer_revenue_fold m (events m) [] (NoDup_nil _))
    as (A & B & C).
  split; [exact A |]. split; [exact B |].
  intros name Hn. destruct (C name Hn) as [[] | H]. exact H.
Qed.

(** ** Public registration and the connection *)

Lemma session_execute_query_cases s run ss :
  pending (store ss) = committed (store ss) ->
  (hd Alive (links ss) = Unreachable /\
   Session.execute_query s run ss = (Raise AttributeError, lost ss)) \/
  (hd Alive (links ss) <> Unreachable /\
   exists b s1,
     Database.execute_query s run (store ss) = (Ret b, s1) /\
     Session.execute_query s run ss =
       (Ret b, mkSession s1 true (tl (links ss)))).
Proof.
  intros Cl. rewrite execute_query_link, (usable_clean _ Cl).
  destruct (execute_query_returns s run (store ss)) as (b & s1 & R).
  rewrite R. cbn [fst snd].
  destruct (hd Alive (links ss)); [right | right | left];
    (split; [try discriminate; try reflexivity |]); eauto.
Qed.

Lemma lift_get_mirror ss :
  lift get_mirror ss = (Ret (mirror (store ss)), ss).
Proof. destruct ss. reflexivity. Qed.

Lemma lift_next_participant_id ss :
  lift Database.get_next_participant_id ss =
    (Ret (next_participant_id (mirror (store ss))), ss).
Proof. destruct ss. reflexivity. Qed.

Lemma lift_next_volunteer_id ss :
  lift Database.get_next_volunteer_id ss =
    (Ret (next_volunteer_id (mirror (store ss))), ss).
Proof. destruct ss. reflexivity. Qed.

(** What a reload leaves of a clean session. *)
Lemma refresh_all_data_clean ss :
  pending (store ss) = committed (store ss) ->
  exists o ss',
    Session.refresh_all_data ss = (o, ss') /\
    committed (store ss') = committed (store ss) /\
    pending (store ss') = committed (store ss') /\
    (o = Ret tt \/
     (o = Raise AttributeError /\
      exists k, (k < 8)%nat /\ link_at k (links ss) = Unreachable)).
Proof.
  intros Cl.
  destruct (refresh_all_data_paths ss) as (o & ss' & R & C & P & Paths).
  exists o, ss'. split; [exact R |]. split; [exact C |].
  split; [destruct P as [P | P]; congruence |].
  destruct Paths as [(k & Hk & _ & Lk & -> & _) | (_ & -> & _)];
    [right; eauto | left; reflexivity].
Qed.

(** X10.  [register_user_as_participant] ends in one of four ways and is
    not atomic.  'Failed to create participant record': nothing is
    committed.  'Participant created but failed to create ticket': the
    participant row stays committed without a ticket, and the cache is not
    reloaded.  Success: the participant and a Pending ticket of price 0.01
    for the event are committed, with the identifiers named in the
    message, both computed from the cache.  And when the connection is
    lost for good at one of its queries, the AttributeError of
    [execute_query] is answered as (False, "'NoneType' object has no
    attribute 'cursor'"), with nothing, the participant alone, or both
    rows committed, according to the query at which it happened. *)
Theorem register_user_as_participant_outcomes given_username event_id
    given_fullname email contact ss :
  pending (store ss) = committed (store ss) ->
  let st := store ss in
  let p := registered_participant (mirror st) given_fullname email contact in
  let k := registered_ticket (mirror st) event_id in
  exists ok msg ss',
    Session.register_user_as_participant given_username event_id
      given_fullname email contact ss = (Ret (ok, msg), ss') /\
    ((ok = false /\ msg = "Failed to create participant record" /\
      committed (store ss') = committed st /\
      mirror (store ss') = mirror st) \/
     (ok = false /\
      msg = "Participant created but failed to create ticket" /\
      Participants_tbl (committed (store ss')) =
        (Participants_tbl (pending st) ++ [p])%list /\
      Ticket_tbl (committed (store ss')) = Ticket_tbl (pending st) /\
      mirror (store ss') = mirror st) \/
     (ok = true /\ msg = msg_registered_participant (mirror st) /\
      Participants_tbl (committed (store ss')) =
        (Participants_tbl (pending st) ++ [p])%list /\
      Ticket_tbl (committed (store ss')) =
        (Ticket_tbl (pending st) ++ [k])%list /\
      pending (store ss') = committed (store ss')) \/
     (ok = false /\ msg = "'NoneType' object has no attribute 'cursor'" /\
      (exists j, (j < 10)%nat /\ link_at j (links ss) = Unreachable) /\
      (committed (store ss') = committed st \/
       (Participants_tbl (committed (store ss')) =
          (Participants_tbl (pending st) ++ [p])%list /\
        Ticket_tbl (committed (store ss')) = Ticket_tbl (pending st)) \/
       (Participants_tbl (committed (store ss')) =
          (Participants_tbl (pending st) ++ [p])%list /\
        Ticket_tbl (committed (store ss')) =
          (Ticket_tbl (pending st) ++ [k])%list)))).
Proof.
  intros Cl st p k. subst st.
  unfold Session.register_user_as_participant, try_except_s.
  unfold bind_s at 1. rewrite lift_next_participant_id.
  fold (registered_participant (mirror (store ss)) given_fullname email
          contact). fold p.
  unfold bind_s at 1.
  destruct (session_execute_query_cases (InsertParticipant p)
              (SQL.insert_participant p) ss Cl)
    as [(L0 & ->) | (L0 & b1 & s1 & E1 & ->)].
  { cbn [any_exception Database.str_exception ret_s].
    do 3 eexists. split; [reflexivity |]. right. right. right.
    split; [reflexivity |]. split; [reflexivity |].
    split; [exists 0%nat; split; [lia | rewrite <- L0; destruct (links ss); reflexivity] |].
    left. reflexivity. }
  destruct (execute_query_cases (InsertParticipant p)
              (SQL.insert_participant p) (store ss))
    as (b1' & s1' & E1' & M1 & _ & C1).
  rewrite E1 in E1'. injection E1' as <- <-.
  destruct C1 as [(-> & K1 & _) | (-> & _ & _ & t1 & R1 & P1 & K1 & _)].
  { cbn [negb ret_s]. do 3 eexists. split; [reflexivity |]. left.
    cbn [store]. auto. }
  cbn [negb]. unfold bind_s at 1. rewrite lift_get_mirror.
  cbn [store]. rewrite M1.
  fold (next_participant_id (mirror (store ss))).
  fold (next_ticket_id (mirror (store ss))).
  fold (registered_ticket (mirror (store ss)) event_id). fold k.
  unfold SQL.insert_participant in R1.
  destruct (existsb _ _) in R1; [discriminate R1 |].
  injection R1 as <-.
  set (ss1 := mkSession s1 true (tl (links ss))).
  assert (Cl1 : pending (store ss1) = committed (store ss1))
    by (cbn [store ss1]; congruence).
  unfold bind_s at 1.
  destruct (session_execute_query_cases (InsertTicket k)
              (SQL.insert_ticket k) ss1 Cl1)
    as [(L1 & ->) | (L1 & b2 & s2 & E2 & ->)].
  { cbn [any_exception Database.str_exception ret_s].
    do 3 eexists. split; [reflexivity |]. right. right. right.
    split; [reflexivity |]. split; [reflexivity |].
    split.
    { exists 1%nat. split; [lia |]. rewrite <- L1. cbn [links ss1].
      unfold link_at. destruct (links ss) as [| ? [| ? ?]]; reflexivity. }
    right. left. unfold lost, new_session. cbn [store committed with_pending ss1].
    rewrite K1. split; reflexivity. }
  destruct (execute_query_cases (InsertTicket k) (SQL.insert_ticket k)
              (store ss1))
    as (b2' & s2' & E2' & M2 & _ & C2).
  rewrite E2 in E2'. injection E2' as <- <-.
  cbn [store ss1] in C2, M2.
  destruct C2 as [(-> & K2 & _) | (-> & _ & _ & t2 & R2 & P2 & K2 & _)].
  { cbn [negb ret_s]. do 3 eexists. split; [reflexivity |]. right. left.
    cbn [store]. rewrite K2, K1, M2, M1. auto. }
  cbn [negb].
  unfold SQL.insert_ticket in R2. rewrite P1 in R2.
  destruct (existsb _ _) in R2; [discriminate R2 |].
  injection R2 as <-.
  set (ss2 := mkSession s2 true (tl (links ss1))).
  assert (Cl2 : pending (store ss2) = committed (store ss2))
    by (cbn [store ss2]; congruence).
  destruct (refresh_all_data_clean ss2 Cl2)
    as (o & ss3 & R3 & C3 & P3 & O3).
  unfold bind_s. rewrite R3.
  destruct O3 as [-> | (-> & j & Hj & Lj)].
  - cbn [ret_s]. do 3 eexists. split; [reflexivity |]. right. right. left.
    rewrite P3, C3. cbn [store ss2]. rewrite K2. auto.
  - cbn [any_exception Database.str_exception ret_s].
    do 3 eexists. split; [reflexivity |]. right. right. right.
    split; [reflexivity |]. split; [reflexivity |].
    split.
    { exists (2 + j)%nat. split; [lia |]. rewrite <- Lj.
      cbn [links ss2 ss1]. unfold link_at.
      destruct (links ss) as [| ? [| ? ?]]; cbn; destruct j; reflexivity. }
    right. right. rewrite C3. cbn [store ss2]. rewrite K2. auto.
Qed.

Lemma register_user_as_participant_outcomes_witness :
  exists ss',
    Session.register_user_as_participant "ravi" 20 "Ravi"
      "ravi@example.org" "" (demo_session [] [Alive; Alive; Alive; Unreachable])
      = (Ret (false, "'NoneType' object has no attribute 'cursor'"), ss') /\
    In (mkTicket 204 20 1003 Pending 1) (Ticket_tbl (committed (store ss'))).
Proof.
  destruct (register_user_as_participant_outcomes "ravi" 20 "Ravi"
              "ravi@example.org" ""
              (demo_session [] [Alive; Alive; Alive; Unreachable]) eq_refl)
    as (ok & msg & ss' & R & _).
  exists ss'. vm_compute in R. injection R as <- <- <-.
  split; [reflexivity |]. vm_compute. auto 10.
Defined.

Lemma link_at_tl j ls : link_at j (tl ls) = link_at (S j) ls.
Proof. unfold link_at. destruct ls; [destruct j |]; reflexivity. Qed.

(** X13.  [register_user_as_volunteer] ends in one of three ways.
    'Failed to create volunteer record': nothing is committed.  Success:
    its volunteer row (identifier one above the largest cached one, the
    given type and event) is committed and, unless the reload's fetch of
    the volunteers met a storage error, cached.  And when the connection
    is lost for good at the insertion or during the reload, the
    AttributeError of [execute_query] is answered as (False, "'NoneType'
    object has no attribute 'cursor'"), in the second case with the
    volunteer committed.  The event is not looked up: for any event
    identifier the registration succeeds when the cache shows the stored
    volunteers, the connection is usable, and the insertion and its commit
    meet no storage error. *)
Theorem register_user_as_volunteer_outcomes given_username event_id
    given_fullname email contact vtype ss :
  pending (store ss) = committed (store ss) ->
  let st := store ss in
  let v := registered_volunteer (mirror st) event_id given_fullname email
             contact vtype in
  exists ok msg ss',
    Session.register_user_as_volunteer given_username event_id
      given_fullname email contact vtype ss = (Ret (ok, msg), ss') /\
    ((ok = false /\ msg = "Failed to create volunteer record" /\
      committed (store ss') = committed st /\
      mirror (store ss') = mirror st) \/
     (ok = true /\ msg = msg_registered_volunteer (mirror st) /\
      Volunteers_tbl (committed (store ss')) =
        (Volunteers_tbl (pending st) ++ [v])%list /\
      pending (store ss') = committed (store ss') /\
      (fault_at 7 (faults st) = false ->
       In v (volunteers (mirror (store ss'))))) \/
     (ok = false /\ msg = "'NoneType' object has no attribute 'cursor'" /\
      (exists j, (j < 9)%nat /\ link_at j (links ss) = Unreachable) /\
      (committed (store ss') = committed st \/
       Volunteers_tbl (committed (store ss')) =
         (Volunteers_tbl (pending st) ++ [v])%list))) /\
    (volunteers (mirror st) = Volunteers_tbl (pending st) ->
     reaches 9 (links ss) ->
     fault_at 0 (faults st) = false -> fault_at 1 (faults st) = false ->
     ok = true).
Proof.
  intros Cl st v. subst st.
  unfold Session.register_user_as_volunteer, try_except_s.
  unfold bind_s at 1. rewrite lift_next_volunteer_id.
  fold (registered_volunteer (mirror (store ss)) event_id given_fullname
          email contact vtype). fold v.
  unfold bind_s at 1.
  assert (H0 : hd Alive (links ss) = link_at 0 (links ss))
    by (unfold link_at; destruct (links ss); reflexivity).
  destruct (session_execute_query_cases (InsertVolunteer v)
              (SQL.insert_volunteer v) ss Cl)
    as [(L0 & ->) | (L0 & b1 & s1 & E1 & ->)].
  { cbn [any_exception Database.str_exception ret_s].
    do 3 eexists. split; [reflexivity |]. split.
    - right. right.
      split; [reflexivity |]. split; [reflexivity |].
      split; [exists 0%nat; split; [lia | congruence] |].
      left. reflexivity.
    - intros _ Re _ _. exfalso. apply (Re 0%nat); [lia | congruence]. }
  destruct (execute_query_cases (InsertVolunteer v)
              (SQL.insert_volunteer v) (store ss))
    as (b1' & s1' & E1' & M1 & _ & C1).
  rewrite E1 in E1'. injection E1' as <- <-.
  destruct C1 as [(-> & K1 & G) | (-> & _ & _ & t1 & R1 & P1 & K1 & F1)].
  { cbn [negb ret_s]. do 3 eexists. split; [reflexivity |]. split.
    - left. cbn [store]. auto.
    - intros MV _ F0 F1'. exfalso.
      destruct G as [G | [G | G]]; try congruence.
      revert G. unfold SQL.insert_volunteer, v, registered_volunteer,
        next_volunteer_id. cbn [Volunteer_id]. rewrite MV.
      rewrite (fresh_id_not_taken Volunteer_id). discriminate. }
  cbn [negb].
  unfold SQL.insert_volunteer in R1.
  destruct (existsb _ _) in R1; [discriminate R1 |].
  injection R1 as <-.
  set (ss1 := mkSession s1 true (tl (links ss))).
  destruct (refresh_all_data_paths ss1)
    as (o & ss2 & R2 & C2 & P2 & Paths).
  unfold bind_s. rewrite R2.
  assert (Cl1 : pending s1 = committed s1) by congruence.
  cbn [store ss1 links] in C2, P2, Paths.
  destruct Paths as [(j & Hj & _ & Lj & -> & _)
                    | (_ & -> & Rf & _)].
  - cbn [any_exception Database.str_exception ret_s].
    do 3 eexists. split; [reflexivity |]. split.
    + right. right. split; [reflexivity |]. split; [reflexivity |].
      split.
      { exists (S j). split; [lia |]. rewrite <- link_at_tl. exact Lj. }
      right. rewrite C2, K1. reflexivity.
    + intros _ Re _ _. exfalso. apply (Re (S j)); [lia |].
      rewrite <- link_at_tl. exact Lj.
  - cbn [ret_s]. do 3 eexists. split; [reflexivity |].
    split; [| reflexivity]. right. left.
    split; [reflexivity |]. split; [reflexivity |].
    split; [rewrite C2, K1; reflexivity |].
    split; [destruct P2 as [P2 | P2]; congruence |].
    intros F7.
    destruct Rf as (_ & _ & _ & _ & _ & Vo & _). cbn [Nat.ltb Nat.leb] in Vo.
    rewrite F1, fault_at_skipn in Vo. cbn [Nat.add] in Vo. rewrite F7 in Vo.
    unfold snapshot_of in Vo. rewrite P1, K1 in Vo.
    assert (E : volunteers (mirror (store ss2)) =
                (Volunteers_tbl (pending (store ss)) ++ [v])%list)
      by (destruct Vo as [Vo | Vo]; exact Vo).
    rewrite E. apply in_or_app. right. left. reflexivity.
Qed.

Lemma register_user_as_volunteer_outcomes_witness :
  exists ss',
    Session.register_user_as_volunteer "ravi" 99 "Ravi" "ravi@example.org"
      "" "General" (demo_session [] []) =
      (Ret (true, "Registered as volunteer (Volunteer ID: 3)"), ss').
Proof.
  destruct (register_user_as_volunteer_outcomes "ravi" 99 "Ravi"
              "ravi@example.org" "" "General" (demo_session [] []) eq_refl)
    as (ok & msg & ss' & R & C & S).
  assert (Re : reaches 9 (links (demo_session [] []))).
  { intros j _. unfold link_at. cbn. destruct j; discriminate. }
  rewrite (S eq_refl Re eq_refl eq_refl) in R, C.
  destruct C as [(O & _) | [(_ & Ms & _) | (O & _)]];
    [discriminate O | | discriminate O].
  exists ss'. rewrite Ms in R. exact R.
Defined.
